(** * Seal5 flow: settings store and workspace lifecycle

    A shallow embedding of [seal5/flow.py] and [seal5/cli/init.py].
    Python values are an inductive type, dictionaries are association
    lists in insertion order, raising code returns a [result], and code
    that touches the file system or starts external tools threads a
    [world] explicitly. *)

From Stdlib Require Import List String Ascii ZArith Bool Arith Lia DecimalString.
From Stdlib Require Import Floats.SpecFloat.
Import ListNotations.
Open Scope string_scope.
Open Scope list_scope.

(** ** Python values as they come out of [yaml.safe_load]

    A float is an IEEE 754 value in canonical form, as the Standard
    Library specifies them; [S754_nan] is what the loader gives for
    [.nan].  Timestamps, binary blobs and sets are left out: no constant of
    the module uses them.  Dictionary keys are strings, on which [str(key)]
    is the identity. *)

Unset Elimination Schemes.
Inductive value : Type :=
| VNone
| VBool (b : bool)
| VInt (z : Z)
| VStr (s : string)
| VList (l : list value)
| VDict (d : list (string * value))
| VFloat (f : spec_float).
Set Elimination Schemes.

Definition dict : Type := list (string * value).

(** Exceptions that the modelled code raises or lets escape. *)
Inductive exn : Type :=
| Exception (msg : string)
| RuntimeError (msg : string)
| AssertionError (msg : string)
| NameError (name : string)
| UnboundLocalError (name : string)
| TypeError (msg : string)
| KeyError (key : string)
| AttributeError (msg : string)
| FileExistsError (msg : string)
| FileNotFoundError (msg : string)
| SystemExit (code : Z)
| ExternalToolError (msg : string).

Inductive result (A : Type) : Type :=
| Ok (a : A)
| Raise (e : exn).
Arguments Ok {A} a.
Arguments Raise {A} e.

Definition is_dict (v : value) : bool :=
  match v with VDict _ => true | _ => false end.

Definition as_dict (v : value) : dict :=
  match v with VDict d => d | _ => [] end.

(** [isinstance(a, dict) and isinstance(b, dict)] *)
Definition both_dict (va vb : value) : bool := is_dict va && is_dict vb.

(** *** Dictionary primitives: [a[key]], [key in a], [a[key] = v] *)

Fixpoint dict_get (d : dict) (key : string) : option value :=
  match d with
  | [] => None
  | (k, v) :: rest => if String.eqb k key then Some v else dict_get rest key
  end.

Definition dict_mem (d : dict) (key : string) : bool :=
  match dict_get d key with Some _ => true | None => false end.

(** Assignment keeps the position of a key that is already there and
    appends a new key at the end, as Python's insertion order does. *)
Fixpoint dict_set (d : dict) (key : string) (v : value) : dict :=
  match d with
  | [] => [(key, v)]
  | (k, w) :: rest =>
      if String.eqb k key then (k, v) :: rest else (k, w) :: dict_set rest key v
  end.

Definition keys (d : dict) : list string := map fst d.

(** *** Python's [==] on these values

    [bool] is a subclass of [int], so [True == 1]; an integer and a float
    compare by their exact values, so [1 == 1.0]; a NaN differs from every
    float, itself included; dictionaries compare without regard to order;
    lists compare element by element.  (Python takes two elements that are
    the same object for equal without comparing them, which shows only on
    a NaN held by a list that both sides share; the statements below that
    depend on it leave NaN out.) *)

(** [float == int], on the exact values. *)
Definition float_eq_int (f : spec_float) (z : Z) : bool :=
  match f with
  | S754_zero _ => Z.eqb z 0
  | S754_finite s m e =>
      let n := if s then Z.neg m else Z.pos m in
      if Z.leb 0 e then Z.eqb z (n * 2 ^ e) else Z.eqb (z * 2 ^ (- e)) n
  | S754_infinity _ | S754_nan => false
  end.

Section list_eqb.
Context {A : Type} (eq : A -> A -> bool).
Fixpoint list_eqb (l m : list A) : bool :=
  match l, m with
  | [], [] => true
  | x :: l', y :: m' => eq x y && list_eqb l' m'
  | _, _ => false
  end.
End list_eqb.

Fixpoint py_eq (x y : value) {struct x} : bool :=
  match x, y with
  | VNone, VNone => true
  | VBool a, VBool b => Bool.eqb a b
  | VBool a, VInt z => Z.eqb (Z.b2z a) z
  | VInt z, VBool a => Z.eqb z (Z.b2z a)
  | VInt a, VInt b => Z.eqb a b
  | VFloat f, VFloat g => SFeqb f g
  | VFloat f, VInt z => float_eq_int f z
  | VInt z, VFloat f => float_eq_int f z
  | VFloat f, VBool a => float_eq_int f (Z.b2z a)
  | VBool a, VFloat f => float_eq_int f (Z.b2z a)
  | VStr s, VStr t => String.eqb s t
  | VList l, VList m => list_eqb py_eq l m
  | VDict d, VDict e =>
      Nat.eqb (List.length d) (List.length e)
      && forallb (fun kv => match dict_get e (fst kv) with
                            | Some w => py_eq (snd kv) w
                            | None => false
                            end) d
  | _, _ => false
  end.

(** [a != b] *)
Definition py_ne (x y : value) : bool := negb (py_eq x y).

(** ** [merge_dicts] *)

Definition conflict_message (path : list string) : string :=
  ("Conflict at " ++ String.concat "." path)%string.

Section merge_items.
(** The recursive call [merge_dicts(a[key], b[key], path + [str(key)])],
    taking [b[key]] whole. *)
Variable rec : value -> dict -> list string -> dict * option exn.

(** The body of [for key in b: ...].  [a] is updated in place, so the
    function returns its contents when the loop ends or raises, together
    with the exception raised, if any. *)
Fixpoint merge_items (b : dict) (a : dict) (path : list string)
  : dict * option exn :=
  match b with
  | [] => (a, None)
  | (key, vb) :: rest =>
      match dict_get a key with
      | Some va =>
          if both_dict va vb then
            match rec vb (as_dict va) (path ++ [key]) with
            | (da', None) =>
                merge_items rest (dict_set a key (VDict da')) path
            | (da', Some e) => (dict_set a key (VDict da'), Some e)
            end
          else if py_ne va vb
               then (a, Some (Exception (conflict_message (path ++ [key]))))
               else merge_items rest a path
      | None => merge_items rest (dict_set a key vb) path
      end
  end.
End merge_items.

Fixpoint merge_value (vb : value) (a : dict) (path : list string)
  {struct vb} : dict * option exn :=
  match vb with
  | VDict b => merge_items merge_value b a path
  | _ => (a, None)
  end.

(** [merge_dicts(a, b, path)]: the contents of [a] afterwards and the
    exception raised, if any; on [None] the function returned [a].  The
    assignment [a[key] = b[key]] stores the very object of [b]; each key of
    [b] is visited once, so nothing is changed through that share while
    the merge runs and [b] is as before. *)
Definition merge_dicts (a b : dict) (path : list string) : dict * option exn :=
  merge_items merge_value b a path.

(** [dict.update]: every key of [other] is assigned in turn. *)
Definition dict_update (a other : dict) : dict :=
  fold_left (fun acc kv => dict_set acc (fst kv) (snd kv)) other a.

(** ** Vocabulary for statements about settings trees *)

Fixpoint unique_keys (l : list string) : bool :=
  match l with
  | [] => true
  | k :: l' => negb (existsb (String.eqb k) l') && unique_keys l'
  end.

(** Keys are unique at every level, as in any Python dictionary. *)
Fixpoint wf_value (v : value) : bool :=
  match v with
  | VList l => forallb wf_value l
  | VDict d =>
      unique_keys (map fst d)
      && forallb (fun kv => wf_value (snd kv)) d
  | _ => true
  end.

Definition wf_dict (d : dict) : bool := wf_value (VDict d).

(** No NaN anywhere in the value: every part of it equals itself. *)
Fixpoint nan_free (v : value) : bool :=
  match v with
  | VFloat S754_nan => false
  | VList l => forallb nan_free l
  | VDict d => forallb (fun kv => nan_free (snd kv)) d
  | _ => true
  end.

(** The value found by following a key path downwards. *)
Fixpoint value_at (v : value) (p : list string) : option value :=
  match p with
  | [] => Some v
  | k :: p' =>
      match v with
      | VDict d =>
          match dict_get d k with
          | Some w => value_at w p'
          | None => None
          end
      | _ => None
      end
  end.

Definition get_path (d : dict) (p : list string) : option value :=
  value_at (VDict d) p.

Definition has_path (d : dict) (p : list string) : bool :=
  match get_path d p with Some _ => true | None => false end.

(** A key path below the root that both trees have, at which they are not
    both mappings and hold values that differ. *)
Definition conflict_at (a b : dict) (p : list string) : Prop :=
  p <> [] /\
  exists va vb, get_path a p = Some va /\ get_path b p = Some vb /\
                both_dict va vb = false /\ py_eq va vb = false.

(** The key paths on which [a] and [b] disagree, in the order in which a
    walk over the keys of [b] meets them. *)
Fixpoint conflicts_value (vb : value) (a : dict) (path : list string)
  {struct vb} : list (list string) :=
  match vb with
  | VDict b =>
      flat_map (fun kv =>
        match dict_get a (fst kv) with
        | Some va =>
            if both_dict va (snd kv)
            then conflicts_value (snd kv) (as_dict va) (path ++ [fst kv])
            else if py_ne va (snd kv) then [path ++ [fst kv]] else []
        | None => []
        end) b
  | _ => []
  end.

Definition conflicts (a b : dict) (path : list string) : list (list string) :=
  conflicts_value (VDict b) a path.

(** Paths to values that are not mappings. *)
Fixpoint leaf_keys_value (v : value) (path : list string) {struct v}
  : list (list string) :=
  match v with
  | VDict d => flat_map (fun kv => leaf_keys_value (snd kv) (path ++ [fst kv])) d
  | _ => [path]
  end.

Definition leaf_keys (d : dict) : list (list string) :=
  leaf_keys_value (VDict d) [].

Definition path_eqb (p q : list string) : bool := list_eqb String.eqb p q.

(** Some key path is a leaf of both trees. *)
Definition leaf_overlap (a b : dict) : bool :=
  existsb (fun p => existsb (path_eqb p) (leaf_keys b)) (leaf_keys a).


(** Every key path that both trees have holds a mapping in both. *)
Definition shares_only_mappings (a b : dict) : Prop :=
  forall p va vb, p <> [] -> get_path a p = Some va -> get_path b p = Some vb ->
                  both_dict va vb = true.

Fixpoint shares_only_mappings_value (vb : value) (a : dict) {struct vb} : bool :=
  match vb with
  | VDict b =>
      forallb (fun kv =>
        match dict_get a (fst kv) with
        | Some va => both_dict va (snd kv)
                     && shares_only_mappings_value (snd kv) (as_dict va)
        | None => true
        end) b
  | _ => true
  end.

Definition shares_only_mappingsb (a b : dict) : bool :=
  shares_only_mappings_value (VDict b) a.


(** ** Vocabulary and sample trees for the merge statements *)

(** The outcome of a merge, read off the list of disagreements. *)
Definition merge_outcome (a b : dict) (path : list string) : Prop :=
  match conflicts a b path with
  | [] => exists r, merge_dicts a b path = (r, None)
  | q :: _ =>
      snd (merge_dicts a b path) = Some (Exception (conflict_message q))
  end.

(** Once [db] has been merged into a tree, merging it again changes
    nothing; neither does merging [db] into itself. *)
Definition merge_settles (db : dict) : Prop :=
  (forall a path r, merge_dicts a db path = (r, None) ->
                    forall path', merge_dicts r db path' = (r, None))
  /\ (forall path', merge_dicts db db path' = (db, None)).

(** Two trees that disagree on two keys. *)
Definition two_conflicts_a : dict := [("x", VInt 1); ("y", VInt 2)].

Definition two_conflicts_b : dict := [("x", VInt 3); ("y", VInt 4)].

(** Two trees that disagree on [patch.mail] only. *)
Definition nested_conflict_a : dict :=
  [("patch", VDict [("author", VStr "Seal5"); ("mail", VStr "a@b.c")]);
   ("inputs", VList [])].

Definition nested_conflict_b : dict :=
  [("groups", VDict [("all", VStr "*")]);
   ("patch", VDict [("mail", VStr "x@y.z")])].

(** A mapping in one tree where the other has a leaf. *)
Definition leaf_under_mapping_a : dict := [("a", VDict [("b", VInt 1)])].

Definition leaf_under_mapping_b : dict := [("a", VInt 5)].

(** Two trees that share mappings only. *)
Definition disjoint_a : dict :=
  [("llvm", VDict [("state", VDict [("version", VStr "auto")])]);
   ("inputs", VList [])].

Definition disjoint_b : dict :=
  [("llvm", VDict [("state", VDict [("base_commit", VStr "unknown")]);
                   ("configs", VDict [])]);
   ("groups", VDict [("all", VStr "*")])].

(** Two trees that agree where they overlap ([1 == True] in Python), and
    the result of merging the second into the first. *)
Definition equal_leaf_a : dict :=
  [("patch", VDict [("author", VStr "Seal5")]); ("flag", VInt 1)].

Definition equal_leaf_b : dict :=
  [("flag", VBool true);
   ("patch", VDict [("author", VStr "Seal5"); ("mail", VStr "x@y.z")]);
   ("test", VDict [("paths", VList [VStr "MC/RISCV"])])].

Definition equal_leaf_r : dict :=
  [("patch", VDict [("author", VStr "Seal5"); ("mail", VStr "x@y.z")]);
   ("flag", VInt 1);
   ("test", VDict [("paths", VList [VStr "MC/RISCV"])])].

(** A tree whose only leaf is a NaN. *)
Definition nan_leaf : dict := [("b", VFloat S754_nan)].

(** ** [get_cmake_args] *)

(** [str(n)] for an integer. *)
Definition str_of_int (z : Z) : string :=
  DecimalString.NilZero.string_of_int (Z.to_int z).

Definition str_of_nat (n : nat) : string := str_of_int (Z.of_nat n).

(** The items of a list that [str.join] accepts: every one is a [str]. *)
Fixpoint str_items (l : list value) : result (list string) :=
  match l with
  | [] => Ok []
  | VStr s :: rest =>
      match str_items rest with
      | Ok ss => Ok (s :: ss)
      | Raise e => Raise e
      end
  | _ :: _ => Raise (TypeError "sequence item: expected str instance")
  end.

(** [sep.join(value)] *)
Definition str_join (sep : string) (l : list value) : result string :=
  match str_items l with
  | Ok ss => Ok (String.concat sep ss)
  | Raise e => Raise e
  end.

(** The text that stands for [value] in ["-D{key}={value}"]. *)
Definition cmake_value (v : value) : result string :=
  match v with
  | VBool b => Ok (if b then "ON" else "OFF")
  | VList l => str_join ";" l
  | VInt z => Ok (str_of_int z)
  | VStr s => Ok s
  | VNone | VDict _ | VFloat _ =>
      Raise (AssertionError "Unsupported cmake cfg")
  end.

Fixpoint get_cmake_args (cfg : dict) : result (list string) :=
  match cfg with
  | [] => Ok []
  | (key, v) :: rest =>
      match cmake_value v with
      | Ok s =>
          match get_cmake_args rest with
          | Ok ret => Ok (("-D" ++ key ++ "=" ++ s)%string :: ret)
          | Raise e => Raise e
          end
      | Raise e => Raise e
      end
  end.

(** ** The failing-test pattern of [test_llvm]

    [findall] with the pattern made of the text [fail_prefix], a greedy
    group of any characters but line feeds, a space and an opening
    parenthesis: matches are looked for from left to right and do not
    overlap, and the group runs to the last space-parenthesis pair of the
    line. *)

Definition newline : ascii := "010"%char.

Fixpoint strip_prefix (pre s : string) : option string :=
  match pre with
  | EmptyString => Some s
  | String c pre' =>
      match s with
      | String d s' => if Ascii.eqb c d then strip_prefix pre' s' else None
      | EmptyString => None
      end
  end.

Fixpoint until_newline (s : string) : string :=
  match s with
  | EmptyString => EmptyString
  | String c s' =>
      if Ascii.eqb c newline then EmptyString else String c (until_newline s')
  end.

(** The last position at which [sub] starts in [s], counted from [i]. *)
Fixpoint last_index (sub s : string) (i : nat) : option nat :=
  match s with
  | EmptyString => None
  | String _ s' =>
      match last_index sub s' (S i) with
      | Some j => Some j
      | None =>
          match strip_prefix sub s with
          | Some _ => Some i
          | None => None
          end
      end
  end.

Definition fail_prefix : string := "FAIL: LLVM :: ".

(** A match of the pattern at the very start of [s]: the group and the
    length of the whole match. *)
Definition match_here (s : string) : option (string * nat) :=
  match strip_prefix fail_prefix s with
  | Some rest =>
      match last_index " (" (until_newline rest) 0 with
      | Some j => Some (substring 0 j rest, String.length fail_prefix + j + 2)
      | None => None
      end
  | None => None
  end.

(** [skip] counts the characters still covered by the previous match. *)
Fixpoint findall_from (s : string) (skip : nat) : list string :=
  match s with
  | EmptyString => []
  | String _ s' =>
      match skip with
      | S n => findall_from s' n
      | O =>
          match match_here s with
          | Some (group, len) => group :: findall_from s' (len - 1)
          | None => findall_from s' 0
          end
      end
  end.

Definition findall_failing (out : string) : list string := findall_from out 0.

(** *** Runner output, line by line

    A failing line reads [FAIL: LLVM :: id (tail]; a line can also hold
    the marker after some text, as the line [XFAIL: LLVM :: id (tail] of an
    expected failure does; any other line is free text. *)

Inductive lit_line : Type :=
| Failing (id tail : string)
| Prefixed (before id tail : string)
| Other (text : string).

Definition line_text (l : lit_line) : string :=
  match l with
  | Failing id tail => (fail_prefix ++ id ++ " (" ++ tail)%string
  | Prefixed before id tail =>
      (before ++ fail_prefix ++ id ++ " (" ++ tail)%string
  | Other text => text
  end.

Fixpoint lit_text (lines : list lit_line) : string :=
  match lines with
  | [] => EmptyString
  | l :: rest => (line_text l ++ String newline (lit_text rest))%string
  end.

(** The identifiers of the lines that hold the marker, from top to
    bottom. *)
Fixpoint marked_ids (lines : list lit_line) : list string :=
  match lines with
  | [] => []
  | Failing id _ :: rest => id :: marked_ids rest
  | Prefixed _ id _ :: rest => id :: marked_ids rest
  | Other _ :: rest => marked_ids rest
  end.

Fixpoint no_newline (s : string) : bool :=
  match s with
  | EmptyString => true
  | String c s' => negb (Ascii.eqb c newline) && no_newline s'
  end.

(** [fail_prefix] starts nowhere in [s]. *)
Fixpoint quiet (s : string) : bool :=
  match s with
  | EmptyString => true
  | String _ s' =>
      match strip_prefix fail_prefix s with
      | Some _ => false
      | None => quiet s'
      end
  end.

(** The identifier and the tail of a line with the marker stay on the
    line, and the tail holds neither a space followed by a parenthesis nor
    another [fail_prefix]; the text before the marker and any other line
    hold no [fail_prefix]. *)
Definition line_ok (l : lit_line) : bool :=
  match l with
  | Failing id tail =>
      no_newline id && no_newline tail && quiet tail
      && match last_index " (" tail 0 with Some _ => false | None => true end
  | Prefixed before id tail =>
      quiet before
      && (no_newline id && no_newline tail && quiet tail
          && match last_index " (" tail 0 with Some _ => false | None => true end)
  | Other text => quiet text
  end.

(** [sub] occurs somewhere in [s]. *)
Fixpoint occurs (sub s : string) : bool :=
  match strip_prefix sub s with
  | Some _ => true
  | None =>
      match s with
      | EmptyString => false
      | String _ s' => occurs sub s'
      end
  end.

(** ** State and exceptions *)

Definition M (S A : Type) : Type := S -> result A * S.

Definition ret {S A : Type} (a : A) : M S A := fun s => (Ok a, s).

Definition raise {S A : Type} (e : exn) : M S A := fun s => (Raise e, s).

Definition bind {S A B : Type} (m : M S A) (f : A -> M S B) : M S B :=
  fun s => match m s with
           | (Ok a, s') => f a s'
           | (Raise e, s') => (Raise e, s')
           end.

Declare Scope flow_scope.
Delimit Scope flow_scope with flow.
Notation "x <- m ;; k" := (bind m (fun x => k))
  (at level 61, m at next level, right associativity) : flow_scope.
Notation "m ;; k" := (bind m (fun _ => k))
  (at level 61, right associativity) : flow_scope.

(** A pure computation that may raise. *)
Definition of_result {S A : Type} (r : result A) : M S A := fun s => (r, s).

(** [assert cond, msg] *)
Definition py_assert {S : Type} (cond : bool) (msg : string) : M S unit :=
  if cond then ret tt else raise (AssertionError msg).

(** A [for] loop over a list. *)
Fixpoint for_each {S A : Type} (l : list A) (body : A -> M S unit) : M S unit :=
  match l with
  | [] => ret tt
  | x :: rest => bind (body x) (fun _ => for_each rest body)
  end.

(** ** Paths and the file system *)

(** A [pathlib.Path]: its components; [p / name] appends one. *)
Definition path : Type := list string.

Definition path_join (p : path) (name : string) : path := p ++ [name].

Definition str_of_path (p : path) : string := String.concat "/" p.

(** [Path.name] *)
Definition path_name (p : path) : string := last p "".

(** The position of the last ['.'] of [s], counted from [i]. *)
Fixpoint rfind_dot (s : string) (i : nat) : option nat :=
  match s with
  | EmptyString => None
  | String c s' =>
      match rfind_dot s' (S i) with
      | Some j => Some j
      | None => if Ascii.eqb c "."%char then Some i else None
      end
  end.

(** [Path.suffix]: the final component from its last dot on, unless that
    dot opens or closes the name. *)
Definition path_suffix (p : path) : string :=
  let name := path_name p in
  match rfind_dot name 0 with
  | Some i =>
      if (Nat.ltb 0 i && Nat.ltb i (String.length name - 1))%nat
      then substring i (String.length name - i) name
      else ""
  | None => ""
  end.

Definition lower_char (c : ascii) : ascii :=
  let n := nat_of_ascii c in
  if (Nat.leb 65 n && Nat.leb n 90)%nat then ascii_of_nat (n + 32) else c.

(** [str.lower], on ASCII text. *)
Fixpoint str_lower (s : string) : string :=
  match s with
  | EmptyString => EmptyString
  | String c s' => String (lower_char c) (str_lower s')
  end.

Record fs_state : Type := {
  dirs : list path;
  files : list (path * string)
}.

Definition is_dir (fs : fs_state) (p : path) : bool :=
  existsb (path_eqb p) (dirs fs).

Fixpoint lookup_file (l : list (path * string)) (p : path) : option string :=
  match l with
  | [] => None
  | (q, text) :: rest => if path_eqb q p then Some text else lookup_file rest p
  end.

Definition read_file (fs : fs_state) (p : path) : option string :=
  lookup_file (files fs) p.

Definition is_file (fs : fs_state) (p : path) : bool :=
  match read_file fs p with Some _ => true | None => false end.

(** The directory that holds [p]; a path of one component stands for a
    place whose parent is outside the model and taken to exist. *)
Definition parent_is_dir (fs : fs_state) (p : path) : bool :=
  match removelast p with
  | [] => true
  | q => is_dir fs q
  end.

Definition add_dir (fs : fs_state) (p : path) : fs_state :=
  {| dirs := dirs fs ++ [p]; files := files fs |}.

Fixpoint set_file (l : list (path * string)) (p : path) (text : string)
  : list (path * string) :=
  match l with
  | [] => [(p, text)]
  | (q, old) :: rest =>
      if path_eqb q p then (q, text) :: rest else (q, old) :: set_file rest p text
  end.

(** ** What happens outside the Python objects

    [Log] is a record handed to the logger of [seal5.logging], [RootLog] one
    handed to the [logging] module itself; [SetLogFile] and [SetLogLevel]
    are the two configuration calls of [seal5.logging].  What the logger
    does with its records, writing them to its log file included, is not
    described here: [files] holds what [flow.py] and its tools write.  The
    other events are the steps on the file system and the external tools
    that were started, with their arguments. *)

Inductive level : Type := DEBUG | INFO | ERROR.

Inductive event : Type :=
| Log (lvl : level) (msg : string)
| RootLog (lvl : level) (msg : string)
| SetLogFile (p : path)
| SetLogLevel (console_level file_level : value)
| Clone (url : option string) (dest : path) (no_checkout : bool)
| Checkout (ref : string)
| Mkdir (p : path)
| WriteFile (p : path) (text : string)
| Copy (src dst : path)
| Cmake (src : path) (args : list string) (use_ninja : bool) (cwd : path)
| Make (cwd : path)
| Python (args : list string) (pythonpath : path)
| Lit (exe target : path).

(** Libraries, tools and names that [flow.py] uses without defining them.

    A tool acts on the file system and returns or raises; the test runner
    returns its output.  [ask_user], [logging] and [sys] are used in
    [initialize], yet the module neither imports nor defines them: [None]
    and [false] describe the module as it stands, in which evaluating the
    name raises [NameError]; [Some f] and [true] describe a module in which
    the name is bound, [f prompt default interactive] being the answer. *)
Class External : Type := {
  yaml_dump : dict -> string;
  yaml_safe_load : string -> result dict;
  git_clone_from : option string -> path -> bool -> M fs_state unit;
  git_checkout : path -> string -> M fs_state unit;
  utils_copy : path -> path -> M fs_state unit;
  utils_cmake : path -> list string -> bool -> path -> M fs_state unit;
  utils_make : path -> M fs_state unit;
  utils_python : list string -> path -> M fs_state unit;
  utils_exec_getout : path -> path -> M fs_state string;
  ask_user : option (string -> bool -> bool -> bool);
  logging_bound : bool;
  sys_bound : bool;
  getenv : string -> option string
}.

(** The state of one Python process: the file system, the current contents
    of the module-level dictionary [DEFAULT_SETTINGS], and what was logged,
    configured, written and started, in order. *)
Record world : Type := {
  fs : fs_state;
  default_settings : dict;
  trace : list event
}.

Definition world_emit (w : world) (e : event) : world :=
  {| fs := fs w; default_settings := default_settings w;
     trace := trace w ++ [e] |}.

Definition with_fs (w : world) (f : fs_state) : world :=
  {| fs := f; default_settings := default_settings w; trace := trace w |}.

Definition with_default (w : world) (d : dict) : world :=
  {| fs := fs w; default_settings := d; trace := trace w |}.

Definition emit (e : event) : M world unit :=
  fun w => (Ok tt, world_emit w e).

(** An external step: it is recorded, then it acts on the file system. *)
Definition external {A : Type} (e : event) (tool : M fs_state A) : M world A :=
  fun w =>
    let w1 := world_emit w e in
    let (r, f) := tool (fs w1) in (r, with_fs w1 f).

Definition log (lvl : level) (msg : string) : M world unit :=
  emit (Log lvl msg).

Definition set_log_file (p : path) : M world unit := emit (SetLogFile p).

Definition set_log_level (console_level file_level : value) : M world unit :=
  emit (SetLogLevel console_level file_level).

(** [Path.mkdir(exist_ok=...)], without [parents]. *)
Definition mkdir (p : path) (exist_ok : bool) : M world unit :=
  fun w =>
    if is_dir (fs w) p then
      if exist_ok then (Ok tt, w)
      else (Raise (FileExistsError (str_of_path p)), w)
    else if is_file (fs w) p then (Raise (FileExistsError (str_of_path p)), w)
    else if parent_is_dir (fs w) p
         then (Ok tt, world_emit (with_fs w (add_dir (fs w) p)) (Mkdir p))
         else (Raise (FileNotFoundError (str_of_path p)), w).

(** The prefixes of a path, shortest first, the path itself last. *)
Fixpoint prefixes (before p : path) : list path :=
  match p with
  | [] => []
  | c :: rest => (before ++ [c]) :: prefixes (before ++ [c]) rest
  end.

(** [Path.mkdir(parents=True, exist_ok=True)] *)
Definition mkdir_parents (p : path) : M world unit :=
  for_each (prefixes [] p) (fun q => mkdir q true).

(** [open(path, "w")] and [file.write(text)] *)
Definition write_text (p : path) (text : string) : M world unit :=
  fun w =>
    if is_dir (fs w) p then (Raise (FileExistsError (str_of_path p)), w)
    else if parent_is_dir (fs w) p
         then (Ok tt,
               world_emit
                 (with_fs w {| dirs := dirs (fs w);
                               files := set_file (files (fs w)) p text |})
                 (WriteFile p text))
         else (Raise (FileNotFoundError (str_of_path p)), w).

(** [open(path, "r")] and reading it whole *)
Definition read_text (p : path) : M world string :=
  fun w => match read_file (fs w) p with
           | Some text => (Ok text, w)
           | None => (Raise (FileNotFoundError (str_of_path p)), w)
           end.

Definition probe (f : fs_state -> path -> bool) (p : path) : M world bool :=
  fun w => (Ok (f (fs w) p), w).

(** ** Module constants *)

Inductive Seal5State : Type := UNKNOWN | UNINITIALIZED | INITIALIZED.

Definition DEFAULT_SETTINGS : dict :=
  [("logging",
    VDict [("console", VDict [("level", VStr "INFO")]);
           ("file", VDict [("level", VStr "DEBUG");
                           ("rotate", VBool false);
                           ("limit", VInt 1000)])]);
   ("patch",
    VDict [("author", VStr "Seal5"); ("mail", VStr "example@example.com")]);
   ("transform", VDict [("passes", VStr "*")]);
   ("test", VDict [("paths", VList [VStr "MC/RISCV"; VStr "CodeGen/RISCV"])]);
   ("llvm",
    VDict
      [("state",
        VDict [("version", VStr "auto"); ("base_commit", VStr "unknown")]);
       ("configs",
        VDict
          [("release",
            VDict [("options",
                    VDict [("CMAKE_BUILD_TYPE", VStr "Release");
                           ("LLVM_BUILD_TOOLS", VBool true);
                           ("LLVM_ENABLE_ASSERTIONS", VBool false);
                           ("LLVM_OPTIMIZED_TABLEGEN", VBool true);
                           ("LLVM_ENABLE_PROJECTS",
                            VList [VStr "clang"; VStr "lld"]);
                           ("LLVM_TARGETS_TO_BUILD",
                            VList [VStr "X86"; VStr "RISCV"])])]);
           ("release_assertions",
            VDict [("options",
                    VDict [("CMAKE_BUILD_TYPE", VStr "Release");
                           ("LLVM_BUILD_TOOLS", VBool true);
                           ("LLVM_ENABLE_ASSERTIONS", VBool true);
                           ("LLVM_OPTIMIZED_TABLEGEN", VBool true);
                           ("LLVM_ENABLE_PROJECTS",
                            VList [VStr "clang"; VStr "lld"]);
                           ("LLVM_TARGETS_TO_BUILD",
                            VList [VStr "X86"; VStr "RISCV"])])]);
           ("debug",
            VDict [("options",
                    VDict [("CMAKE_BUILD_TYPE", VStr "Debug");
                           ("LLVM_BUILD_TOOLS", VBool true);
                           ("LLVM_ENABLE_ASSERTIONS", VBool true);
                           ("LLVM_OPTIMIZED_TABLEGEN", VBool true);
                           ("LLVM_ENABLE_PROJECTS",
                            VList [VStr "clang"; VStr "lld"]);
                           ("LLVM_TARGETS_TO_BUILD",
                            VList [VStr "X86"; VStr "RISCV"])])])])]);
   ("inputs", VList []);
   ("extensions", VDict []);
   ("groups", VDict [("all", VStr "*")])].

(** [v[key]] *)
Definition subscript (v : value) (key : string) : result value :=
  match v with
  | VDict d =>
      match dict_get d key with
      | Some x => Ok x
      | None => Raise (KeyError key)
      end
  | _ => Raise (TypeError "object is not subscriptable by a str")
  end.

(** ** [YAMLSettings] and [Seal5Settings]

    The [data] attribute of a settings object is a reference.  In
    [initialize] it is the module-level dictionary [DEFAULT_SETTINGS]
    itself; an object read from a file has a dictionary of its own. *)

Inductive settings_obj : Type :=
| DefaultData
| OwnData (data : dict).

(** The dictionary that the [data] attribute refers to. *)
Definition data_of (s : settings_obj) : M world dict :=
  fun w => (Ok match s with
               | DefaultData => default_settings w
               | OwnData d => d
               end, w).

Module YAMLSettings.
Section YAMLSettings.
Context {E : External}.

(** [validate] is a stub that accepts everything. *)
Definition validate (data : dict) : bool := true.

(** The loader is taken on documents whose top level is a mapping. *)
Definition from_yaml_file (p : path) : M world settings_obj :=
  (text <- read_text p ;;
   data <- of_result (yaml_safe_load text) ;;
   py_assert (validate data) "" ;;
   ret (OwnData data))%flow.

Definition to_yaml (data : dict) : string := yaml_dump data.

Definition to_yaml_file (data : dict) (p : path) : M world unit :=
  write_text p (to_yaml data).

(** The contents of [self.data] afterwards and the exception that
    escapes, if any. *)
Definition merge (data other : dict) (overwrite : bool)
  : dict * option exn :=
  if overwrite then (dict_update data other, None)
  else merge_dicts data other [].
End YAMLSettings.
End YAMLSettings.

(** [self.settings.logging.console["level"]] and
    [self.settings.logging.file["level"]] *)
Definition logging_levels (data : dict) : result (value * value) :=
  match subscript (VDict data) "logging" with
  | Ok lg =>
      match subscript lg "console" with
      | Ok console =>
          match subscript console "level" with
          | Ok console_level =>
              match subscript lg "file" with
              | Ok file =>
                  match subscript file "level" with
                  | Ok file_level => Ok (console_level, file_level)
                  | Raise e => Raise e
                  end
              | Raise e => Raise e
              end
          | Raise e => Raise e
          end
      | Raise e => Raise e
      end
  | Raise e => Raise e
  end.

(** ** Module-level functions *)

(** The [directory] argument of the constructor: [None], a [str] or a
    [Path]. *)
Inductive dir_arg : Type :=
| DirNone
| DirStr (s : string)
| DirPath (p : path).

(** For [None] the [assert NotImplementedError] asserts a class, which is
    true, and [Path(None)] raises; for a [Path] the local [path] is never
    assigned. *)
Definition handle_directory (directory : dir_arg) : result path :=
  match directory with
  | DirNone => Raise (TypeError "expected str, bytes or os.PathLike object")
  | DirStr s => Ok [s]
  | DirPath _ => Raise (UnboundLocalError "path")
  end.

Definition create_seal5_directories (p : path) (directories : list string)
  : M world unit :=
  (log DEBUG "Creating Seal5 directories" ;;
   d <- probe is_dir p ;;
   (if negb d
    then raise (RuntimeError ("Not a diretory: " ++ str_of_path p)%string)
    else ret tt) ;;
   for_each directories (fun directory => mkdir_parents (path_join p directory))
  )%flow.

Definition str_of_option (o : option string) : string :=
  match o with Some s => s | None => "None" end.

(** [if ref:] *)
Definition truthy (o : option string) : bool :=
  match o with
  | Some s => negb (String.eqb s "")
  | None => false
  end.

Definition is_some {A : Type} (o : option A) : bool :=
  match o with Some _ => true | None => false end.

Fixpoint chars (s : string) : list value :=
  match s with
  | EmptyString => []
  | String c s' => VStr (String c EmptyString) :: chars s'
  end.

(** What [for x in v] goes through. *)
Definition py_iter (v : value) : result (list value) :=
  match v with
  | VList l => Ok l
  | VStr s => Ok (chars s)
  | VDict d => Ok (map (fun kv => VStr (fst kv)) d)
  | VNone | VBool _ | VInt _ | VFloat _ =>
      Raise (TypeError "object is not iterable")
  end.

Section functions.
Context {E : External}.

Definition clone_llvm_repo (dest : path) (clone_url ref : option string)
  : M world unit :=
  (log DEBUG ("Cloning LLVM repository: " ++ str_of_option clone_url)%string ;;
   external (Clone clone_url dest (is_some ref))
            (git_clone_from clone_url dest (is_some ref)) ;;
   if truthy ref
   then (log DEBUG ("Checking out branch: " ++ str_of_option ref)%string ;;
         external (Checkout (str_of_option ref))
                  (git_checkout dest (str_of_option ref)))
   else ret tt)%flow.

(** [debug] is any Python object; the body does not use it. *)
Definition build_llvm (src dest : path) (debug : value)
           (use_ninja verbose : bool) (cmake_options : dict)
  : M world unit :=
  (cmake_args <- of_result (get_cmake_args cmake_options) ;;
   mkdir dest true ;;
   external (Cmake (path_join src "llvm") cmake_args use_ninja dest)
            (utils_cmake (path_join src "llvm") cmake_args use_ninja dest) ;;
   external (Make dest) (utils_make dest))%flow.

(** The loop of [test_llvm]; [failing_tests] is extended in place. *)
Fixpoint test_llvm_loop (lit_exe base : path) (test_paths : list value)
         (failing_tests : list string) : M world (list string) :=
  match test_paths with
  | [] => ret failing_tests
  | VStr test_path :: rest =>
      (out <- external (Lit lit_exe (path_join base test_path))
                       (utils_exec_getout lit_exe (path_join base test_path)) ;;
       test_llvm_loop lit_exe base rest
                      (failing_tests ++ findall_failing out))%flow
  | _ :: _ => raise (TypeError "unsupported operand type(s) for /")
  end.

(** [test_paths] is the value found in the settings. *)
Definition test_llvm (base build_dir : path) (test_paths : value)
           (verbose : bool) : M world (list string) :=
  let lit_exe := path_join (path_join build_dir "bin") "llvm-lit" in
  match py_iter test_paths with
  | Ok l => test_llvm_loop lit_exe base l []
  | Raise e => raise e
  end.
End functions.

(** ** [Seal5Flow] *)

Module Seal5Flow.

Record t : Type := {
  directory : path;
  name : string;
  state : Seal5State;
  settings : option settings_obj
}.

Definition meta_dir (self : t) : path := path_join (directory self) ".seal5".
Definition settings_file (self : t) : path :=
  path_join (meta_dir self) "settings.yml".
Definition deps_dir (self : t) : path := path_join (meta_dir self) "deps".
Definition build_dir (self : t) : path := path_join (meta_dir self) "build".
Definition install_dir (self : t) : path :=
  path_join (meta_dir self) "install".
Definition logs_dir (self : t) : path := path_join (meta_dir self) "logs".
Definition models_dir (self : t) : path := path_join (meta_dir self) "models".
Definition inputs_dir (self : t) : path := path_join (meta_dir self) "inputs".
Definition temp_dir (self : t) : path := path_join (meta_dir self) "temp".
Definition gen_dir (self : t) : path := path_join (meta_dir self) "gen".
Definition log_file_path (self : t) : path :=
  path_join (logs_dir self) "seal5.log".

(** [check] is [pass]. *)
Definition check (self : t) : t := self.

Definition with_settings (self : t) (s : option settings_obj) : t :=
  {| directory := directory self; name := name self;
     state := state self; settings := s |}.

(** A method runs on the object and the process around it. *)
Definition obj : Type := t * world.

Definition in_world {A : Type} (m : M world A) : M obj A :=
  fun o => let (r, w) := m (snd o) in (r, (fst o, w)).

Definition get_self : M obj t := fun o => (Ok (fst o), o).

Definition set_settings (s : option settings_obj) : M obj unit :=
  fun o => (Ok tt, (with_settings (fst o) s, snd o)).

(** [self.settings.data] *)
Definition read_data : M obj dict :=
  fun o =>
    match settings (fst o) with
    | None =>
        (Raise (AttributeError "'NoneType' object has no attribute 'data'"), o)
    | Some DefaultData => (Ok (default_settings (snd o)), o)
    | Some (OwnData d) => (Ok d, o)
    end.

(** An update in place of the dictionary behind [self.settings.data]. *)
Definition write_data (d : dict) : M obj unit :=
  fun o =>
    match settings (fst o) with
    | None =>
        (Raise (AttributeError "'NoneType' object has no attribute 'data'"), o)
    | Some DefaultData => (Ok tt, (fst o, with_default (snd o) d))
    | Some (OwnData _) => (Ok tt, (with_settings (fst o) (Some (OwnData d)), snd o))
    end.

Section methods.
Context {E : External}.

Definition __init__ (directory : dir_arg) (name : string) : M world t :=
  (d <- of_result (handle_directory directory) ;;
   let self := check {| directory := d; name := name;
                        state := UNKNOWN; settings := None |} in
   has_settings <- probe is_file (settings_file self) ;;
   self <- (if has_settings : bool
            then (s <- YAMLSettings.from_yaml_file (settings_file self) ;;
                  ret (with_settings self (Some s)))
            else ret self) ;;
   has_logs <- probe is_dir (logs_dir self) ;;
   (if has_logs : bool
    then (set_log_file (log_file_path self) ;;
          match settings self with
          | Some s =>
              (data <- data_of s ;;
               lv <- of_result (logging_levels data) ;;
               set_log_level (fst lv) (snd lv))
          | None => ret tt
          end)
    else ret tt) ;;
   ret self)%flow.

(** [ask_user(prompt, default=False, interactive=interactive)] *)
Definition confirm (prompt : string) (interactive : bool) : M world bool :=
  match ask_user with
  | Some f => ret (f prompt false interactive)
  | None => raise (NameError "ask_user")
  end.

(** [logging.error(msg)] followed by [sys.exit(1)] *)
Definition abort (msg : string) : M world unit :=
  ((if logging_bound then emit (RootLog ERROR msg)
    else raise (NameError "logging")) ;;
   if sys_bound then raise (SystemExit 1) else raise (NameError "sys"))%flow.

Definition layout : list string :=
  ["deps"; "models"; "logs"; "build"; "install"; "temp"; "inputs"; "gen"].

Definition initialize (interactive clone : bool)
           (clone_url clone_ref : option string) (force verbose : bool)
  : M obj unit :=
  (self <- get_self ;;
   in_world (log INFO "Initializing Seal5") ;;
   root <- in_world (probe is_dir (directory self)) ;;
   (if negb root
    then in_world
           ((if negb clone
             then (yes <- confirm "Clone LLVM repository?" interactive ;;
                   if negb yes
                   then abort "Target directory does not exist! Aborting..."
                   else ret tt)
             else ret tt) ;;
            clone_llvm_repo (directory self) clone_url clone_ref)
    else ret tt) ;;
   meta <- in_world (probe is_dir (meta_dir self)) ;;
   (if meta : bool
    then in_world
           (if negb force
            then (yes <- confirm "Overwrite existing .seal5 diretcory?"
                                 interactive ;;
                  if negb yes
                  then abort ("Directory " ++ str_of_path (meta_dir self)
                              ++ " already exists! Aborting...")%string
                  else ret tt)
            else ret tt)
    else ret tt) ;;
   in_world (mkdir (meta_dir self) true) ;;
   in_world (create_seal5_directories (meta_dir self) layout) ;;
   set_settings (Some DefaultData) ;;
   data <- read_data ;;
   in_world (YAMLSettings.to_yaml_file data (settings_file self)) ;;
   in_world (set_log_file (log_file_path self)) ;;
   data <- read_data ;;
   lv <- of_result (logging_levels data) ;;
   in_world (set_log_level (fst lv) (snd lv)) ;;
   in_world (log INFO "Completed initialization of Seal5"))%flow.

Definition load_cfg (file : path) (overwrite : bool) : M obj unit :=
  (self <- get_self ;;
   new_settings <- in_world (YAMLSettings.from_yaml_file file) ;;
   data <- read_data ;;
   other <- in_world (data_of new_settings) ;;
   let merged := YAMLSettings.merge data other overwrite in
   write_data (fst merged) ;;
   match snd merged with
   | Some e => raise e
   | None => ret tt
   end ;;
   data <- read_data ;;
   in_world (YAMLSettings.to_yaml_file data (settings_file self)))%flow.

Definition parse_coredsl (self : t) (file out_dir : path) (verbose : bool)
  : M world unit :=
  let pythonpath := path_join (deps_dir self) "M2-ISA-R" in
  let args := ["-m"; "m2isar.frontends.coredsl2_seal5.parser";
               str_of_path file; "-o"; str_of_path out_dir] in
  external (Python args pythonpath) (utils_python args pythonpath).

Definition load_cdsl (file : path) (verbose overwrite : bool) : M obj unit :=
  (self <- get_self ;;
   is_f <- in_world (probe is_file file) ;;
   py_assert is_f "TODO" ;;
   let filename := path_name file in
   let dest := path_join (inputs_dir self) filename in
   loaded <- in_world (probe is_file dest) ;;
   (if loaded && negb overwrite
    then raise (RuntimeError ("File " ++ filename ++ " already loaded!")%string)
    else ret tt) ;;
   in_world (external (Copy file dest) (utils_copy file dest)) ;;
   data <- read_data ;;
   inputs <- of_result (subscript (VDict data) "inputs") ;;
   match inputs with
   | VList l => write_data (dict_set data "inputs" (VList (l ++ [VStr filename])))
   | _ => raise (AttributeError "object has no attribute 'append'")
   end ;;
   let dest := models_dir self in
   in_world (parse_coredsl self file dest verbose) ;;
   data <- read_data ;;
   in_world (YAMLSettings.to_yaml_file data (settings_file self)))%flow.

Definition load_one (file : path) (verbose overwrite : bool) : M obj unit :=
  (in_world (log INFO ("Processing file: " ++ str_of_path file)%string) ;;
   let ext := path_suffix file in
   if existsb (String.eqb (str_lower ext)) [".yml"; ".yaml"]
   then load_cfg file overwrite
   else if existsb (String.eqb (str_lower ext)) [".core_desc"]
        then load_cdsl file verbose overwrite
        else raise (RuntimeError ("Unsupported input type: " ++ ext)%string)
  )%flow.

Definition load (files : list path) (verbose overwrite : bool) : M obj unit :=
  (in_world (log INFO "Loading Seal5 inputs") ;;
   for_each files (fun file => load_one file verbose overwrite) ;;
   in_world (log INFO "Compledted load of Seal5 inputs"))%flow.

(** [configs.get(config, None)], on a mapping. *)
Definition dict_get_or_none (configs : value) (config : string)
  : result value :=
  match configs with
  | VDict c =>
      match dict_get c config with
      | Some v => Ok v
      | None => Ok VNone
      end
  | _ => Raise (AttributeError "object has no attribute 'get'")
  end.

Definition is_none (v : value) : bool :=
  match v with VNone => true | _ => false end.

(** The call passes [cmake_options] as the third positional argument of
    [build_llvm], which is [debug]; [use_ninja], [verbose] and
    [cmake_options] keep their defaults. *)
Definition build (config : string) (verbose : bool) : M obj unit :=
  (self <- get_self ;;
   in_world (log INFO "Building Seal5 LLVM") ;;
   data <- read_data ;;
   llvm <- of_result (subscript (VDict data) "llvm") ;;
   configs <- of_result (subscript llvm "configs") ;;
   llvm_config <- of_result (dict_get_or_none configs config) ;;
   py_assert (negb (is_none llvm_config))
             ("Invalid llvm config: " ++ config)%string ;;
   cmake_options <- of_result (subscript llvm_config "options") ;;
   in_world (build_llvm (directory self) (path_join (build_dir self) config)
                        cmake_options false false []) ;;
   in_world (log INFO "Completed build of Seal5 LLVM"))%flow.

Definition test (debug verbose ignore_error : bool) : M obj unit :=
  (self <- get_self ;;
   in_world (log INFO "Testing Seal5 LLVM") ;;
   let name := if debug then "debug" else "release" in
   data <- read_data ;;
   test_settings <- of_result (subscript (VDict data) "test") ;;
   test_paths <- of_result (subscript test_settings "paths") ;;
   failing_tests <-
     in_world (test_llvm (path_join (path_join (directory self) "llvm") "test")
                         (path_join (build_dir self) name)
                         test_paths verbose) ;;
   (if Nat.ltb 0 (List.length failing_tests)
    then (in_world (log ERROR (str_of_nat (List.length failing_tests)
                               ++ " tests failed: "
                               ++ String.concat ", " failing_tests)%string) ;;
          if negb ignore_error
          then raise (RuntimeError "Tests failed!")
          else ret tt)
    else ret tt) ;;
   in_world (log INFO "Completed test of Seal5 LLVM"))%flow.
End methods.
End Seal5Flow.

(** ** The [init] subcommand *)

Record init_args : Type := {
  arg_dir : option string;
  arg_name : string;
  arg_non_interactive : bool;
  arg_clone : bool;
  arg_clone_url : string;
  arg_clone_ref : string;
  arg_force : bool;
  arg_verbose : bool
}.

Section cli.
Context {E : External}.

(** What the process is left with: the result of [initialize] or the
    exception that escaped, the manager if it was built, and the world. *)
Definition handle (args : init_args) (w : world)
  : result unit * (option Seal5Flow.t * world) :=
  let (dir, w1) :=
    match arg_dir args with
    | Some d => (DirStr d, w)
    | None =>
        match getenv "SEAL5_HOME" with
        | Some home_dir => (DirStr home_dir, w)
        | None =>
            (DirNone,
             world_emit w (Log ERROR "Seal5_HOME Env var not specified !!!"))
        end
    end in
  match Seal5Flow.__init__ dir (arg_name args) w1 with
  | (Ok seal5_flow, w2) =>
      let (r, o) :=
        Seal5Flow.initialize
          (negb (arg_non_interactive args)) (arg_clone args)
          (Some (arg_clone_url args)) (Some (arg_clone_ref args))
          (arg_force args) (arg_verbose args) (seal5_flow, w2) in
      (r, (Some (fst o), snd o))
  | (Raise e, w2) => (Raise e, (None, w2))
  end.
End cli.

(** The exit status of a Python process whose main call ended with [r]. *)
Definition exit_status (r : result unit) : Z :=
  match r with
  | Ok _ => 0
  | Raise (SystemExit code) => code
  | Raise _ => 1
  end.

(** ** A sample process, used to run the model

    A one-line rendering stands for [yaml.dump]; the loader knows the
    documents listed in [known_documents]; the tools succeed, the copy
    creates its target, and the test runner prints two failing tests for the
    first suite of the default settings. *)

Fixpoint render_value (v : value) : string :=
  match v with
  | VNone => "null"
  | VBool b => if b then "true" else "false"
  | VInt z => str_of_int z
  | VStr s => ("'" ++ s ++ "'")%string
  | VList l => ("[" ++ String.concat ", " (map render_value l) ++ "]")%string
  | VDict d =>
      ("{" ++ String.concat ", "
                (map (fun kv => (fst kv ++ ": " ++ render_value (snd kv))%string) d)
           ++ "}")%string
  | VFloat (S754_zero s) => if s then "-0.0" else "0.0"
  | VFloat (S754_infinity s) => if s then "-.inf" else ".inf"
  | VFloat S754_nan => ".nan"
  | VFloat (S754_finite s m e) =>
      ((if s then "-" else "") ++ str_of_int (Z.pos m) ++ "p" ++ str_of_int e)%string
  end.

Definition render (d : dict) : string := render_value (VDict d).

Definition fragment : dict :=
  [("patch", VDict [("author", VStr "Seal5")]);
   ("extensions", VDict [("XExample", VDict [("vendor", VBool true)])])].

Definition known_documents : list dict := [DEFAULT_SETTINGS; fragment].

Definition sample_load (text : string) : result dict :=
  match find (fun d => String.eqb (render d) text) known_documents with
  | Some d => Ok d
  | None => Raise (Exception "could not parse the document")
  end.

Definition sample_copy (src dst : path) : M fs_state unit :=
  fun f =>
    match read_file f src with
    | Some text =>
        (Ok tt, {| dirs := dirs f; files := set_file (files f) dst text |})
    | None => (Raise (FileNotFoundError (str_of_path src)), f)
    end.

Definition sample_lit_output : string :=
  "-- Testing: 3 tests
PASS: LLVM :: MC/RISCV/ok.s (1 of 3)
FAIL: LLVM :: MC/RISCV/xexample-invalid.s (2 of 3)
FAIL: LLVM :: MC/RISCV/xexample (valid).s (3 of 3)
".

Definition sample_lit (exe target : path) : M fs_state string :=
  fun f => (Ok (if String.eqb (path_name target) "MC/RISCV"
                then sample_lit_output else "PASS: LLVM :: a.ll (1 of 1)"), f).

(** The module as it stands: [ask_user], [logging] and [sys] unbound. *)
Definition as_written : External := {|
  yaml_dump := render;
  yaml_safe_load := sample_load;
  git_clone_from := fun _ dest _ f => (Ok tt, add_dir f dest);
  git_checkout := fun _ _ f => (Ok tt, f);
  utils_copy := sample_copy;
  utils_cmake := fun _ _ _ _ f => (Ok tt, f);
  utils_make := fun _ f => (Ok tt, f);
  utils_python := fun _ _ f => (Ok tt, f);
  utils_exec_getout := sample_lit;
  ask_user := None;
  logging_bound := false;
  sys_bound := false;
  getenv := fun _ => None
|}.

(** The same with the three names bound, the prompt answering with its
    default when it is not interactive and with yes when it is. *)
Definition with_names_bound : External := {|
  yaml_dump := render;
  yaml_safe_load := sample_load;
  git_clone_from := fun _ dest _ f => (Ok tt, add_dir f dest);
  git_checkout := fun _ _ f => (Ok tt, f);
  utils_copy := sample_copy;
  utils_cmake := fun _ _ _ _ f => (Ok tt, f);
  utils_make := fun _ f => (Ok tt, f);
  utils_python := fun _ _ f => (Ok tt, f);
  utils_exec_getout := sample_lit;
  ask_user := Some (fun (_ : string) (by_default interactive : bool) =>
                      if interactive then true else by_default);
  logging_bound := true;
  sys_bound := true;
  getenv := fun _ => None
|}.

Definition root : path := ["/work/llvm-project"].

(** A checkout without a workspace, with one model source next to it. *)
Definition fresh_fs : fs_state := {|
  dirs := [root];
  files := [(["/work"; "Example.core_desc"], "InstructionSet XExample {}")]
|}.

Definition fresh_world : world :=
  {| fs := fresh_fs; default_settings := DEFAULT_SETTINGS; trace := [] |}.

Definition fresh_flow : Seal5Flow.t :=
  {| Seal5Flow.directory := root; Seal5Flow.name := "default";
     Seal5Flow.state := UNKNOWN; Seal5Flow.settings := None |}.

(** The process after a first [initialize]. *)
Definition initialized : Seal5Flow.obj :=
  snd (Seal5Flow.initialize (E := as_written) false false None None false false
                            (fresh_flow, fresh_world)).

(** A later process started on the initialized workspace. *)
Definition later_world : world :=
  {| fs := fs (snd initialized); default_settings := DEFAULT_SETTINGS;
     trace := [] |}.

(** ** Vocabulary and sample data for the flow statements *)

(** A relation between the state before and after that a computation
    maintains, however it ends. *)
Definition preserves {S A : Type} (R : S -> S -> Prop) (m : M S A) : Prop :=
  forall s r s', m s = (r, s') -> R s s'.

(** The module-level default dictionary is as before. *)
Definition same_default (w w' : world) : Prop :=
  default_settings w' = default_settings w.

(** Directories, files and the default dictionary are as before. *)
Definition same_files (w w' : world) : Prop :=
  fs w' = fs w /\ default_settings w' = default_settings w.

(** The manager is in the state it was in. *)
Definition same_state (o o' : Seal5Flow.obj) : Prop :=
  Seal5Flow.state (fst o') = Seal5Flow.state (fst o).

(** The manager that the constructor builds in that later process. *)
Definition later_flow : Seal5Flow.t :=
  {| Seal5Flow.directory := root; Seal5Flow.name := "default";
     Seal5Flow.state := UNKNOWN;
     Seal5Flow.settings := Some (OwnData DEFAULT_SETTINGS) |}.

Definition later_world_logging : world :=
  {| fs := fs later_world; default_settings := DEFAULT_SETTINGS;
     trace := [SetLogFile (Seal5Flow.log_file_path later_flow);
               SetLogLevel (VStr "INFO") (VStr "DEBUG")] |}.

(** [seal5 init --non-interactive] on the initialized workspace. *)
Definition init_again : init_args :=
  {| arg_dir := Some "/work/llvm-project"; arg_name := "default";
     arg_non_interactive := true; arg_clone := false;
     arg_clone_url := "https://github.com/llvm/llvm-project.git";
     arg_clone_ref := "llvmorg-18.1.0-rc3";
     arg_force := false; arg_verbose := false |}.

(** A relation on worlds, read on the world of an object. *)
Definition on_world (R : world -> world -> Prop) (o o' : Seal5Flow.obj) : Prop :=
  R (snd o) (snd o').

(** The manager, the files and the default dictionary are as before. *)
Definition same_self_files (o o' : Seal5Flow.obj) : Prop :=
  fst o' = fst o /\ same_files (snd o) (snd o').

(** The command line of the parser for [file], writing to the models
    directory. *)
Definition parser_args (self : Seal5Flow.t) (file : path) : list string :=
  ["-m"; "m2isar.frontends.coredsl2_seal5.parser";
   str_of_path file; "-o"; str_of_path (Seal5Flow.models_dir self)].

(** [data'] is [data] with [name] appended to the list [l] that it holds
    under [inputs]: the list there is the longer one, every other key
    holds what it held, and the keys are the same, in the same order. *)
Definition inputs_appended (data data' : dict) (l : list value)
           (name : string) : Prop :=
  dict_get data' "inputs" = Some (VList (l ++ [VStr name]))
  /\ (forall k, k <> "inputs" -> dict_get data' k = dict_get data k)
  /\ keys data' = keys data.

Definition example_source : path := ["/work"; "Example.core_desc"].

(** Any configure step recorded along the way comes without flags. *)
Definition no_new_flags (w w' : world) : Prop :=
  forall src args use_ninja cwd,
    In (Cmake src args use_ninja cwd) (trace w') ->
    In (Cmake src args use_ninja cwd) (trace w) \/ args = [].

(** The options of the configuration [release] in [DEFAULT_SETTINGS]. *)
Definition release_options : dict :=
  [("CMAKE_BUILD_TYPE", VStr "Release");
   ("LLVM_BUILD_TOOLS", VBool true);
   ("LLVM_ENABLE_ASSERTIONS", VBool false);
   ("LLVM_OPTIMIZED_TABLEGEN", VBool true);
   ("LLVM_ENABLE_PROJECTS", VList [VStr "clang"; VStr "lld"]);
   ("LLVM_TARGETS_TO_BUILD", VList [VStr "X86"; VStr "RISCV"])].

(** [logger.error("%d tests failed: %s", len(failing_tests),
    ", ".join(failing_tests))] *)
Definition failure_record (failing_tests : list string) : event :=
  Log ERROR (str_of_nat (List.length failing_tests) ++ " tests failed: "
             ++ String.concat ", " failing_tests)%string.

Definition sample_failing : list string :=
  ["MC/RISCV/xexample-invalid.s"; "MC/RISCV/xexample (valid).s"].

(** An output with a passing test, an expected failure and a failure. *)
Definition sample_lines_xfail : list lit_line :=
  [Other "-- Testing: 3 tests";
   Other "PASS: LLVM :: MC/RISCV/ok.s (1 of 3)";
   Prefixed "X" "MC/RISCV/known-bad.s" "2 of 3)";
   Failing "MC/RISCV/xexample-invalid.s" "3 of 3)"].

(** The sample process after the two test suites of the default settings
    have run. *)
Definition tested_world : world :=
  snd (test_llvm (E := as_written)
         (path_join (path_join root "llvm") "test")
         (path_join (Seal5Flow.build_dir fresh_flow) "release")
         (VList [VStr "MC/RISCV"; VStr "CodeGen/RISCV"]) false
         (world_emit (snd initialized) (Log INFO "Testing Seal5 LLVM"))).

(** * Further code of [flow.py] and of the subcommands *)

(** ** Vocabulary for more statements about [merge_dicts] *)


(** The keys of [b] that [a] lacks, in the order of [b]. *)
Definition new_keys (a b : dict) : list string :=
  filter (fun k => negb (dict_mem a k)) (keys b).

(** ** Vocabulary for [get_cmake_args] and [build_llvm] *)

Definition is_str (v : value) : bool :=
  match v with VStr _ => true | _ => false end.

(** The option values that [get_cmake_args] can render: booleans,
    integers, strings and lists of strings. *)
Definition cmake_supported (v : value) : bool :=
  match v with
  | VBool _ | VInt _ | VStr _ => true
  | VList l => forallb is_str l
  | VNone | VDict _ | VFloat _ => false
  end.

(** [flag] is the definition of option [kv]. *)
Definition flag_of (kv : string * value) (flag : string) : Prop :=
  exists s, cmake_value (snd kv) = Ok s
            /\ flag = ("-D" ++ fst kv ++ "=" ++ s)%string.

(** ** A sample process whose test runner reports no failure *)

Definition passing_lit (exe target : path) : M fs_state string :=
  fun f => (Ok "-- Testing: 1 tests
PASS: LLVM :: a.ll (1 of 1)
", f).

Definition with_passing_runner : External := {|
  yaml_dump := render;
  yaml_safe_load := sample_load;
  git_clone_from := fun _ dest _ f => (Ok tt, add_dir f dest);
  git_checkout := fun _ _ f => (Ok tt, f);
  utils_copy := sample_copy;
  utils_cmake := fun _ _ _ _ f => (Ok tt, f);
  utils_make := fun _ f => (Ok tt, f);
  utils_python := fun _ _ f => (Ok tt, f);
  utils_exec_getout := passing_lit;
  ask_user := None;
  logging_bound := false;
  sys_bound := false;
  getenv := fun _ => None
|}.

(** The runner of [E] never prints the failure marker. *)
Definition quiet_runner (E : External) : Prop :=
  forall exe target f out f',
    utils_exec_getout exe target f = (Ok out, f') -> quiet out = true.

(** ** Vocabulary for the steps that make directories *)

(** Every directory is still there, and the files and the default
    dictionary are as before. *)
Definition only_adds_dirs (w w' : world) : Prop :=
  (forall q, is_dir (fs w) q = true -> is_dir (fs w') q = true)
  /\ files (fs w') = files (fs w)
  /\ default_settings w' = default_settings w.

(** ** Vocabulary for what [initialize] leaves alone *)

(** The events that stay inside the process and its workspace: records,
    logger configuration, directories made and files written.  The others
    start an external tool. *)
Definition is_local (e : event) : bool :=
  match e with
  | Log _ _ | RootLog _ _ | SetLogFile _ | SetLogLevel _ _
  | Mkdir _ | WriteFile _ _ => true
  | Clone _ _ _ | Checkout _ | Copy _ _ | Cmake _ _ _ _ | Make _
  | Python _ _ | Lit _ _ => false
  end.

(** Every directory is still there, every file but [keep] reads as
    before, the default dictionary is as before, and no external tool was
    started. *)
Definition workspace_kept (keep : path) (w w' : world) : Prop :=
  (forall q, is_dir (fs w) q = true -> is_dir (fs w') q = true)
  /\ (forall q, q <> keep -> read_file (fs w') q = read_file (fs w) q)
  /\ default_settings w' = default_settings w
  /\ exists l, trace w' = trace w ++ l /\ forallb is_local l = true.

(** ** Sample processes without a target directory *)

Definition empty_world : world :=
  {| fs := {| dirs := []; files := [] |};
     default_settings := DEFAULT_SETTINGS; trace := [] |}.

(** The sample tools with a clone that fails. *)
Definition with_failing_clone : External := {|
  yaml_dump := render;
  yaml_safe_load := sample_load;
  git_clone_from :=
    fun _ _ _ f => (Raise (Exception "GitCommandError: clone failed"), f);
  git_checkout := fun _ _ f => (Ok tt, f);
  utils_copy := sample_copy;
  utils_cmake := fun _ _ _ _ f => (Ok tt, f);
  utils_make := fun _ f => (Ok tt, f);
  utils_python := fun _ _ f => (Ok tt, f);
  utils_exec_getout := sample_lit;
  ask_user := None;
  logging_bound := false;
  sys_bound := false;
  getenv := fun _ => None
|}.

(** ** Vocabulary for a first [initialize] *)

(** The target directory and its ancestors exist, and no file stands where
    the workspace puts a directory, nor a directory where it puts its
    settings file. *)
Definition room_for_workspace (self : Seal5Flow.t) (f : fs_state) : Prop :=
  is_dir f (Seal5Flow.directory self) = true
  /\ (forall q, In q (prefixes [] (Seal5Flow.directory self)) ->
                is_dir f q = true)
  /\ is_file f (Seal5Flow.meta_dir self) = false
  /\ (forall x, In x Seal5Flow.layout ->
                is_file f (path_join (Seal5Flow.meta_dir self) x) = false)
  /\ is_dir f (Seal5Flow.settings_file self) = false.

(** ** Sample settings fragments on disk *)

(** A fragment that disagrees with the default settings on [patch.mail]
    after adding a group. *)
Definition clashing_fragment : dict :=
  [("groups", VDict [("mine", VStr "XExample")]);
   ("patch", VDict [("mail", VStr "someone@example.com")])].

Definition sample_load_more (text : string) : result dict :=
  match find (fun d => String.eqb (render d) text)
             (known_documents ++ [clashing_fragment]) with
  | Some d => Ok d
  | None => Raise (Exception "could not parse the document")
  end.

(** The sample tools with a loader that also knows [clashing_fragment] and
    a model parser that fails. *)
Definition with_failing_parser : External := {|
  yaml_dump := render;
  yaml_safe_load := sample_load_more;
  git_clone_from := fun _ dest _ f => (Ok tt, add_dir f dest);
  git_checkout := fun _ _ f => (Ok tt, f);
  utils_copy := sample_copy;
  utils_cmake := fun _ _ _ _ f => (Ok tt, f);
  utils_make := fun _ f => (Ok tt, f);
  utils_python :=
    fun _ _ f => (Raise (ExternalToolError "parser failed"), f);
  utils_exec_getout := sample_lit;
  ask_user := None;
  logging_bound := false;
  sys_bound := false;
  getenv := fun _ => None
|}.

Definition fragment_file : path := ["/work"; "fragment.yml"].

Definition clashing_file : path := ["/work"; "clashing.yml"].

(** The later process with the two fragments next to the checkout. *)
Definition world_with_fragments : world :=
  {| fs := {| dirs := dirs (fs later_world);
              files := files (fs later_world)
                       ++ [(fragment_file, render fragment);
                           (clashing_file, render clashing_fragment)] |};
     default_settings := DEFAULT_SETTINGS; trace := [] |}.

(** The settings after [fragment] has been merged into the defaults. *)
Definition defaults_with_fragment : dict :=
  fst (merge_dicts DEFAULT_SETTINGS fragment []).


(** ** [clean]

    [clean_path] and [Seal5Flow.clean] raise [NotImplementedError], which
    the exceptions above do not include: the outcome of a call says which
    of the two kinds escaped. *)

Inductive outcome (A : Type) : Type :=
| Returned (a : A)
| Raised (e : exn)
| NotImplemented (msg : string).
Arguments Returned {A} a.
Arguments Raised {A} e.
Arguments NotImplemented {A} msg.

Definition outcome_of {A : Type} (r : result A) : outcome A :=
  match r with
  | Ok a => Returned a
  | Raise e => Raised e
  end.

Definition clean_path (p : path) (interactive : bool) : outcome unit :=
  NotImplemented "".

Module Seal5FlowStages.

(** The statements after the unconditional [raise] are never reached. *)
Definition clean (verbose interactive : bool) (o : Seal5Flow.obj)
  : outcome unit * Seal5Flow.obj :=
  let (r, o1) :=
    Seal5Flow.in_world (log INFO "Cleaning Seal5 directories") o in
  match r with
  | Ok _ => (NotImplemented "", o1)
  | Raise e => (Raised e, o1)
  end.

End Seal5FlowStages.

(** *** The [clean] subcommand *)

(** [args.name] is a string by default and a list of one string when the
    option is given. *)
Inductive name_arg : Type :=
| NameStr (s : string)
| NameList (first : string) (others : list string).

Record clean_args : Type := {
  clean_name : name_arg;
  clean_DIR : string;
  clean_temp : bool;
  clean_patches : bool;
  clean_models : bool;
  clean_inputs : bool;
  clean_logs : bool;
  clean_install : bool;
  clean_build : bool;
  clean_deps : bool;
  clean_non_interactive : bool;
  clean_verbose : bool
}.

(** The keyword arguments of the call in the subcommand, and those that
    [Seal5Flow.clean] takes. *)
Definition clean_call_keywords : list string :=
  ["temp"; "patches"; "models"; "inputs"; "logs"; "install"; "build"; "deps";
   "verbose"; "interactive"].

Definition clean_parameters : list string := ["verbose"; "interactive"].

Module CleanCli.
Section CleanCli.
Context {E : External}.

(** The call binds its arguments before the body of [clean] runs: a
    keyword that [clean] does not take raises [TypeError] there (the
    wording of its message varies with the Python version). *)
Definition handle (args : clean_args) (w : world)
  : outcome unit * (option Seal5Flow.t * world) :=
  let name := match clean_name args with
              | NameList first _ => first
              | NameStr s => s
              end in
  match Seal5Flow.__init__ (DirStr (clean_DIR args)) name w with
  | (Ok seal5_flow, w1) =>
      match find (fun k => negb (existsb (String.eqb k) clean_parameters))
                 clean_call_keywords with
      | Some k =>
          (Raised (TypeError ("clean() got an unexpected keyword argument '"
                              ++ k ++ "'")%string),
           (Some seal5_flow, w1))
      | None =>
          let (r, o) :=
            Seal5FlowStages.clean (clean_verbose args)
                                  (negb (clean_non_interactive args))
                                  (seal5_flow, w1) in
          (r, (Some (fst o), snd o))
      end
  | (Raise e, w1) => (Raised e, (None, w1))
  end.
End CleanCli.
End CleanCli.

(** The exit status of a Python process whose main call ended with [r]. *)
Definition outcome_status {A : Type} (r : outcome A) : Z :=
  match r with
  | Returned _ => 0
  | Raised e => exit_status (Raise e)
  | NotImplemented _ => 1
  end.

Definition sample_clean_args : clean_args :=
  {| clean_name := NameStr "default"; clean_DIR := "/work/llvm-project";
     clean_temp := true; clean_patches := false; clean_models := false;
     clean_inputs := false; clean_logs := false; clean_install := false;
     clean_build := false; clean_deps := false;
     clean_non_interactive := true; clean_verbose := false |}.

(** ** The [init] subcommand without a directory *)

Definition with_dir (args : init_args) (d : option string) : init_args :=
  {| arg_dir := d; arg_name := arg_name args;
     arg_non_interactive := arg_non_interactive args;
     arg_clone := arg_clone args; arg_clone_url := arg_clone_url args;
     arg_clone_ref := arg_clone_ref args; arg_force := arg_force args;
     arg_verbose := arg_verbose args |}.

(** ** [export] *)

(** [str.replace(old, new)] for a nonempty [old]: the occurrences are
    looked for from left to right and do not overlap; [skip] counts the
    characters still covered by the occurrence just replaced. *)
Fixpoint replace_from (old new s : string) (skip : nat) : string :=
  match s with
  | EmptyString => EmptyString
  | String c s' =>
      match skip with
      | S n => replace_from old new s' n
      | O =>
          match strip_prefix old s with
          | Some _ => (new ++ replace_from old new s' (String.length old - 1))%string
          | None => String c (replace_from old new s' 0)
          end
      end
  end.

(** With an empty [old], [new] goes before every character and at the
    end. *)
Fixpoint insert_everywhere (new s : string) : string :=
  match s with
  | EmptyString => new
  | String c s' => (new ++ String c (insert_everywhere new s'))%string
  end.

Definition str_replace (old new s : string) : string :=
  match old with
  | EmptyString => insert_everywhere new s
  | String _ _ => replace_from old new s 0
  end.

Fixpoint has_char (ch : ascii) (s : string) : bool :=
  match s with
  | EmptyString => false
  | String c s' => Ascii.eqb c ch || has_char ch s'
  end.

(** [s.split(sep)] for a separator of one character. *)
Fixpoint split_on (sep : ascii) (s : string) : list string :=
  match s with
  | EmptyString => [EmptyString]
  | String c s' =>
      if Ascii.eqb c sep then EmptyString :: split_on sep s'
      else match split_on sep s' with
           | x :: rest => String c x :: rest
           | [] => [String c EmptyString]
           end
  end.

(** The anchor of a POSIX path: one slash, or two when the text starts
    with exactly two. *)
Definition path_root (s : string) : list string :=
  match s with
  | String "/" (String "/" (String "/" _)) => ["/"]
  | String "/" (String "/" _) => ["//"]
  | String "/" _ => ["/"]
  | _ => []
  end.

(** [Path(s)] for a [str]: the text is cut at the slashes, empty
    components and single dots are dropped, so that neither a doubled nor
    a trailing slash counts; the anchor, when there is one, is a component
    of its own, and the name of the path is its last component. *)
Definition Path_of_str (s : string) : path :=
  path_root s
  ++ filter (fun c => negb (String.eqb c "" || String.eqb c "."))
            (split_on "/" s).

(** The [dest] argument of [export]: a [str] or a [Path]. *)
Inductive dest_arg : Type :=
| DestStr (s : string)
| DestPath (p : path).

Definition dest_path (dest : dest_arg) : path :=
  match dest with
  | DestStr s => Path_of_str s
  | DestPath p => p
  end.

(** The calls on the archive that is written at [dest]: it is opened,
    members are added under a name, and leaving the [with] block closes
    it, after an exception without finishing it. *)
Inductive tar_event : Type :=
| TarOpen (dest : path)
| TarAdd (dest artifact : path) (arcname : string)
| TarClose (dest : path)
| TarAbandon (dest : path).

(** The [tarfile] library: each call acts on the file system and returns
    or raises.  [tar_exit dest finished] is what leaving the [with] block
    does. *)
Class Tarfile : Type := {
  tar_open : path -> M fs_state unit;
  tar_add : path -> path -> string -> M fs_state unit;
  tar_exit : path -> bool -> M fs_state unit
}.

(** The process and the calls on the archive so far. *)
Record export_state : Type := {
  here : world;
  archive_calls : list tar_event
}.

Definition tar_call {A : Type} (e : tar_event) (tool : M fs_state A)
  : M export_state A :=
  fun s =>
    let (r, f) := tool (fs (here s)) in
    (r, {| here := with_fs (here s) f;
           archive_calls := archive_calls s ++ [e] |}).

Definition on_here {A : Type} (m : M world A) : M export_state A :=
  fun s =>
    let (r, w) := m (here s) in
    (r, {| here := w; archive_calls := archive_calls s |}).

Module Seal5FlowExport.
Section Seal5FlowExport.
Context {T : Tarfile}.

(** [with tarfile.open(dest, mode="w:gz") as archive: body] *)
Definition with_archive (dest : path) (body : M export_state unit)
  : M export_state unit :=
  fun s =>
    match tar_call (TarOpen dest) (tar_open dest) s with
    | (Ok _, s1) =>
        match body s1 with
        | (Ok _, s2) => tar_call (TarClose dest) (tar_exit dest true) s2
        | (Raise e, s2) =>
            match tar_call (TarAbandon dest) (tar_exit dest false) s2 with
            | (Ok _, s3) => (Raise e, s3)
            | (Raise e', s3) => (Raise e', s3)
            end
        end
    | (Raise e, s1) => (Raise e, s1)
    end.

Definition artifacts (self : Seal5Flow.t) : list path :=
  [Seal5Flow.inputs_dir self; Seal5Flow.gen_dir self;
   Seal5Flow.models_dir self; Seal5Flow.logs_dir self;
   Seal5Flow.settings_file self].

(** The body of the loop over the artifacts. *)
Definition export_artifact (self : Seal5Flow.t) (dest artifact : path)
  : M export_state unit :=
  let name := str_of_path artifact in
  (py_assert (occurs (str_of_path (Seal5Flow.meta_dir self)) name) "" ;;
   let name :=
     str_replace (str_of_path (Seal5Flow.meta_dir self) ++ "/")%string ""
                 name in
   f <- on_here (probe is_file artifact) ;;
   if f : bool
   then tar_call (TarAdd dest artifact name) (tar_add dest artifact name)
   else (d <- on_here (probe is_dir artifact) ;;
         if d : bool
         then tar_call (TarAdd dest artifact name) (tar_add dest artifact name)
         else ret tt))%flow.

Definition export (dest : dest_arg) (verbose : bool) (self : Seal5Flow.t)
           (s : export_state) : outcome unit * export_state :=
  let s0 := {| here := world_emit (here s) (Log INFO "Exporting Seal5 artifacts");
               archive_calls := archive_calls s |} in
  let dest := dest_path dest in
  let suffix := path_suffix dest in
  if negb (String.eqb suffix ".gz")
  then (NotImplemented "Only .tar.gz export is supported!", s0)
  else
    match with_archive dest
                       (for_each (artifacts self) (export_artifact self dest))
                       s0 with
    | (Ok _, s1) =>
        (Returned tt,
         {| here := world_emit (here s1)
                               (Log INFO "Completed export of Seal5 artifacts");
            archive_calls := archive_calls s1 |})
    | (Raise e, s1) => (Raised e, s1)
    end.
End Seal5FlowExport.
End Seal5FlowExport.

(** *** Vocabulary and a sample archiver for the statements on [export] *)

(** The names of the artifacts inside the workspace directory. *)
Definition artifact_names : list string :=
  ["inputs"; "gen"; "models"; "logs"; "settings.yml"].

(** Every call of the library returns, and adding a member leaves the file
    system as it is. *)
Definition obliging (T : Tarfile) : Prop :=
  (forall dest f, fst (tar_open dest f) = Ok tt)
  /\ (forall dest artifact arcname f,
         tar_add dest artifact arcname f = (Ok tt, f))
  /\ (forall dest finished f, fst (tar_exit dest finished f) = Ok tt).

(** An archiver that creates the archive file and keeps it empty. *)
Definition sample_tarfile : Tarfile := {|
  tar_open := fun dest f =>
    (Ok tt, {| dirs := dirs f; files := set_file (files f) dest "" |});
  tar_add := fun _ _ _ f => (Ok tt, f);
  tar_exit := fun _ _ f => (Ok tt, f)
|}.

Definition sample_export_state : export_state :=
  {| here := snd initialized; archive_calls := [] |}.
(** * Proofs *)

(** ** Induction over nested values *)

Lemma value_ind' (P : value -> Prop) :
  P VNone ->
  (forall b, P (VBool b)) ->
  (forall z, P (VInt z)) ->
  (forall s, P (VStr s)) ->
  (forall l, (forall x, In x l -> P x) -> P (VList l)) ->
  (forall d, (forall k v, In (k, v) d -> P v) -> P (VDict d)) ->
  (forall f, P (VFloat f)) ->
  forall v, P v.
Proof.
  intros HN HB HI HS HL HD HF.
  fix IH 1.
  intros [ | b | z | s | l | d | f].
  - exact HN.
  - apply HB.
  - apply HI.
  - apply HS.
  - apply HL. induction l as [ | x l IHl]; intros y Hy.
    + destruct Hy.
    + destruct Hy as [<- | Hy]; [apply IH | apply IHl, Hy].
  - apply HD. induction d as [ | [k0 v0] d IHd]; intros k v Hkv.
    + destruct Hkv.
    + destruct Hkv as [Heq | Hkv].
      * injection Heq as _ <-. apply IH.
      * apply (IHd k v Hkv).
  - apply HF.
Qed.

(** ** Dictionaries *)

Lemma dict_get_set_same d k v : dict_get (dict_set d k v) k = Some v.
Proof.
  induction d as [ | [k0 w] d IH]; simpl.
  - now rewrite String.eqb_refl.
  - destruct (String.eqb k0 k) eqn:E; simpl; rewrite E; auto.
Qed.

Lemma dict_get_set_other d k k' v :
  k <> k' -> dict_get (dict_set d k v) k' = dict_get d k'.
Proof.
  intros Hne. induction d as [ | [k0 w] d IH]; simpl.
  - destruct (String.eqb k k') eqn:E; auto.
    apply String.eqb_eq in E. contradiction.
  - destruct (String.eqb k0 k) eqn:E; simpl.
    + apply String.eqb_eq in E. subst k0.
      destruct (String.eqb k k') eqn:E'; auto.
      apply String.eqb_eq in E'. contradiction.
    + now rewrite IH.
Qed.

Lemma dict_set_same_value d k v : dict_get d k = Some v -> dict_set d k v = d.
Proof.
  induction d as [ | [k0 w] d IH]; simpl; [discriminate | ].
  destruct (String.eqb k0 k) eqn:E.
  - now intros [= ->].
  - intros H. now rewrite IH.
Qed.

Lemma dict_get_In d k v : dict_get d k = Some v -> In (k, v) d.
Proof.
  induction d as [ | [k0 w] d IH]; simpl; [discriminate | ].
  destruct (String.eqb k0 k) eqn:E.
  - apply String.eqb_eq in E. intros [= ->]. left. now subst.
  - intros H. right. auto.
Qed.

Lemma dict_get_None_keys d k : dict_get d k = None <-> ~ In k (keys d).
Proof.
  induction d as [ | [k0 w] d IH]; simpl.
  - tauto.
  - destruct (String.eqb k0 k) eqn:E.
    + apply String.eqb_eq in E. split; [discriminate | tauto].
    + apply String.eqb_neq in E. rewrite IH. tauto.
Qed.

Lemma unique_keys_cons k l :
  unique_keys (k :: l) = true <-> ~ In k l /\ unique_keys l = true.
Proof.
  simpl. rewrite andb_true_iff, negb_true_iff. split.
  - intros [H1 H2]. split; auto. intros Hin.
    assert (existsb (String.eqb k) l = true) as E.
    { apply existsb_exists. exists k. split; auto. apply String.eqb_refl. }
    congruence.
  - intros [H1 H2]. split; auto.
    destruct (existsb (String.eqb k) l) eqn:E; auto.
    apply existsb_exists in E as [x [Hx E]].
    apply String.eqb_eq in E. subst x. contradiction.
Qed.

Lemma In_dict_get d k v :
  unique_keys (keys d) = true -> In (k, v) d -> dict_get d k = Some v.
Proof.
  induction d as [ | [k0 w] d IH]; simpl; [tauto | ].
  intros Hu Hin. change (unique_keys (k0 :: keys d) = true) in Hu.
  apply unique_keys_cons in Hu as [Hnin Hu].
  destruct Hin as [[= -> ->] | Hin].
  - now rewrite String.eqb_refl.
  - destruct (String.eqb k0 k) eqn:E; auto.
    apply String.eqb_eq in E. subst k0. exfalso. apply Hnin.
    change k with (fst (k, v)). now apply in_map.
Qed.

Lemma wf_dict_cons k v d :
  wf_dict ((k, v) :: d) = true <->
  ~ In k (keys d) /\ wf_value v = true /\ wf_dict d = true.
Proof.
  unfold wf_dict.
  change (wf_value (VDict ((k, v) :: d)))
    with (unique_keys (k :: keys d)
          && (wf_value v && forallb (fun kv => wf_value (snd kv)) d)).
  change (wf_value (VDict d))
    with (unique_keys (keys d) && forallb (fun kv => wf_value (snd kv)) d).
  rewrite !andb_true_iff, unique_keys_cons. tauto.
Qed.

Lemma wf_dict_unique d : wf_dict d = true -> unique_keys (keys d) = true.
Proof. unfold wf_dict. simpl. now intros [H _]%andb_true_iff. Qed.

Lemma wf_dict_In d k v : wf_dict d = true -> In (k, v) d -> wf_value v = true.
Proof.
  unfold wf_dict. simpl. intros [_ H]%andb_true_iff Hin.
  rewrite forallb_forall in H. apply (H (k, v) Hin).
Qed.

(** ** Python equality is reflexive on well-formed values *)

Lemma list_eqb_refl {A} (eq : A -> A -> bool) l :
  (forall x, In x l -> eq x x = true) -> list_eqb eq l l = true.
Proof.
  induction l as [ | x l IH]; simpl; auto.
  intros H. rewrite H by now left. apply IH. intros; apply H. now right.
Qed.

Lemma SFeqb_refl f : f <> S754_nan -> SFeqb f f = true.
Proof.
  unfold SFeqb. destruct f as [s | s | | s m e]; simpl; intros H.
  - reflexivity.
  - now destruct s.
  - congruence.
  - rewrite Z.compare_refl, Pos.compare_cont_refl. now destruct s.
Qed.

Lemma nan_free_In d k v :
  nan_free (VDict d) = true -> In (k, v) d -> nan_free v = true.
Proof.
  simpl. rewrite forallb_forall. intros H Hin. apply (H (k, v) Hin).
Qed.

Lemma py_eq_refl v :
  wf_value v = true -> nan_free v = true -> py_eq v v = true.
Proof.
  induction v as [ | b | z | s | l IH | d IH | f] using value_ind'; simpl;
    intros Hwf Hnan.
  - reflexivity.
  - apply Bool.eqb_reflx.
  - apply Z.eqb_refl.
  - apply String.eqb_refl.
  - apply list_eqb_refl. intros x Hx. rewrite forallb_forall in Hwf, Hnan.
    apply IH; auto.
  - rewrite Nat.eqb_refl. simpl. apply forallb_forall. intros [k v] Hin. simpl.
    rewrite (In_dict_get d k v); [ | now apply wf_dict_unique | auto].
    apply (IH k v Hin); [now apply (wf_dict_In d k v) | ].
    rewrite forallb_forall in Hnan. apply (Hnan (k, v) Hin).
  - apply SFeqb_refl. intros ->. discriminate.
Qed.

Lemma py_eq_dict_leaf va vb :
  both_dict va vb = false -> py_eq va vb = true ->
  is_dict va = false /\ is_dict vb = false.
Proof.
  destruct va, vb; simpl; intros; try discriminate; auto.
Qed.

(** ** [merge_dicts]: when it raises and what it names *)

Lemma conflicts_cons a k vb rest path :
  conflicts a ((k, vb) :: rest) path =
  (match dict_get a k with
   | Some va =>
       if both_dict va vb
       then conflicts_value vb (as_dict va) (path ++ [k])
       else if py_ne va vb then [path ++ [k]] else []
   | None => []
   end) ++ conflicts a rest path.
Proof. reflexivity. Qed.

Lemma conflicts_ext a a' b path :
  (forall k, In k (keys b) -> dict_get a k = dict_get a' k) ->
  conflicts a b path = conflicts a' b path.
Proof.
  induction b as [ | [k vb] rest IH]; intros H; [reflexivity | ].
  rewrite !conflicts_cons, (H k) by now left.
  f_equal. apply IH. intros k' Hk'. apply H. now right.
Qed.

Lemma both_dict_inv va vb :
  both_dict va vb = true -> exists da db, va = VDict da /\ vb = VDict db.
Proof. destruct va, vb; try discriminate; eauto. Qed.

Lemma merge_items_outcome b :
  (forall k v, In (k, v) b -> forall db, v = VDict db ->
     wf_dict db = true -> forall a path, merge_outcome a db path) ->
  wf_dict b = true -> forall a path, merge_outcome a b path.
Proof.
  induction b as [ | [k vb] rest IH]; intros Hrec Hwf a path.
  - unfold merge_outcome. simpl. eauto.
  - apply wf_dict_cons in Hwf as [Hnin [Hwv Hwr]].
    assert (forall a1, (forall k', k' <> k -> dict_get a1 k' = dict_get a k') ->
                       merge_outcome a1 rest path ->
                       match conflicts a rest path with
                       | [] => exists r, merge_dicts a1 rest path = (r, None)
                       | q :: _ => snd (merge_dicts a1 rest path)
                                   = Some (Exception (conflict_message q))
                       end) as Hcont.
    { intros a1 Hsame Hout. unfold merge_outcome in Hout.
      rewrite (conflicts_ext a1 a) in Hout; auto.
      intros k' Hk'. apply Hsame. intros ->. contradiction. }
    assert (forall a1, (forall k', k' <> k -> dict_get a1 k' = dict_get a k') ->
                       match conflicts a rest path with
                       | [] => exists r, merge_dicts a1 rest path = (r, None)
                       | q :: _ => snd (merge_dicts a1 rest path)
                                   = Some (Exception (conflict_message q))
                       end) as Hrest.
    { intros a1 Hsame. apply Hcont; auto. apply IH; auto.
      intros k' v' Hin. apply (Hrec k' v'). now right. }
    clear Hcont IH.
    unfold merge_outcome. rewrite conflicts_cons.
    unfold merge_dicts. simpl merge_items. fold (merge_dicts a rest path).
    destruct (dict_get a k) as [va | ] eqn:Ea.
    + destruct (both_dict va vb) eqn:Eb.
      * destruct (both_dict_inv _ _ Eb) as [da [db [-> ->]]].
        simpl as_dict.
        change (conflicts_value (VDict db) da (path ++ [k]))
          with (conflicts da db (path ++ [k])).
        change (merge_value (VDict db) da (path ++ [k]))
          with (merge_dicts da db (path ++ [k])).
        pose proof (Hrec k (VDict db) (or_introl eq_refl) db eq_refl Hwv
                         da (path ++ [k])) as Hsub.
        unfold merge_outcome in Hsub.
        destruct (conflicts da db (path ++ [k])) as [ | q t].
        -- destruct Hsub as [r ->]. simpl app.
           apply Hrest. intros k' Hne. apply dict_get_set_other. congruence.
        -- destruct (merge_dicts da db (path ++ [k])) as [da' [e | ]];
             simpl in Hsub; [ | discriminate].
           simpl. exact Hsub.
      * destruct (py_ne va vb); [reflexivity | ].
        simpl app. apply Hrest. auto.
    + simpl app. apply Hrest. intros k' Hne.
      apply dict_get_set_other. congruence.
Qed.

Lemma merge_dicts_outcome b :
  wf_dict b = true -> forall a path, merge_outcome a b path.
Proof.
  enough (forall v db, v = VDict db -> wf_dict db = true ->
                       forall a path, merge_outcome a db path) as H
      by (intros; eapply H; eauto).
  induction v as [ | | | | | d IH | ] using value_ind'; try discriminate.
  intros db [= <-] Hwf. apply merge_items_outcome; eauto.
Qed.

Lemma get_path_cons d k p :
  get_path d (k :: p) =
  match dict_get d k with Some w => value_at w p | None => None end.
Proof. reflexivity. Qed.

Lemma value_at_leaf v k p : is_dict v = false -> value_at v (k :: p) = None.
Proof. destruct v; simpl; auto; discriminate. Qed.

Lemma conflicts_complete p :
  forall a b path, conflict_at a b p -> In (path ++ p) (conflicts a b path).
Proof.
  induction p as [ | k p IH]; intros a b path [Hne [va [vb [Ha [Hb [Hd He]]]]]].
  - contradiction.
  - rewrite get_path_cons in Ha, Hb.
    destruct (dict_get a k) as [wa | ] eqn:Ea; [ | discriminate].
    destruct (dict_get b k) as [wb | ] eqn:Eb; [ | discriminate].
    unfold conflicts. simpl conflicts_value. apply in_flat_map.
    exists (k, wb). split; [now apply dict_get_In | ]. simpl. rewrite Ea.
    destruct p as [ | k' p'].
    + simpl in Ha, Hb. injection Ha as ->. injection Hb as ->.
      rewrite Hd. unfold py_ne. rewrite He. simpl. now left.
    + destruct wa as [ | | | | | da | ]; try discriminate.
      destruct wb as [ | | | | | db | ]; try discriminate.
      simpl both_dict. cbv iota. simpl as_dict.
      change (path ++ k :: k' :: p') with (path ++ [k] ++ k' :: p').
      rewrite app_assoc.
      apply (IH da db (path ++ [k])). split; [discriminate | ].
      exists va, vb. auto.
Qed.

Lemma conflicts_sound_items b :
  (forall k v, In (k, v) b -> forall db, v = VDict db -> wf_dict db = true ->
     forall a path q, In q (conflicts a db path) ->
                      exists p, q = path ++ p /\ conflict_at a db p) ->
  wf_dict b = true ->
  forall a path q, In q (conflicts a b path) ->
                   exists p, q = path ++ p /\ conflict_at a b p.
Proof.
  intros Hrec Hwf a path q Hin.
  unfold conflicts in Hin. simpl conflicts_value in Hin.
  apply in_flat_map in Hin as [[k vb] [Hkv Hq]]. simpl in Hq.
  assert (dict_get b k = Some vb) as Eb
    by (apply In_dict_get; auto using wf_dict_unique).
  destruct (dict_get a k) as [va | ] eqn:Ea; [ | destruct Hq].
  destruct (both_dict va vb) eqn:Ed.
  - destruct (both_dict_inv _ _ Ed) as [da [db [-> ->]]]. simpl as_dict in Hq.
    destruct (Hrec k (VDict db) Hkv db eq_refl
                (wf_dict_In b k _ Hwf Hkv) da (path ++ [k]) q Hq)
      as [p [-> [Hne [va [vb [Ha [Hb [Hd He]]]]]]]].
    exists (k :: p). split; [now rewrite <- app_assoc | ].
    split; [discriminate | ]. exists va, vb.
    rewrite !get_path_cons, Ea, Eb. auto.
  - destruct (py_ne va vb) eqn:En; [ | destruct Hq].
    destruct Hq as [<- | []]. exists [k]. split; auto.
    split; [discriminate | ]. exists va, vb.
    rewrite !get_path_cons, Ea, Eb. simpl.
    unfold py_ne in En. apply negb_true_iff in En. auto.
Qed.

Lemma conflicts_sound b :
  wf_dict b = true ->
  forall a path q, In q (conflicts a b path) ->
                   exists p, q = path ++ p /\ conflict_at a b p.
Proof.
  enough (forall v db, v = VDict db -> wf_dict db = true ->
            forall a path q, In q (conflicts a db path) ->
                             exists p, q = path ++ p /\ conflict_at a db p) as H
      by (intros; eapply H; eauto).
  induction v as [ | | | | | d IH | ] using value_ind'; try discriminate.
  intros db [= <-] Hwf. apply conflicts_sound_items; eauto.
Qed.

(** ** What a successful merge leaves under each key *)

Lemma merge_items_lookup rec b :
  unique_keys (keys b) = true ->
  forall a path r, merge_items rec b a path = (r, None) ->
  forall k,
    match dict_get b k, dict_get a k with
    | None, oa => dict_get r k = oa
    | Some vb, None => dict_get r k = Some vb
    | Some vb, Some va =>
        if both_dict va vb
        then exists da', rec vb (as_dict va) (path ++ [k]) = (da', None)
                         /\ dict_get r k = Some (VDict da')
        else dict_get r k = Some va /\ py_eq va vb = true
    end.
Proof.
  induction b as [ | [k0 vb0] rest IH]; intros Hu a path r Hm k.
  - simpl in *. now injection Hm as ->.
  - change (unique_keys (k0 :: keys rest) = true) in Hu.
    apply unique_keys_cons in Hu as [Hnin Hu].
    specialize (IH Hu).
    assert (forall a1, merge_items rec rest a1 path = (r, None) ->
                       dict_get r k0 = dict_get a1 k0) as Hkeep.
    { intros a1 H1. specialize (IH a1 path r H1 k0).
      apply dict_get_None_keys in Hnin. now rewrite Hnin in IH. }
    simpl in Hm. simpl dict_get at 1.
    destruct (String.eqb k0 k) eqn:Ek.
    + apply String.eqb_eq in Ek. subst k0.
      destruct (dict_get a k) as [va | ] eqn:Ea.
      * destruct (both_dict va vb0) eqn:Ed.
        -- destruct (rec vb0 (as_dict va) (path ++ [k])) as [da' [e | ]] eqn:Er;
             [discriminate | ].
           exists da'. split; auto. rewrite (Hkeep _ Hm).
           apply dict_get_set_same.
        -- unfold py_ne in Hm. destruct (py_eq va vb0); [ | discriminate].
           simpl in Hm. rewrite (Hkeep _ Hm). auto.
      * rewrite (Hkeep _ Hm). apply dict_get_set_same.
    + apply String.eqb_neq in Ek.
      destruct (dict_get a k0) as [va0 | ] eqn:Ea0.
      * destruct (both_dict va0 vb0) eqn:Ed.
        -- destruct (rec vb0 (as_dict va0) (path ++ [k0])) as [da' [e | ]];
             [discriminate | ].
           specialize (IH _ _ _ Hm k).
           now rewrite dict_get_set_other in IH.
        -- destruct (py_ne va0 vb0); [discriminate | ].
           apply (IH _ _ _ Hm k).
      * specialize (IH _ _ _ Hm k). now rewrite dict_get_set_other in IH.
Qed.

Lemma merge_path p :
  forall a b path r,
    wf_dict b = true -> merge_dicts a b path = (r, None) -> p <> [] ->
    match get_path a p, get_path b p with
    | oa, None => get_path r p = oa
    | None, Some vb => get_path r p = Some vb
    | Some va, Some vb =>
        if both_dict va vb
        then exists r', merge_dicts (as_dict va) (as_dict vb) (path ++ p) = (r', None)
                        /\ get_path r p = Some (VDict r')
        else get_path r p = Some va /\ py_eq va vb = true
    end.
Proof.
  induction p as [ | k p IH]; intros a b path r Hwf Hm Hne; [contradiction | ].
  pose proof (merge_items_lookup merge_value b (wf_dict_unique _ Hwf)
                                 a path r Hm k) as Hk.
  rewrite !get_path_cons.
  destruct (dict_get b k) as [wb | ] eqn:Eb;
    destruct (dict_get a k) as [wa | ] eqn:Ea.
  - destruct (both_dict wa wb) eqn:Ed.
    + destruct Hk as [da' [Hr ->]].
      destruct (both_dict_inv _ _ Ed) as [da [db [-> ->]]].
      simpl as_dict in Hr.
      change (merge_value (VDict db) da (path ++ [k]))
        with (merge_dicts da db (path ++ [k])) in Hr.
      destruct p as [ | k' p'].
      * simpl. exists da'. auto.
      * assert (wf_dict db = true) as Hwdb
          by (apply (wf_dict_In b k); auto using dict_get_In).
        assert (k' :: p' <> []) as Hne' by discriminate.
        specialize (IH da db (path ++ [k]) da' Hwdb Hr Hne').
        rewrite <- app_assoc in IH. exact IH.
    + destruct Hk as [-> Heq].
      destruct (py_eq_dict_leaf _ _ Ed Heq) as [La Lb].
      destruct p as [ | k' p'].
      * simpl. rewrite Ed. auto.
      * now rewrite !value_at_leaf by auto.
  - rewrite Hk. destruct (value_at wb p); reflexivity.
  - rewrite Hk. destruct (value_at wa p); reflexivity.
  - now rewrite Hk.
Qed.

(** ** Merging the same tree a second time *)

Lemma merge_items_fixed b R :
  (forall k vb, In (k, vb) b ->
     exists vr, dict_get R k = Some vr /\
       if both_dict vr vb
       then forall path, merge_value vb (as_dict vr) path = (as_dict vr, None)
       else py_eq vr vb = true) ->
  forall path, merge_items merge_value b R path = (R, None).
Proof.
  induction b as [ | [k vb] rest IH]; intros H path; [reflexivity | ].
  destruct (H k vb (or_introl eq_refl)) as [vr [Er Hv]].
  simpl. rewrite Er. destruct (both_dict vr vb) eqn:Ed.
  - rewrite Hv. destruct (both_dict_inv _ _ Ed) as [dr [db [-> ->]]].
    simpl as_dict. rewrite dict_set_same_value by exact Er.
    apply IH. intros k' v' Hin. apply H. now right.
  - unfold py_ne. rewrite Hv. simpl.
    apply IH. intros k' v' Hin. apply H. now right.
Qed.

Lemma merge_items_settles b :
  (forall k v, In (k, v) b -> forall db, v = VDict db ->
     wf_dict db = true -> nan_free (VDict db) = true -> merge_settles db) ->
  wf_dict b = true -> nan_free (VDict b) = true -> merge_settles b.
Proof.
  intros Hrec Hwf Hnan. split.
  - intros a path r Hm path'. apply merge_items_fixed. intros k vb Hin.
    pose proof (merge_items_lookup merge_value b (wf_dict_unique _ Hwf)
                                   a path r Hm k) as Hk.
    rewrite (In_dict_get b k vb) in Hk by auto using wf_dict_unique.
    pose proof (wf_dict_In b k vb Hwf Hin) as Hwv.
    pose proof (nan_free_In b k vb Hnan Hin) as Hnv.
    destruct (dict_get a k) as [va | ] eqn:Ea.
    + destruct (both_dict va vb) eqn:Ed.
      * destruct Hk as [da' [Hr Hg]]. exists (VDict da'). split; auto.
        destruct (both_dict_inv _ _ Ed) as [da [db [-> ->]]].
        simpl. intros p'.
        destruct (Hrec k (VDict db) Hin db eq_refl Hwv Hnv) as [Hagain _].
        apply (Hagain da (path ++ [k]) da' Hr p').
      * destruct Hk as [Hg Heq]. exists va. rewrite Ed. auto.
    + exists vb. split; auto. destruct (both_dict vb vb) eqn:Ed.
      * destruct (both_dict_inv _ _ Ed) as [db [_ [-> _]]]. simpl.
        apply (Hrec k (VDict db) Hin db eq_refl Hwv Hnv).
      * now apply py_eq_refl.
  - intros path'. apply merge_items_fixed. intros k vb Hin.
    pose proof (wf_dict_In b k vb Hwf Hin) as Hwv.
    pose proof (nan_free_In b k vb Hnan Hin) as Hnv.
    exists vb. split; [apply In_dict_get; auto using wf_dict_unique | ].
    destruct (both_dict vb vb) eqn:Ed.
    + destruct (both_dict_inv _ _ Ed) as [db [_ [-> _]]]. simpl.
      apply (Hrec k (VDict db) Hin db eq_refl Hwv Hnv).
    + now apply py_eq_refl.
Qed.

Lemma merge_dicts_settles b :
  wf_dict b = true -> nan_free (VDict b) = true -> merge_settles b.
Proof.
  enough (forall v db, v = VDict db -> wf_dict db = true ->
                       nan_free (VDict db) = true -> merge_settles db)
    as H by (intros; eapply H; eauto).
  induction v as [ | | | | | d IH | ] using value_ind'; try discriminate.
  intros db [= <-] Hwf Hnan. apply merge_items_settles; eauto.
Qed.

(** ** [dict.update] *)

Lemma dict_update_get other :
  unique_keys (keys other) = true ->
  forall a k,
    dict_get (dict_update a other) k =
    match dict_get other k with Some v => Some v | None => dict_get a k end.
Proof.
  unfold dict_update.
  induction other as [ | [k0 v0] rest IH]; intros Hu a k; [reflexivity | ].
  change (unique_keys (k0 :: keys rest) = true) in Hu.
  apply unique_keys_cons in Hu as [Hnin Hu].
  simpl. rewrite (IH Hu).
  destruct (String.eqb k0 k) eqn:Ek.
  - apply String.eqb_eq in Ek. subst k0.
    apply dict_get_None_keys in Hnin. rewrite Hnin.
    apply dict_get_set_same.
  - apply String.eqb_neq in Ek. rewrite dict_get_set_other by auto.
    reflexivity.
Qed.

Lemma shares_only_mappingsb_sound a b :
  shares_only_mappingsb a b = true -> shares_only_mappings a b.
Proof.
  intros H p. revert a b H.
  induction p as [ | k p IH]; intros a b H va vb Hne Ha Hb; [contradiction | ].
  rewrite get_path_cons in Ha, Hb.
  destruct (dict_get a k) as [wa | ] eqn:Ea; [ | discriminate].
  destruct (dict_get b k) as [wb | ] eqn:Eb; [ | discriminate].
  unfold shares_only_mappingsb in H. simpl in H.
  rewrite forallb_forall in H. specialize (H (k, wb) (dict_get_In _ _ _ Eb)).
  simpl in H. rewrite Ea in H. apply andb_true_iff in H as [Hd Hs].
  destruct p as [ | k' p'].
  - simpl in Ha, Hb. injection Ha as <-. injection Hb as <-. exact Hd.
  - destruct (both_dict_inv _ _ Hd) as [da [db [-> ->]]].
    apply (IH da db Hs va vb); [discriminate | exact Ha | exact Hb].
Qed.

Lemma merge_no_conflict_ok a b :
  wf_dict b = true -> shares_only_mappings a b ->
  exists r, merge_dicts a b [] = (r, None).
Proof.
  intros Hwf Hc. pose proof (merge_dicts_outcome b Hwf a []) as Ho.
  unfold merge_outcome in Ho.
  destruct (conflicts a b []) as [ | q t] eqn:Eq; [exact Ho | ].
  destruct (conflicts_sound b Hwf a [] q) as [p [_ [Hne [va [vb H]]]]].
  { rewrite Eq. now left. }
  destruct H as [Ha [Hb [Hd _]]].
  rewrite (Hc p va vb Hne Ha Hb) in Hd. discriminate.
Qed.

Lemma get_path_nil_leaf d v : is_dict v = false -> get_path d [] <> Some v.
Proof. intros Hl [= <-]. discriminate. Qed.

(** * Claims about the settings store *)

(** C1, as stated, fails: with [{x: 1, y: 2}] and [{x: 3, y: 4}] the leaf
    key [y] is shared with differing values, yet the merge without overwrite
    raises a conflict that names [x], not [y]. *)
Lemma merge_conflict_names_other_key :
  get_path two_conflicts_a ["y"] = Some (VInt 2) /\
  get_path two_conflicts_b ["y"] = Some (VInt 4) /\
  py_eq (VInt 2) (VInt 4) = false /\
  snd (YAMLSettings.merge two_conflicts_a two_conflicts_b false)
  = Some (Exception "Conflict at x") /\
  snd (YAMLSettings.merge two_conflicts_a two_conflicts_b false)
  <> Some (Exception (conflict_message ["y"])).
Proof. repeat split; try reflexivity. discriminate. Qed.

(** C1 (amended): when two settings trees have a key path in common at which
    they are not both mappings and hold differing values, the merge without
    overwrite raises a conflict whose message is "Conflict at " followed by
    the dotted path of such a key: the first one met when the keys of the
    incoming tree are walked in order ([conflicts] lists them all, in that
    order), which is that exact key when it is the only one.  The merge
    with overwrite succeeds, and under every top-level key the result holds
    the incoming tree's value if the incoming tree has the key and the base
    tree's value otherwise. *)
Theorem merge_conflict_names_first (A B : dict) (p : list string) :
  wf_dict B = true ->
  conflict_at A B p ->
  (exists q rest,
      conflicts A B [] = q :: rest /\
      (forall p', conflict_at A B p' <-> In p' (q :: rest)) /\
      snd (YAMLSettings.merge A B false)
      = Some (Exception (conflict_message q)) /\
      ((forall p', conflict_at A B p' -> p' = p) -> q = p))
  /\
  (exists R,
      YAMLSettings.merge A B true = (R, None) /\
      forall k, dict_get R k =
                match dict_get B k with
                | Some v => Some v
                | None => dict_get A k
                end).
Proof.
  intros Hwf Hp. split.
  - pose proof (conflicts_complete p A B [] Hp) as Hin. simpl in Hin.
    pose proof (merge_dicts_outcome B Hwf A []) as Ho.
    unfold merge_outcome in Ho.
    destruct (conflicts A B []) as [ | q rest] eqn:Eq; [destruct Hin | ].
    exists q, rest. split; [reflexivity | ].
    assert (forall p', conflict_at A B p' <-> In p' (q :: rest)) as Hall.
    { intros p'. rewrite <- Eq. split.
      - intros Hc. apply (conflicts_complete p' A B [] Hc).
      - intros Hp'. destruct (conflicts_sound B Hwf A [] p' Hp')
          as [p'' [-> Hc]]. exact Hc. }
    split; [exact Hall | ]. split; [exact Ho | ].
    intros Honly. apply Honly, Hall. now left.
  - exists (dict_update A B). split; [reflexivity | ].
    intros k. apply dict_update_get. now apply wf_dict_unique.
Qed.

Lemma nested_conflict_at :
  conflict_at nested_conflict_a nested_conflict_b ["patch"; "mail"].
Proof.
  split; [discriminate | ].
  exists (VStr "a@b.c"), (VStr "x@y.z"). repeat split.
Qed.

Lemma merge_conflict_names_first_witness :
  wf_dict nested_conflict_b = true /\
  conflict_at nested_conflict_a nested_conflict_b ["patch"; "mail"] /\
  (exists q rest,
      conflicts nested_conflict_a nested_conflict_b [] = q :: rest /\
      (forall p', conflict_at nested_conflict_a nested_conflict_b p'
                  <-> In p' (q :: rest)) /\
      snd (YAMLSettings.merge nested_conflict_a nested_conflict_b false)
      = Some (Exception (conflict_message q)) /\
      ((forall p', conflict_at nested_conflict_a nested_conflict_b p' ->
                   p' = ["patch"; "mail"]) -> q = ["patch"; "mail"]))
  /\
  (exists R,
      YAMLSettings.merge nested_conflict_a nested_conflict_b true = (R, None) /\
      forall k, dict_get R k =
                match dict_get nested_conflict_b k with
                | Some v => Some v
                | None => dict_get nested_conflict_a k
                end).
Proof.
  split; [reflexivity | ]. split; [exact nested_conflict_at | ].
  apply (merge_conflict_names_first nested_conflict_a nested_conflict_b
                                    ["patch"; "mail"]).
  - reflexivity.
  - exact nested_conflict_at.
Defined.

(** C5, as stated, fails: [{a: {b: 1}}] and [{a: 5}] have no leaf key in
    common (the leaves are [a.b] and [a]), yet the merge without overwrite
    raises a conflict at [a]. *)
Lemma merge_leaf_disjoint_conflict :
  leaf_keys leaf_under_mapping_a = [["a"; "b"]] /\
  leaf_keys leaf_under_mapping_b = [["a"]] /\
  leaf_overlap leaf_under_mapping_a leaf_under_mapping_b = false /\
  snd (YAMLSettings.merge leaf_under_mapping_a leaf_under_mapping_b false)
  = Some (Exception "Conflict at a").
Proof. repeat split. Qed.

(** C5 (amended): for all settings trees A and B in which every key path
    that both have holds a mapping in both (so no leaf of one tree lies on a
    key path of the other), the merge without overwrite succeeds; a key path
    is in the result exactly when it is in A or in B, and a leaf value is
    found at a key path of the result exactly when A or B holds it there. *)
Theorem merge_disjoint_union (A B : dict) :
  wf_dict B = true ->
  shares_only_mappings A B ->
  exists R,
    YAMLSettings.merge A B false = (R, None) /\
    (forall p, has_path R p = has_path A p || has_path B p) /\
    (forall p v, is_dict v = false ->
                 (get_path R p = Some v <->
                  get_path A p = Some v \/ get_path B p = Some v)).
Proof.
  intros Hwf Hc. destruct (merge_no_conflict_ok A B Hwf Hc) as [R HR].
  exists R. split; [exact HR | ].
  assert (forall p, p <> [] ->
            match get_path A p, get_path B p with
            | oa, None => get_path R p = oa
            | None, Some vb => get_path R p = Some vb
            | Some va, Some vb =>
                exists r', get_path R p = Some (VDict r')
                           /\ is_dict va = true /\ is_dict vb = true
            end) as Hpath.
  { intros p Hne. pose proof (merge_path p A B [] R Hwf HR Hne) as Hp.
    pose proof (Hc p) as Hcp.
    destruct (get_path A p) as [va | ]; destruct (get_path B p) as [vb | ];
      auto.
    specialize (Hcp va vb Hne eq_refl eq_refl). rewrite Hcp in Hp.
    destruct Hp as [r' [_ Hr]]. exists r'. split; auto.
    apply andb_true_iff in Hcp. exact Hcp. }
  split.
  - intros [ | k p]; [reflexivity | ].
    assert (k :: p <> []) as Hne by discriminate.
    specialize (Hpath (k :: p) Hne). unfold has_path.
    destruct (get_path A (k :: p)); destruct (get_path B (k :: p)).
    + destruct Hpath as [r' [-> _]]. reflexivity.
    + now rewrite Hpath.
    + now rewrite Hpath.
    + now rewrite Hpath.
  - intros [ | k p] v Hleaf.
    + split; [intros H | intros [H | H]];
        exfalso; revert H; now apply get_path_nil_leaf.
    + assert (k :: p <> []) as Hne by discriminate.
      specialize (Hpath (k :: p) Hne).
      destruct (get_path A (k :: p)) as [va | ];
        destruct (get_path B (k :: p)) as [vb | ].
      * destruct Hpath as [r' [-> [Ha Hb]]]. split.
        -- intros [= <-]. discriminate.
        -- intros [[= ->] | [= ->]]; congruence.
      * rewrite Hpath. split; [auto | intros [H | H]; [auto | discriminate]].
      * rewrite Hpath. split; [auto | intros [H | H]; [discriminate | auto]].
      * rewrite Hpath. split; [auto | intros [H | H]; auto].
Qed.

Lemma merge_disjoint_union_witness :
  wf_dict disjoint_b = true /\
  shares_only_mappings disjoint_a disjoint_b /\
  exists R,
    YAMLSettings.merge disjoint_a disjoint_b false = (R, None) /\
    (forall p, has_path R p = has_path disjoint_a p || has_path disjoint_b p) /\
    (forall p v, is_dict v = false ->
                 (get_path R p = Some v <->
                  get_path disjoint_a p = Some v \/
                  get_path disjoint_b p = Some v)).
Proof.
  split; [reflexivity | ].
  split; [apply shares_only_mappingsb_sound; reflexivity | ].
  apply (merge_disjoint_union disjoint_a disjoint_b).
  - reflexivity.
  - apply shares_only_mappingsb_sound. reflexivity.
Defined.

(** C10, as stated, fails: a NaN differs from itself.  Merging a tree
    whose leaf [b] is a NaN into a tree without [b] succeeds, and merging
    it again into the result raises the conflict at [b]. *)
Lemma merge_again_nan_conflicts :
  wf_dict nan_leaf = true /\
  YAMLSettings.merge [] nan_leaf false = (nan_leaf, None) /\
  YAMLSettings.merge nan_leaf nan_leaf false
  = (nan_leaf, Some (Exception "Conflict at b")).
Proof. repeat split. Qed.

(** C10 (amended): whenever the incoming tree B holds no NaN and merging B
    into A without overwrite succeeds with result R, merging B into R
    without overwrite succeeds as well and returns R itself. *)
Theorem merge_again_unchanged (A B R : dict) :
  wf_dict B = true ->
  nan_free (VDict B) = true ->
  YAMLSettings.merge A B false = (R, None) ->
  YAMLSettings.merge R B false = (R, None).
Proof.
  intros Hwf Hnan Hm. destruct (merge_dicts_settles B Hwf Hnan) as [Hagain _].
  apply (Hagain A [] R Hm).
Qed.

Lemma merge_again_unchanged_witness :
  wf_dict equal_leaf_b = true /\
  nan_free (VDict equal_leaf_b) = true /\
  YAMLSettings.merge equal_leaf_a equal_leaf_b false = (equal_leaf_r, None) /\
  YAMLSettings.merge equal_leaf_r equal_leaf_b false = (equal_leaf_r, None).
Proof.
  split; [reflexivity | ]. split; [reflexivity | ]. split; [reflexivity | ].
  apply (merge_again_unchanged equal_leaf_a equal_leaf_b equal_leaf_r);
    reflexivity.
Defined.

(** * Proofs about the flow *)

(** ** Sequencing *)

Lemma bind_ok_inv {S A B : Type} (m : M S A) (f : A -> M S B) s b s' :
  bind m f s = (Ok b, s') ->
  exists a s1, m s = (Ok a, s1) /\ f a s1 = (Ok b, s').
Proof.
  unfold bind. destruct (m s) as [[a | e] s1]; intros H.
  - eauto.
  - discriminate.
Qed.

Lemma bind_inv {S A B : Type} (m : M S A) (f : A -> M S B) s r s' :
  bind m f s = (r, s') ->
  (exists a s1, m s = (Ok a, s1) /\ f a s1 = (r, s'))
  \/ (exists e, m s = (Raise e, s') /\ r = Raise e).
Proof.
  unfold bind. destruct (m s) as [[a | e] s1]; intros H.
  - left. eauto.
  - right. injection H as <- <-. eauto.
Qed.

Lemma bind_step {S A B : Type} (m : M S A) (f : A -> M S B) s a s1 :
  m s = (Ok a, s1) -> bind m f s = f a s1.
Proof. unfold bind. now intros ->. Qed.

Lemma bind_raise {S A B : Type} (m : M S A) (f : A -> M S B) s e s1 :
  m s = (Raise e, s1) -> bind m f s = (Raise e, s1).
Proof. unfold bind. now intros ->. Qed.

Section preserves.
Context {S : Type} (R : S -> S -> Prop).
Hypothesis R_refl : forall s, R s s.
Hypothesis R_trans : forall s1 s2 s3, R s1 s2 -> R s2 s3 -> R s1 s3.

Lemma preserves_ret {A} (a : A) : preserves R (ret a).
Proof. intros s r s' [= _ <-]. apply R_refl. Qed.

Lemma preserves_raise {A} e : preserves R (@raise S A e).
Proof. intros s r s' [= _ <-]. apply R_refl. Qed.

Lemma preserves_of_result {A} (x : result A) : preserves R (of_result x).
Proof. intros s r s' [= _ <-]. apply R_refl. Qed.

Lemma preserves_py_assert c msg : preserves R (@py_assert S c msg).
Proof.
  destruct c; [apply preserves_ret | apply preserves_raise].
Qed.

Lemma preserves_bind {A B} (m : M S A) (f : A -> M S B) :
  preserves R m -> (forall a, preserves R (f a)) -> preserves R (bind m f).
Proof.
  intros Hm Hf s r s' H. apply bind_inv in H as [[a [s1 [H1 H2]]] | [e [H1 _]]].
  - eapply R_trans; [eapply Hm | eapply Hf]; eauto.
  - eapply Hm; eauto.
Qed.

Lemma preserves_for_each {A} (l : list A) (body : A -> M S unit) :
  (forall x, preserves R (body x)) -> preserves R (for_each l body).
Proof.
  intros Hb. induction l as [ | x l IH]; simpl.
  - apply preserves_ret.
  - apply preserves_bind; auto.
Qed.
End preserves.

(** ** What the steps on the world leave alone *)

Lemma same_default_refl w : same_default w w.
Proof. reflexivity. Qed.

Lemma same_default_trans w1 w2 w3 :
  same_default w1 w2 -> same_default w2 w3 -> same_default w1 w3.
Proof. unfold same_default. congruence. Qed.

Lemma same_files_refl w : same_files w w.
Proof. split; reflexivity. Qed.

Lemma same_files_trans w1 w2 w3 :
  same_files w1 w2 -> same_files w2 w3 -> same_files w1 w3.
Proof. unfold same_files. intros [? ?] [? ?]. split; congruence. Qed.

Lemma emit_same_files e : preserves same_files (emit e).
Proof. intros w r w' [= _ <-]. split; reflexivity. Qed.

Lemma probe_same_files f p : preserves same_files (probe f p).
Proof. intros w r w' [= _ <-]. split; reflexivity. Qed.

Lemma read_text_same_files p : preserves same_files (read_text p).
Proof.
  intros w r w'. unfold read_text.
  destruct (read_file (fs w) p); intros [= _ <-]; split; reflexivity.
Qed.

Lemma data_of_same_files s : preserves same_files (data_of s).
Proof. intros w r w' [= _ <-]. split; reflexivity. Qed.

Lemma same_files_default {A} (m : M world A) :
  preserves same_files m -> preserves same_default m.
Proof. intros H w r w' Hm. apply (H w r w' Hm). Qed.

Lemma external_same_default {A} e (tool : M fs_state A) :
  preserves same_default (external e tool).
Proof.
  intros w r w'. unfold external.
  destruct (tool (fs (world_emit w e))) as [r1 f]. now intros [= _ <-].
Qed.

Lemma mkdir_same_default p ok : preserves same_default (mkdir p ok).
Proof.
  intros w r w'. unfold mkdir.
  destruct (is_dir (fs w) p); [destruct ok; now intros [= _ <-] | ].
  destruct (is_file (fs w) p); [now intros [= _ <-] | ].
  destruct (parent_is_dir (fs w) p); now intros [= _ <-].
Qed.

Lemma write_text_same_default p text : preserves same_default (write_text p text).
Proof.
  intros w r w'. unfold write_text.
  destruct (is_dir (fs w) p); [now intros [= _ <-] | ].
  destruct (parent_is_dir (fs w) p); now intros [= _ <-].
Qed.

(** ** [initialize] on a workspace that exists *)

Section initialize_aborts.
Context {E : External}.

Lemma abort_raises msg w :
  exists e log,
    Seal5Flow.abort msg w
    = (Raise e, {| fs := fs w; default_settings := default_settings w;
                   trace := trace w ++ log |})
    /\ exit_status (Raise e) <> 0%Z
    /\ (log = [] \/ log = [RootLog ERROR msg]).
Proof.
  unfold Seal5Flow.abort, bind.
  destruct logging_bound.
  - simpl. destruct sys_bound; simpl.
    + exists (SystemExit 1), [RootLog ERROR msg]. repeat split; auto.
      discriminate.
    + exists (NameError "sys"), [RootLog ERROR msg]. repeat split; auto.
      discriminate.
  - simpl. exists (NameError "logging"), []. rewrite app_nil_r.
    destruct w. repeat split; auto. discriminate.
Qed.

Lemma refused_confirm_aborts prompt msg w :
  (forall f, ask_user = Some f -> f prompt false false = false) ->
  exists e log,
    bind (Seal5Flow.confirm prompt false)
         (fun yes => if negb yes then Seal5Flow.abort msg else ret tt) w
    = (Raise e, {| fs := fs w; default_settings := default_settings w;
                   trace := trace w ++ log |})
    /\ exit_status (Raise e) <> 0%Z
    /\ (log = [] \/ log = [RootLog ERROR msg]).
Proof.
  intros Hrefuse. unfold Seal5Flow.confirm, bind.
  destruct ask_user as [f | ].
  - simpl. rewrite (Hrefuse f eq_refl). simpl. apply abort_raises.
  - simpl. exists (NameError "ask_user"), []. rewrite app_nil_r.
    destruct w. repeat split; auto. discriminate.
Qed.

Lemma initialize_aborts self w clone clone_url clone_ref verbose :
  is_dir (fs w) (Seal5Flow.directory self) = true ->
  is_dir (fs w) (Seal5Flow.meta_dir self) = true ->
  (forall f prompt, ask_user = Some f -> f prompt false false = false) ->
  exists e log,
    Seal5Flow.initialize false clone clone_url clone_ref false verbose
                         (self, w)
    = (Raise e,
       (self, {| fs := fs w; default_settings := default_settings w;
                 trace := trace w ++ Log INFO "Initializing Seal5" :: log |}))
    /\ exit_status (Raise e) <> 0%Z
    /\ (log = [] \/ exists msg, log = [RootLog ERROR msg]).
Proof.
  intros Hroot Hmeta Hrefuse.
  set (w1 := world_emit w (Log INFO "Initializing Seal5")).
  destruct (refused_confirm_aborts
              "Overwrite existing .seal5 diretcory?"
              ("Directory " ++ str_of_path (Seal5Flow.meta_dir self)
               ++ " already exists! Aborting...")%string w1
              (fun f => Hrefuse f _))
    as [e [lg [Hab [Hexit Hlog]]]].
  exists e, lg. split; [ | split; [exact Hexit | ]].
  - unfold Seal5Flow.initialize.
    rewrite (bind_step _ _ _ self (self, w)) by reflexivity.
    rewrite (bind_step _ _ _ tt (self, w1)) by reflexivity.
    rewrite (bind_step _ _ _ true (self, w1))
      by (unfold Seal5Flow.in_world, probe; simpl; now rewrite Hroot).
    simpl negb. cbv iota.
    rewrite (bind_step _ _ _ tt (self, w1)) by reflexivity.
    rewrite (bind_step _ _ _ true (self, w1))
      by (unfold Seal5Flow.in_world, probe; simpl; now rewrite Hmeta).
    cbv iota. simpl negb. cbv iota.
    rewrite (bind_raise _ _ _ e
               (self, {| fs := fs w1; default_settings := default_settings w1;
                         trace := trace w1 ++ lg |}))
      by (unfold Seal5Flow.in_world; cbn [fst snd]; now rewrite Hab).
    simpl. rewrite <- app_assoc. reflexivity.
  - destruct Hlog as [-> | ->]; eauto.
Qed.
End initialize_aborts.

(** ** Construction of the manager *)

Ltac keeps_with refl trans leaf :=
  repeat first
    [ apply (preserves_ret _ refl)
    | apply (preserves_raise _ refl)
    | apply (preserves_of_result _ refl)
    | apply (preserves_py_assert _ refl)
    | leaf
    | apply (preserves_for_each _ refl trans); intro
    | apply (preserves_bind _ trans); [ | intro ]
    | match goal with
      | |- preserves _ (if ?b then _ else _) => destruct b
      | |- preserves _ (match ?x with _ => _ end) => destruct x
      end ].

Ltac keeps_files :=
  keeps_with same_files_refl same_files_trans
             ltac:(first [ apply emit_same_files
                         | apply probe_same_files
                         | apply read_text_same_files
                         | apply data_of_same_files ]).

Section construction.
Context {E : External}.

Lemma from_yaml_file_same_files p :
  preserves same_files (YAMLSettings.from_yaml_file p).
Proof. unfold YAMLSettings.from_yaml_file. keeps_files. Qed.

Lemma init_same_files directory name :
  preserves same_files (Seal5Flow.__init__ directory name).
Proof.
  unfold Seal5Flow.__init__, set_log_file, set_log_level.
  keeps_files; apply from_yaml_file_same_files.
Qed.

Lemma init_spec directory name w self w' :
  Seal5Flow.__init__ directory name w = (Ok self, w') ->
  handle_directory directory = Ok (Seal5Flow.directory self)
  /\ Seal5Flow.name self = name
  /\ Seal5Flow.state self = UNKNOWN.
Proof.
  unfold Seal5Flow.__init__, Seal5Flow.check. intros H.
  apply bind_ok_inv in H as (d & w1 & Hd & H).
  injection Hd as Hd _.
  apply bind_ok_inv in H as (hs & w2 & _ & H).
  apply bind_ok_inv in H as (self1 & w3 & Hself & H).
  apply bind_ok_inv in H as (hl & w4 & _ & H).
  apply bind_ok_inv in H as (u & w5 & _ & H).
  injection H as <- _.
  destruct hs.
  - apply bind_ok_inv in Hself as (s & w6 & _ & Hself).
    injection Hself as <- _. simpl. auto.
  - injection Hself as <- _. simpl. auto.
Qed.

Lemma same_state_refl o : same_state o o.
Proof. reflexivity. Qed.

Lemma same_state_trans o1 o2 o3 :
  same_state o1 o2 -> same_state o2 o3 -> same_state o1 o3.
Proof. unfold same_state. congruence. Qed.

Lemma in_world_same_state {A} (m : M world A) :
  preserves same_state (Seal5Flow.in_world m).
Proof.
  intros [self w] r o'. unfold Seal5Flow.in_world. simpl.
  destruct (m w) as [r1 w1]. now intros [= _ <-].
Qed.

Lemma get_self_same_state : preserves same_state Seal5Flow.get_self.
Proof. now intros o r o' [= _ <-]. Qed.

Lemma set_settings_same_state s :
  preserves same_state (Seal5Flow.set_settings s).
Proof. now intros o r o' [= _ <-]. Qed.

Lemma read_data_same_state : preserves same_state Seal5Flow.read_data.
Proof.
  intros o r o'. unfold Seal5Flow.read_data.
  destruct (Seal5Flow.settings (fst o)) as [[ | d] | ]; now intros [= _ <-].
Qed.

Lemma write_data_same_state d : preserves same_state (Seal5Flow.write_data d).
Proof.
  intros o r o'. unfold Seal5Flow.write_data.
  destruct (Seal5Flow.settings (fst o)) as [[ | d0] | ]; now intros [= _ <-].
Qed.
End construction.

Ltac keeps_state :=
  keeps_with same_state_refl same_state_trans
             ltac:(first [ apply in_world_same_state
                         | apply get_self_same_state
                         | apply set_settings_same_state
                         | apply read_data_same_state
                         | apply write_data_same_state ]).

Section state.
Context {E : External}.

Lemma initialize_same_state i c u r f v :
  preserves same_state (Seal5Flow.initialize i c u r f v).
Proof. unfold Seal5Flow.initialize. keeps_state. Qed.

Lemma load_cfg_same_state file overwrite :
  preserves same_state (Seal5Flow.load_cfg file overwrite).
Proof. unfold Seal5Flow.load_cfg. keeps_state. Qed.

Lemma load_cdsl_same_state file verbose overwrite :
  preserves same_state (Seal5Flow.load_cdsl file verbose overwrite).
Proof. unfold Seal5Flow.load_cdsl. keeps_state. Qed.

Lemma load_same_state files verbose overwrite :
  preserves same_state (Seal5Flow.load files verbose overwrite).
Proof.
  unfold Seal5Flow.load, Seal5Flow.load_one.
  keeps_state;
    first [ apply load_cfg_same_state | apply load_cdsl_same_state ].
Qed.

Lemma build_same_state config verbose :
  preserves same_state (Seal5Flow.build config verbose).
Proof. unfold Seal5Flow.build. keeps_state. Qed.

Lemma test_same_state debug verbose ignore_error :
  preserves same_state (Seal5Flow.test debug verbose ignore_error).
Proof. unfold Seal5Flow.test. keeps_state. Qed.
End state.

(** * Claims about the workspace lifecycle *)

(** C3, as stated, fails: on a workspace whose metadata directory and
    settings file exist the constructed manager is in state UNKNOWN, not
    INITIALIZED, and on a root without metadata directory it is in state
    UNKNOWN, not UNINITIALIZED. *)
Lemma constructed_state_is_unknown :
  (is_dir (fs later_world) [ "/work/llvm-project"; ".seal5" ] = true /\
   is_file (fs later_world)
           [ "/work/llvm-project"; ".seal5"; "settings.yml" ] = true /\
   exists self w',
     Seal5Flow.__init__ (E := as_written) (DirStr "/work/llvm-project")
                        "default" later_world = (Ok self, w') /\
     Seal5Flow.state self = UNKNOWN /\ Seal5Flow.state self <> INITIALIZED)
  /\
  (is_dir (fs fresh_world) [ "/work/llvm-project" ] = true /\
   is_dir (fs fresh_world) [ "/work/llvm-project"; ".seal5" ] = false /\
   exists self w',
     Seal5Flow.__init__ (E := as_written) (DirStr "/work/llvm-project")
                        "default" fresh_world = (Ok self, w') /\
     Seal5Flow.state self = UNKNOWN /\ Seal5Flow.state self <> UNINITIALIZED).
Proof.
  split.
  - split; [reflexivity | ]. split; [reflexivity | ].
    eexists. eexists. split; [vm_compute; reflexivity | ].
    split; [reflexivity | discriminate].
  - split; [reflexivity | ]. split; [reflexivity | ].
    eexists. eexists. split; [vm_compute; reflexivity | ].
    split; [reflexivity | discriminate].
Qed.

(** C3 (amended): manager construction sets the workspace state to UNKNOWN
    and leaves it there, whatever directories exist: the check it calls does
    nothing.  The state is not re-checked afterwards either: initialize,
    load, build and test all leave it as it is. *)
Theorem state_stays_unknown {E : External}
        (directory : dir_arg) (name : string) (w w' : world)
        (self : Seal5Flow.t) :
  Seal5Flow.__init__ directory name w = (Ok self, w') ->
  Seal5Flow.state self = UNKNOWN /\
  forall (o : Seal5Flow.obj),
    Seal5Flow.state (fst o) = UNKNOWN ->
    (forall i c u r f v res o',
        Seal5Flow.initialize i c u r f v o = (res, o') ->
        Seal5Flow.state (fst o') = UNKNOWN) /\
    (forall files verbose overwrite res o',
        Seal5Flow.load files verbose overwrite o = (res, o') ->
        Seal5Flow.state (fst o') = UNKNOWN) /\
    (forall config verbose res o',
        Seal5Flow.build config verbose o = (res, o') ->
        Seal5Flow.state (fst o') = UNKNOWN) /\
    (forall debug verbose ignore_error res o',
        Seal5Flow.test debug verbose ignore_error o = (res, o') ->
        Seal5Flow.state (fst o') = UNKNOWN).
Proof.
  intros Hinit. split; [apply (init_spec _ _ _ _ _ Hinit) | ].
  intros o Ho. repeat split; intros.
  - rewrite <- Ho. eapply initialize_same_state; eauto.
  - rewrite <- Ho. eapply load_same_state; eauto.
  - rewrite <- Ho. eapply build_same_state; eauto.
  - rewrite <- Ho. eapply test_same_state; eauto.
Qed.

Lemma later_init :
  Seal5Flow.__init__ (E := as_written) (DirStr "/work/llvm-project")
                     "default" later_world
  = (Ok later_flow, later_world_logging).
Proof. vm_compute. reflexivity. Qed.

Lemma state_stays_unknown_witness :
  Seal5Flow.__init__ (E := as_written) (DirStr "/work/llvm-project")
                     "default" later_world
  = (Ok later_flow, later_world_logging) /\
  Seal5Flow.state later_flow = UNKNOWN /\
  forall (o : Seal5Flow.obj),
    Seal5Flow.state (fst o) = UNKNOWN ->
    (forall i c u r f v res o',
        Seal5Flow.initialize (E := as_written) i c u r f v o = (res, o') ->
        Seal5Flow.state (fst o') = UNKNOWN) /\
    (forall files verbose overwrite res o',
        Seal5Flow.load (E := as_written) files verbose overwrite o = (res, o') ->
        Seal5Flow.state (fst o') = UNKNOWN) /\
    (forall config verbose res o',
        Seal5Flow.build (E := as_written) config verbose o = (res, o') ->
        Seal5Flow.state (fst o') = UNKNOWN) /\
    (forall debug verbose ignore_error res o',
        Seal5Flow.test (E := as_written) debug verbose ignore_error o
        = (res, o') ->
        Seal5Flow.state (fst o') = UNKNOWN).
Proof.
  split; [exact later_init | ].
  exact (state_stays_unknown (E := as_written) (DirStr "/work/llvm-project")
                             "default" later_world later_world_logging
                             later_flow later_init).
Defined.

(** C4: on a workspace whose metadata directory exists, initialize without
    force and in non-interactive mode raises an exception that ends the
    process with a nonzero exit status; the manager, the directories and
    the files are as before, and only log records were emitted.  The same
    holds for the [init] subcommand once the manager is constructed. *)
Theorem initialize_existing_workspace_aborts {E : External} :
  (forall f prompt, ask_user = Some f -> f prompt false false = false) ->
  (forall self w clone clone_url clone_ref verbose,
      is_dir (fs w) (Seal5Flow.directory self) = true ->
      is_dir (fs w) (Seal5Flow.meta_dir self) = true ->
      exists e log,
        Seal5Flow.initialize false clone clone_url clone_ref false verbose
                             (self, w)
        = (Raise e,
           (self, {| fs := fs w; default_settings := default_settings w;
                     trace := trace w ++ Log INFO "Initializing Seal5" :: log |}))
        /\ exit_status (Raise e) <> 0%Z
        /\ (log = [] \/ exists msg, log = [RootLog ERROR msg]))
  /\
  (forall args d w self w1,
      arg_dir args = Some d ->
      arg_non_interactive args = true ->
      arg_force args = false ->
      is_dir (fs w) [d] = true ->
      is_dir (fs w) [d; ".seal5"] = true ->
      Seal5Flow.__init__ (DirStr d) (arg_name args) w = (Ok self, w1) ->
      exists e,
        fst (handle args w) = Raise e
        /\ exit_status (Raise e) <> 0%Z
        /\ fs (snd (snd (handle args w))) = fs w
        /\ default_settings (snd (snd (handle args w))) = default_settings w).
Proof.
  intros Hrefuse. split.
  - intros. now apply initialize_aborts.
  - intros args d w self w1 Hdir Hni Hforce Hroot Hmeta Hinit.
    unfold handle. rewrite Hdir, Hinit, Hni, Hforce. simpl negb.
    destruct (init_spec _ _ _ _ _ Hinit) as [Hd _].
    injection Hd as Hd.
    destruct (init_same_files _ _ _ _ _ Hinit) as [Hfs Hdef].
    destruct (initialize_aborts self w1 (arg_clone args)
                (Some (arg_clone_url args)) (Some (arg_clone_ref args))
                (arg_verbose args)) as [e [lg [Hrun [Hexit _]]]].
    + now rewrite <- Hd, Hfs.
    + unfold Seal5Flow.meta_dir. rewrite <- Hd, Hfs. exact Hmeta.
    + exact Hrefuse.
    + rewrite Hrun. exists e. simpl. auto.
Qed.

Lemma initialize_existing_workspace_aborts_witness :
  (forall f prompt,
      @ask_user with_names_bound = Some f -> f prompt false false = false) /\
  is_dir (fs later_world) (Seal5Flow.directory later_flow) = true /\
  is_dir (fs later_world) (Seal5Flow.meta_dir later_flow) = true /\
  (exists e log,
      Seal5Flow.initialize (E := with_names_bound) false false None None
                           false false (later_flow, later_world)
      = (Raise e,
         (later_flow,
          {| fs := fs later_world;
             default_settings := default_settings later_world;
             trace := trace later_world
                      ++ Log INFO "Initializing Seal5" :: log |}))
      /\ exit_status (Raise e) <> 0%Z
      /\ (log = [] \/ exists msg, log = [RootLog ERROR msg])) /\
  (exists e,
      fst (handle (E := with_names_bound) init_again later_world) = Raise e
      /\ exit_status (Raise e) <> 0%Z
      /\ fs (snd (snd (handle (E := with_names_bound) init_again later_world)))
         = fs later_world
      /\ default_settings
           (snd (snd (handle (E := with_names_bound) init_again later_world)))
         = default_settings later_world).
Proof.
  assert (forall f prompt,
             @ask_user with_names_bound = Some f ->
             f prompt false false = false) as Hrefuse.
  { intros f prompt Hf. injection Hf as <-. reflexivity. }
  split; [exact Hrefuse | ].
  split; [reflexivity | ]. split; [reflexivity | ].
  destruct (initialize_existing_workspace_aborts (E := with_names_bound) Hrefuse)
    as [Hinit Hcli].
  split.
  - apply Hinit; reflexivity.
  - apply (Hcli init_again "/work/llvm-project" later_world
                later_flow later_world_logging); reflexivity.
Defined.

(** ** What [initialize] persists *)

Ltac keeps_default :=
  keeps_with same_default_refl same_default_trans
             ltac:(first [ apply same_files_default;
                           first [ apply emit_same_files
                                 | apply probe_same_files
                                 | apply read_text_same_files
                                 | apply data_of_same_files ]
                         | apply external_same_default
                         | apply mkdir_same_default
                         | apply write_text_same_default ]).

Lemma in_world_on_world {A} R (m : M world A) :
  preserves R m -> preserves (on_world R) (Seal5Flow.in_world m).
Proof.
  intros Hm [self w] r o'. unfold Seal5Flow.in_world, on_world. simpl.
  destruct (m w) as [r1 w1] eqn:Hw. intros [= _ <-]. simpl.
  apply (Hm w r1 w1 Hw).
Qed.

Lemma in_world_ok {A} (m : M world A) o (a : A) o' :
  Seal5Flow.in_world m o = (Ok a, o') ->
  fst o' = fst o /\ m (snd o) = (Ok a, snd o').
Proof.
  unfold Seal5Flow.in_world. destruct (m (snd o)) as [r1 w1].
  intros [= -> <-]. auto.
Qed.

Lemma path_eqb_refl p : path_eqb p p = true.
Proof.
  unfold path_eqb. induction p as [ | c p IH]; simpl; auto.
  now rewrite String.eqb_refl.
Qed.

Lemma lookup_set_file l p text : lookup_file (set_file l p text) p = Some text.
Proof.
  induction l as [ | [q old] l IH]; simpl.
  - now rewrite path_eqb_refl.
  - destruct (path_eqb q p) eqn:Eq; simpl; now rewrite Eq.
Qed.

Lemma write_text_ok p text w w' :
  write_text p text w = (Ok tt, w') ->
  read_file (fs w') p = Some text /\
  dirs (fs w') = dirs (fs w) /\
  trace w' = trace w ++ [WriteFile p text] /\
  default_settings w' = default_settings w.
Proof.
  unfold write_text.
  destruct (is_dir (fs w) p); [discriminate | ].
  destruct (parent_is_dir (fs w) p); [ | discriminate].
  intros [= <-]. unfold read_file. simpl. split; auto.
  apply lookup_set_file.
Qed.

Lemma write_text_run p text w :
  is_dir (fs w) p = false -> parent_is_dir (fs w) p = true ->
  write_text p text w
  = (Ok tt,
     world_emit (with_fs w {| dirs := dirs (fs w);
                              files := set_file (files (fs w)) p text |})
                (WriteFile p text)).
Proof. unfold write_text. now intros -> ->. Qed.

Section world_steps.
Context {E : External}.

Lemma confirm_same_default prompt interactive :
  preserves same_default (Seal5Flow.confirm prompt interactive).
Proof. unfold Seal5Flow.confirm. keeps_default. Qed.

Lemma abort_same_default msg : preserves same_default (Seal5Flow.abort msg).
Proof. unfold Seal5Flow.abort. keeps_default. Qed.

Lemma clone_same_default dest url ref :
  preserves same_default (clone_llvm_repo dest url ref).
Proof. unfold clone_llvm_repo, log. keeps_default. Qed.

Lemma create_dirs_same_default p l :
  preserves same_default (create_seal5_directories p l).
Proof. unfold create_seal5_directories, mkdir_parents, log. keeps_default. Qed.
End world_steps.

Lemma on_world_refl R (Hrefl : forall w, R w w) o : on_world R o o.
Proof. apply Hrefl. Qed.

Lemma on_world_trans R (Htrans : forall a b c, R a b -> R b c -> R a c)
      o1 o2 o3 :
  on_world R o1 o2 -> on_world R o2 o3 -> on_world R o1 o3.
Proof. unfold on_world. eauto. Qed.

Lemma get_self_on_world R (Hrefl : forall w, R w w) :
  preserves (on_world R) Seal5Flow.get_self.
Proof. intros o r o' [= _ <-]. apply Hrefl. Qed.

Lemma set_settings_on_world R (Hrefl : forall w, R w w) s :
  preserves (on_world R) (Seal5Flow.set_settings s).
Proof. intros o r o' [= _ <-]. apply Hrefl. Qed.

Lemma read_data_on_world R (Hrefl : forall w, R w w) :
  preserves (on_world R) Seal5Flow.read_data.
Proof.
  intros o r o'. unfold Seal5Flow.read_data.
  destruct (Seal5Flow.settings (fst o)) as [[ | d] | ];
    intros [= _ <-]; apply Hrefl.
Qed.

Ltac keeps_default_steps :=
  keeps_with same_default_refl same_default_trans
             ltac:(first [ apply confirm_same_default
                         | apply abort_same_default
                         | apply clone_same_default
                         | apply create_dirs_same_default
                         | apply same_files_default;
                           first [ apply emit_same_files
                                 | apply probe_same_files
                                 | apply read_text_same_files
                                 | apply data_of_same_files ]
                         | apply external_same_default
                         | apply mkdir_same_default
                         | apply write_text_same_default ]).

Ltac keeps_default_obj :=
  keeps_with (on_world_refl same_default same_default_refl)
             (on_world_trans same_default same_default_trans)
             ltac:(first [ apply in_world_on_world; keeps_default_steps
                         | apply (get_self_on_world _ same_default_refl)
                         | apply (set_settings_on_world _ same_default_refl)
                         | apply (read_data_on_world _ same_default_refl) ]).

Lemma same_self_files_refl o : same_self_files o o.
Proof. split; [reflexivity | apply same_files_refl]. Qed.

Lemma same_self_files_trans o1 o2 o3 :
  same_self_files o1 o2 -> same_self_files o2 o3 -> same_self_files o1 o3.
Proof.
  intros [H1 H2] [H3 H4]. split; [congruence | ].
  eapply same_files_trans; eauto.
Qed.

Lemma in_world_same_self_files {A} (m : M world A) :
  preserves same_files m -> preserves same_self_files (Seal5Flow.in_world m).
Proof.
  intros Hm [self w] r o'. unfold Seal5Flow.in_world. simpl.
  destruct (m w) as [r1 w1] eqn:Hw. intros [= _ <-].
  split; [reflexivity | apply (Hm w r1 w1 Hw)].
Qed.

Lemma read_data_same_self_files : preserves same_self_files Seal5Flow.read_data.
Proof.
  intros o r o'. unfold Seal5Flow.read_data.
  destruct (Seal5Flow.settings (fst o)) as [[ | d] | ];
    intros [= _ <-]; apply same_self_files_refl.
Qed.

Lemma get_self_same_self_files : preserves same_self_files Seal5Flow.get_self.
Proof. intros o r o' [= _ <-]. apply same_self_files_refl. Qed.

Ltac keeps_self_files :=
  keeps_with same_self_files_refl same_self_files_trans
             ltac:(first [ apply in_world_same_self_files; keeps_files
                         | apply read_data_same_self_files
                         | apply get_self_same_self_files ]).

Ltac kept_default H :=
  match type of H with
  | ?m ?o = (?r, ?o') =>
      let K := fresh "K" in
      assert (on_world same_default o o') as K
        by (apply (fun P : preserves (on_world same_default) m => P o r o' H);
            keeps_default_obj);
      unfold on_world, same_default in K; clear H
  end.

Section initialize_persists.
Context {E : External}.

Lemma initialize_persists self w i c u r f v o' :
  Seal5Flow.initialize i c u r f v (self, w) = (Ok tt, o') ->
  Seal5Flow.settings (fst o') = Some DefaultData /\
  default_settings (snd o') = default_settings w /\
  read_file (fs (snd o')) (Seal5Flow.settings_file self)
  = Some (yaml_dump (default_settings w)).
Proof.
  unfold Seal5Flow.initialize. intros H.
  apply bind_ok_inv in H as (self0 & o0 & H0 & H).
  injection H0 as <- <-.
  apply bind_ok_inv in H as (u1 & o1 & H1 & H). kept_default H1.
  apply bind_ok_inv in H as (root & o2 & H2 & H). kept_default H2.
  apply bind_ok_inv in H as (u3 & o3 & H3 & H). kept_default H3.
  apply bind_ok_inv in H as (meta & o4 & H4 & H). kept_default H4.
  apply bind_ok_inv in H as (u5 & o5 & H5 & H). kept_default H5.
  apply bind_ok_inv in H as (u6 & o6 & H6 & H). kept_default H6.
  apply bind_ok_inv in H as (u7 & o7 & H7 & H). kept_default H7.
  apply bind_ok_inv in H as (u8 & o8 & H8 & H).
  apply bind_ok_inv in H as (data & o9 & H9 & H).
  apply bind_ok_inv in H as (u10 & o10 & H10 & H).
  injection H8 as _ <-.
  unfold Seal5Flow.read_data in H9. simpl in H9. injection H9 as <- <-.
  apply in_world_ok in H10 as [Hself Hwrite]. simpl in Hself, Hwrite.
  destruct u10.
  apply write_text_ok in Hwrite as (Hread & _ & _ & Hdef).
  assert (same_self_files o10 o') as [Hs [Hfs Hd]].
  { revert H. apply (fun P : preserves same_self_files _ => P o10 (Ok tt) o').
    unfold set_log_file, set_log_level, log. keeps_self_files. }
  rewrite Hs, Hself, Hfs, Hd, Hdef. simpl in *.
  assert (default_settings (snd o7) = default_settings w) as Hall
    by congruence.
  unfold YAMLSettings.to_yaml in Hread. rewrite Hall in Hread. auto.
Qed.
End initialize_persists.

(** C9, as stated, fails: after a successful initialize the persisted tree
    is the default tree, whose transform section selects the passes with
    the text [*], not with the text [all]. *)
Lemma persisted_passes_are_a_star :
  fst (Seal5Flow.initialize (E := as_written) false false None None false false
                            (fresh_flow, fresh_world)) = Ok tt /\
  read_file (fs (snd initialized)) (Seal5Flow.settings_file fresh_flow)
  = Some (yaml_dump (External := as_written) DEFAULT_SETTINGS) /\
  dict_get DEFAULT_SETTINGS "transform" = Some (VDict [("passes", VStr "*")]) /\
  get_path DEFAULT_SETTINGS ["transform"; "passes"] <> Some (VStr "all").
Proof.
  split; [vm_compute; reflexivity | ].
  split; [vm_compute; reflexivity | ].
  split; [reflexivity | ].
  simpl. discriminate.
Qed.

(** C9 (amended): after a successful initialize, run while the module-level
    default dictionary is as defined, the settings file holds the rendering
    of the default tree, which has the top-level sections logging, patch,
    transform, test, llvm, inputs, extensions and groups, with the transform
    pass selection [*], the groups section [{all: *}], an empty inputs list
    and an empty extensions section. *)
Theorem initialize_persists_default_tree {E : External}
        (self : Seal5Flow.t) (w : world) (interactive clone : bool)
        (clone_url clone_ref : option string) (force verbose : bool)
        (o' : Seal5Flow.obj) :
  default_settings w = DEFAULT_SETTINGS ->
  Seal5Flow.initialize interactive clone clone_url clone_ref force verbose
                       (self, w) = (Ok tt, o') ->
  read_file (fs (snd o')) (Seal5Flow.settings_file self)
  = Some (yaml_dump DEFAULT_SETTINGS) /\
  keys DEFAULT_SETTINGS
  = ["logging"; "patch"; "transform"; "test"; "llvm"; "inputs";
     "extensions"; "groups"] /\
  dict_get DEFAULT_SETTINGS "transform" = Some (VDict [("passes", VStr "*")]) /\
  dict_get DEFAULT_SETTINGS "groups" = Some (VDict [("all", VStr "*")]) /\
  dict_get DEFAULT_SETTINGS "inputs" = Some (VList []) /\
  dict_get DEFAULT_SETTINGS "extensions" = Some (VDict []).
Proof.
  intros Hdef Hinit.
  destruct (initialize_persists _ _ _ _ _ _ _ _ _ Hinit) as (_ & _ & Hread).
  rewrite Hdef in Hread. repeat split. exact Hread.
Qed.

Lemma initialize_persists_default_tree_witness :
  default_settings fresh_world = DEFAULT_SETTINGS /\
  Seal5Flow.initialize (E := as_written) false false None None false false
                       (fresh_flow, fresh_world) = (Ok tt, initialized) /\
  read_file (fs (snd initialized)) (Seal5Flow.settings_file fresh_flow)
  = Some (yaml_dump (External := as_written) DEFAULT_SETTINGS) /\
  keys DEFAULT_SETTINGS
  = ["logging"; "patch"; "transform"; "test"; "llvm"; "inputs";
     "extensions"; "groups"] /\
  dict_get DEFAULT_SETTINGS "transform" = Some (VDict [("passes", VStr "*")]) /\
  dict_get DEFAULT_SETTINGS "groups" = Some (VDict [("all", VStr "*")]) /\
  dict_get DEFAULT_SETTINGS "inputs" = Some (VList []) /\
  dict_get DEFAULT_SETTINGS "extensions" = Some (VDict []).
Proof.
  assert (Seal5Flow.initialize (E := as_written) false false None None
                               false false (fresh_flow, fresh_world)
          = (Ok tt, initialized)) as Hrun by (vm_compute; reflexivity).
  split; [reflexivity | ]. split; [exact Hrun | ].
  exact (initialize_persists_default_tree (E := as_written)
           fresh_flow fresh_world false false None None false false
           initialized eq_refl Hrun).
Defined.

(** The settings object made by [initialize] shares the module-level
    dictionary: a model source loaded afterwards is appended to that
    dictionary, and a forced second [initialize] in the same process
    persists it. *)
Example default_dictionary_is_shared :
  let loaded :=
    snd (Seal5Flow.load_cdsl (E := as_written) ["/work"; "Example.core_desc"]
                             false false initialized) in
  let again :=
    Seal5Flow.initialize (E := as_written) false false None None true false
                         loaded in
  fst again = Ok tt /\
  dict_get (default_settings (snd (snd again))) "inputs"
  = Some (VList [VStr "Example.core_desc"]) /\
  read_file (fs (snd (snd again))) (Seal5Flow.settings_file fresh_flow)
  = Some (render (dict_set DEFAULT_SETTINGS "inputs"
                           (VList [VStr "Example.core_desc"]))).
Proof. vm_compute. repeat split. Qed.

(** ** Loading a model source *)

Lemma in_world_run {A} (m : M world A) self w r w' :
  m w = (r, w') -> Seal5Flow.in_world m (self, w) = (r, (self, w')).
Proof. unfold Seal5Flow.in_world. simpl. now intros ->. Qed.

Lemma external_run {A} e (tool : M fs_state A) w r f1 :
  tool (fs w) = (r, f1) ->
  external e tool w = (r, with_fs (world_emit w e) f1).
Proof. unfold external. simpl. now intros ->. Qed.

Section load_cdsl.
Context {E : External}.

Lemma load_cdsl_refuses self w file verbose :
  is_file (fs w) file = true ->
  is_file (fs w) (path_join (Seal5Flow.inputs_dir self) (path_name file))
  = true ->
  Seal5Flow.load_cdsl file verbose false (self, w)
  = (Raise (RuntimeError ("File " ++ path_name file ++ " already loaded!")),
     (self, w)).
Proof.
  intros Hfile Hdest. unfold Seal5Flow.load_cdsl.
  rewrite (bind_step _ _ _ self (self, w)) by reflexivity.
  rewrite (bind_step _ _ _ true (self, w))
    by (apply in_world_run; unfold probe; now rewrite Hfile).
  rewrite (bind_step _ _ _ tt (self, w)) by reflexivity.
  rewrite (bind_step _ _ _ true (self, w))
    by (apply in_world_run; unfold probe; now rewrite Hdest).
  reflexivity.
Qed.

Lemma load_cdsl_copy_fails self w file verbose overwrite e f1 :
  is_file (fs w) file = true ->
  is_file (fs w) (path_join (Seal5Flow.inputs_dir self) (path_name file))
  && negb overwrite = false ->
  utils_copy file (path_join (Seal5Flow.inputs_dir self) (path_name file))
             (fs w) = (Raise e, f1) ->
  Seal5Flow.load_cdsl file verbose overwrite (self, w)
  = (Raise e,
     (self,
      with_fs (world_emit w (Copy file (path_join (Seal5Flow.inputs_dir self)
                                                  (path_name file)))) f1)).
Proof.
  intros Hfile Hdest Hcopy. unfold Seal5Flow.load_cdsl.
  rewrite (bind_step _ _ _ self (self, w)) by reflexivity.
  rewrite (bind_step _ _ _ true (self, w))
    by (apply in_world_run; unfold probe; now rewrite Hfile).
  rewrite (bind_step _ _ _ tt (self, w)) by reflexivity.
  rewrite (bind_step _ _ _ _ (self, w))
    by (apply in_world_run; unfold probe; reflexivity).
  rewrite Hdest.
  rewrite (bind_step _ _ _ tt (self, w)) by reflexivity.
  erewrite bind_raise; [reflexivity | ].
  apply in_world_run. now apply external_run.
Qed.

Lemma load_cdsl_succeeds self w file verbose overwrite data l f1 f2 :
  is_file (fs w) file = true ->
  is_file (fs w) (path_join (Seal5Flow.inputs_dir self) (path_name file))
  && negb overwrite = false ->
  Seal5Flow.read_data (self, w) = (Ok data, (self, w)) ->
  dict_get data "inputs" = Some (VList l) ->
  utils_copy file (path_join (Seal5Flow.inputs_dir self) (path_name file))
             (fs w) = (Ok tt, f1) ->
  utils_python (parser_args self file)
               (path_join (Seal5Flow.deps_dir self) "M2-ISA-R") f1
  = (Ok tt, f2) ->
  is_dir f2 (Seal5Flow.settings_file self) = false ->
  parent_is_dir f2 (Seal5Flow.settings_file self) = true ->
  exists o',
    Seal5Flow.load_cdsl file verbose overwrite (self, w) = (Ok tt, o') /\
    Seal5Flow.read_data o'
    = (Ok (dict_set data "inputs" (VList (l ++ [VStr (path_name file)]))), o')
    /\
    trace (snd o')
    = trace w
      ++ [Copy file (path_join (Seal5Flow.inputs_dir self) (path_name file));
          Python (parser_args self file)
                 (path_join (Seal5Flow.deps_dir self) "M2-ISA-R");
          WriteFile (Seal5Flow.settings_file self)
                    (yaml_dump (dict_set data "inputs"
                                  (VList (l ++ [VStr (path_name file)]))))]
    /\
    read_file (fs (snd o')) (Seal5Flow.settings_file self)
    = Some (yaml_dump (dict_set data "inputs"
                         (VList (l ++ [VStr (path_name file)])))).
Proof.
  intros Hfile Hdest Hread Hinputs Hcopy Hparse Hnodir Hparent.
  unfold Seal5Flow.load_cdsl.
  rewrite (bind_step _ _ _ self (self, w)) by reflexivity.
  rewrite (bind_step _ _ _ true (self, w))
    by (apply in_world_run; unfold probe; now rewrite Hfile).
  rewrite (bind_step _ _ _ tt (self, w)) by reflexivity.
  rewrite (bind_step _ _ _ _ (self, w))
    by (apply in_world_run; unfold probe; reflexivity).
  rewrite Hdest.
  rewrite (bind_step _ _ _ tt (self, w)) by reflexivity.
  erewrite bind_step
    by (apply in_world_run; apply external_run; exact Hcopy).
  unfold Seal5Flow.read_data in Hread. simpl in Hread.
  destruct (Seal5Flow.settings self) as [[ | d] | ] eqn:Hs;
    [ | | discriminate]; injection Hread as <-.
  - erewrite bind_step
      by (unfold Seal5Flow.read_data; simpl; rewrite Hs; reflexivity).
    erewrite bind_step
      by (unfold of_result, subscript; rewrite Hinputs; reflexivity).
    erewrite bind_step
      by (unfold Seal5Flow.write_data; simpl; rewrite Hs; reflexivity).
    erewrite bind_step
      by (apply in_world_run; apply external_run; exact Hparse).
    erewrite bind_step
      by (unfold Seal5Flow.read_data; simpl; rewrite Hs; reflexivity).
    eexists. split.
    { apply in_world_run. apply write_text_run; assumption. }
    split; [unfold Seal5Flow.read_data; simpl; now rewrite Hs | ].
    split; [simpl; rewrite <- !app_assoc; reflexivity | ].
    unfold read_file. simpl. apply lookup_set_file.
  - erewrite bind_step
      by (unfold Seal5Flow.read_data; simpl; rewrite Hs; reflexivity).
    erewrite bind_step
      by (unfold of_result, subscript; rewrite Hinputs; reflexivity).
    erewrite bind_step
      by (unfold Seal5Flow.write_data; simpl; rewrite Hs; reflexivity).
    erewrite bind_step
      by (apply in_world_run; apply external_run; exact Hparse).
    erewrite bind_step by reflexivity.
    eexists. split.
    { apply in_world_run. apply write_text_run; assumption. }
    split; [reflexivity | ].
    split; [simpl; rewrite <- !app_assoc; reflexivity | ].
    unfold read_file. simpl. apply lookup_set_file.
Qed.
End load_cdsl.

Lemma keys_dict_set_present d k v old :
  dict_get d k = Some old -> keys (dict_set d k v) = keys d.
Proof.
  induction d as [ | [k0 w] d IH]; simpl; [discriminate | ].
  destruct (String.eqb k0 k) eqn:E; simpl; [reflexivity | ].
  intros H. f_equal. now apply IH.
Qed.

Lemma dict_set_inputs_appended data l name :
  dict_get data "inputs" = Some (VList l) ->
  inputs_appended data (dict_set data "inputs" (VList (l ++ [VStr name])))
                  l name.
Proof.
  intros H. split; [apply dict_get_set_same | ]. split.
  - intros k Hk. apply dict_get_set_other. congruence.
  - apply (keys_dict_set_present _ _ _ _ H).
Qed.

(** C7: loading a model source whose name is already in the inputs
    directory, without overwrite, raises and changes nothing.  Otherwise the
    file is copied into the inputs directory first: if the copy fails,
    nothing else happens and the settings are not written; if it succeeds,
    the file name is appended to the inputs list, the parser is started on
    the file with the models directory as output, and then the settings
    with the longer list are written to the settings file.  [load] sends a
    file whose suffix is [.core_desc] through this path. *)
Theorem load_cdsl_copies_parses_persists {E : External}
        (self : Seal5Flow.t) (w : world) (file : path) (verbose : bool)
        (data : dict) (l : list value) :
  let dest := path_join (Seal5Flow.inputs_dir self) (path_name file) in
  let parser_env := path_join (Seal5Flow.deps_dir self) "M2-ISA-R" in
  is_file (fs w) file = true ->
  Seal5Flow.read_data (self, w) = (Ok data, (self, w)) ->
  dict_get data "inputs" = Some (VList l) ->
  (is_file (fs w) dest = true ->
   Seal5Flow.load_cdsl file verbose false (self, w)
   = (Raise (RuntimeError ("File " ++ path_name file ++ " already loaded!")),
      (self, w)))
  /\
  (forall overwrite,
      is_file (fs w) dest && negb overwrite = false ->
      (forall e f1,
          utils_copy file dest (fs w) = (Raise e, f1) ->
          Seal5Flow.load_cdsl file verbose overwrite (self, w)
          = (Raise e, (self, with_fs (world_emit w (Copy file dest)) f1)))
      /\
      (forall f1 f2,
          utils_copy file dest (fs w) = (Ok tt, f1) ->
          utils_python (parser_args self file) parser_env f1 = (Ok tt, f2) ->
          is_dir f2 (Seal5Flow.settings_file self) = false ->
          parent_is_dir f2 (Seal5Flow.settings_file self) = true ->
          exists o' data',
            Seal5Flow.load_cdsl file verbose overwrite (self, w) = (Ok tt, o')
            /\ inputs_appended data data' l (path_name file)
            /\ Seal5Flow.read_data o' = (Ok data', o')
            /\ trace (snd o')
               = trace w
                 ++ [Copy file dest;
                     Python (parser_args self file) parser_env;
                     WriteFile (Seal5Flow.settings_file self) (yaml_dump data')]
            /\ read_file (fs (snd o')) (Seal5Flow.settings_file self)
               = Some (yaml_dump data')))
  /\
  (forall overwrite,
      str_lower (path_suffix file) = ".core_desc" ->
      Seal5Flow.load_one file verbose overwrite
      = bind (Seal5Flow.in_world
                (log INFO ("Processing file: " ++ str_of_path file)))
             (fun _ => Seal5Flow.load_cdsl file verbose overwrite)).
Proof.
  intros dest parser_env Hfile Hread Hinputs. split; [ | split].
  - intros Hdest. now apply load_cdsl_refuses.
  - intros overwrite Hguard. split.
    + intros e f1 Hcopy. now apply load_cdsl_copy_fails.
    + intros f1 f2 Hcopy Hparse Hnodir Hparent.
      destruct (load_cdsl_succeeds self w file verbose overwrite data l f1 f2)
        as (o' & Hrun & Hdata & Htrace & Hwritten); auto.
      exists o', (dict_set data "inputs" (VList (l ++ [VStr (path_name file)]))).
      split; [exact Hrun | ].
      split; [now apply dict_set_inputs_appended | auto].
  - intros overwrite Hsuffix. unfold Seal5Flow.load_one.
    rewrite Hsuffix. reflexivity.
Qed.

Lemma load_cdsl_copies_parses_persists_witness :
  is_file (fs (snd initialized)) example_source = true /\
  Seal5Flow.read_data initialized = (Ok DEFAULT_SETTINGS, initialized) /\
  dict_get DEFAULT_SETTINGS "inputs" = Some (VList []) /\
  exists o' data',
    Seal5Flow.load_cdsl (E := as_written) example_source false false initialized
    = (Ok tt, o')
    /\ inputs_appended DEFAULT_SETTINGS data' [] "Example.core_desc"
    /\ Seal5Flow.read_data o' = (Ok data', o')
    /\ trace (snd o')
       = trace (snd initialized)
         ++ [Copy example_source
                  (path_join (Seal5Flow.inputs_dir fresh_flow)
                             "Example.core_desc");
             Python (parser_args fresh_flow example_source)
                    (path_join (Seal5Flow.deps_dir fresh_flow) "M2-ISA-R");
             WriteFile (Seal5Flow.settings_file fresh_flow) (render data')]
    /\ read_file (fs (snd o')) (Seal5Flow.settings_file fresh_flow)
       = Some (render data').
Proof.
  assert (is_file (fs (snd initialized)) example_source = true) as Hfile
      by reflexivity.
  assert (Seal5Flow.read_data initialized = (Ok DEFAULT_SETTINGS, initialized))
    as Hread by reflexivity.
  assert (dict_get DEFAULT_SETTINGS "inputs" = Some (VList [])) as Hinputs
      by reflexivity.
  split; [exact Hfile | ]. split; [exact Hread | ]. split; [exact Hinputs | ].
  destruct (load_cdsl_copies_parses_persists
              (E := as_written) (fst initialized) (snd initialized)
              example_source false DEFAULT_SETTINGS [] Hfile Hread Hinputs)
    as (_ & Hload & _).
  destruct (Hload false eq_refl) as [_ Hok].
  exact (Hok _ _ eq_refl eq_refl eq_refl eq_refl).
Defined.

(** ** [build] *)

Lemma no_new_flags_refl w : no_new_flags w w.
Proof. intros src args n cwd H. now left. Qed.

Lemma no_new_flags_trans w1 w2 w3 :
  no_new_flags w1 w2 -> no_new_flags w2 w3 -> no_new_flags w1 w3.
Proof.
  intros H12 H23 src args n cwd H.
  destruct (H23 _ _ _ _ H) as [H2 | ->]; [ | now right].
  apply (H12 _ _ _ _ H2).
Qed.

Lemma no_new_flags_emit w w' e :
  trace w' = trace w ++ [e] ->
  (forall src args n cwd, e = Cmake src args n cwd -> args = []) ->
  no_new_flags w w'.
Proof.
  intros Htr He src args n cwd H. rewrite Htr in H.
  apply in_app_or in H as [H | [H | []]]; [now left | right].
  apply (He src args n cwd). now symmetry.
Qed.

Lemma emit_no_new_flags e :
  (forall src args n cwd, e = Cmake src args n cwd -> args = []) ->
  preserves no_new_flags (emit e).
Proof.
  intros He w r w' [= _ <-]. apply (no_new_flags_emit _ _ e); auto.
Qed.

Lemma external_no_new_flags {A} e (tool : M fs_state A) :
  (forall src args n cwd, e = Cmake src args n cwd -> args = []) ->
  preserves no_new_flags (external e tool).
Proof.
  intros He w r w'. unfold external.
  destruct (tool (fs (world_emit w e))) as [r1 f]. intros [= _ <-].
  apply (no_new_flags_emit _ _ e); auto.
Qed.

Lemma mkdir_no_new_flags p ok : preserves no_new_flags (mkdir p ok).
Proof.
  intros w r w'. unfold mkdir.
  destruct (is_dir (fs w) p);
    [destruct ok; intros [= _ <-]; apply no_new_flags_refl | ].
  destruct (is_file (fs w) p); [intros [= _ <-]; apply no_new_flags_refl | ].
  destruct (parent_is_dir (fs w) p); intros [= _ <-].
  - apply (no_new_flags_emit _ _ (Mkdir p)); auto. discriminate.
  - apply no_new_flags_refl.
Qed.

Section build.
Context {E : External}.

Lemma build_llvm_without_options src dest debug use_ninja verbose :
  build_llvm src dest debug use_ninja verbose []
  = (mkdir dest true ;;
     external (Cmake (path_join src "llvm") [] use_ninja dest)
              (utils_cmake (path_join src "llvm") [] use_ninja dest) ;;
     external (Make dest) (utils_make dest))%flow.
Proof. reflexivity. Qed.

Lemma build_llvm_no_new_flags src dest debug use_ninja verbose :
  preserves no_new_flags (build_llvm src dest debug use_ninja verbose []).
Proof.
  rewrite build_llvm_without_options.
  keeps_with no_new_flags_refl no_new_flags_trans
             ltac:(first [ apply mkdir_no_new_flags
                         | apply external_no_new_flags;
                           intros ? ? ? ? [= ]; congruence ]).
Qed.

(** Whatever the settings hold, [build] never hands a flag to the
    configure step. *)
Lemma build_passes_no_flags config verbose :
  preserves (on_world no_new_flags) (Seal5Flow.build config verbose).
Proof.
  unfold Seal5Flow.build, log.
  keeps_with (on_world_refl no_new_flags no_new_flags_refl)
             (on_world_trans no_new_flags no_new_flags_trans)
             ltac:(first [ apply in_world_on_world;
                           first [ apply build_llvm_no_new_flags
                                 | apply emit_no_new_flags; discriminate ]
                         | apply (get_self_on_world _ no_new_flags_refl)
                         | apply (read_data_on_world _ no_new_flags_refl) ]).
Qed.

(** A name that [llvm.configs] does not have fails the assertion before
    anything but the first log record has happened. *)
Lemma build_unknown_config self w config verbose data llvm configs :
  Seal5Flow.read_data (self, world_emit w (Log INFO "Building Seal5 LLVM"))
  = (Ok data, (self, world_emit w (Log INFO "Building Seal5 LLVM"))) ->
  dict_get data "llvm" = Some llvm ->
  subscript llvm "configs" = Ok (VDict configs) ->
  dict_get configs config = None ->
  Seal5Flow.build config verbose (self, w)
  = (Raise (AssertionError ("Invalid llvm config: " ++ config)),
     (self, world_emit w (Log INFO "Building Seal5 LLVM"))).
Proof.
  intros Hread Hllvm Hconfigs Hnone. unfold Seal5Flow.build.
  rewrite (bind_step _ _ _ self (self, w)) by reflexivity.
  erewrite bind_step by (apply in_world_run; reflexivity).
  erewrite bind_step by exact Hread.
  erewrite bind_step
    by (unfold of_result, subscript; rewrite Hllvm; reflexivity).
  erewrite bind_step by (unfold of_result; rewrite Hconfigs; reflexivity).
  erewrite bind_step
    by (unfold of_result, Seal5Flow.dict_get_or_none; rewrite Hnone;
        reflexivity).
  reflexivity.
Qed.
End build.

(** C2 at the default settings: the options of the configuration [release]
    translate to six flags, yet [build("release")] starts the configure step
    with no flag at all, then the compile step. *)
Theorem build_release_configures_without_flags :
  get_path DEFAULT_SETTINGS ["llvm"; "configs"; "release"; "options"]
  = Some (VDict release_options) /\
  get_cmake_args release_options
  = Ok ["-DCMAKE_BUILD_TYPE=Release"; "-DLLVM_BUILD_TOOLS=ON";
        "-DLLVM_ENABLE_ASSERTIONS=OFF"; "-DLLVM_OPTIMIZED_TABLEGEN=ON";
        "-DLLVM_ENABLE_PROJECTS=clang;lld";
        "-DLLVM_TARGETS_TO_BUILD=X86;RISCV"] /\
  fst (Seal5Flow.build (E := as_written) "release" false initialized) = Ok tt /\
  trace (snd (snd (Seal5Flow.build (E := as_written) "release" false
                                   initialized)))
  = trace (snd initialized)
    ++ [Log INFO "Building Seal5 LLVM";
        Mkdir ["/work/llvm-project"; ".seal5"; "build"; "release"];
        Cmake ["/work/llvm-project"; "llvm"] [] false
              ["/work/llvm-project"; ".seal5"; "build"; "release"];
        Make ["/work/llvm-project"; ".seal5"; "build"; "release"];
        Log INFO "Completed build of Seal5 LLVM"].
Proof. repeat split; vm_compute; reflexivity. Qed.

(** ** The failing-test pattern *)

Lemma append_assoc (a b c : string) :
  ((a ++ b) ++ c = a ++ (b ++ c))%string.
Proof. induction a as [ | x a IH]; simpl; congruence. Qed.

Lemma length_append (a b : string) :
  String.length (a ++ b)%string = String.length a + String.length b.
Proof. induction a as [ | x a IH]; simpl; congruence. Qed.

Lemma strip_prefix_app pre x : strip_prefix pre (pre ++ x)%string = Some x.
Proof.
  induction pre as [ | c pre IH]; simpl; auto.
  now rewrite Ascii.eqb_refl.
Qed.

Lemma strip_prefix_before_newline pre u r :
  no_newline pre = true ->
  strip_prefix pre u = None ->
  strip_prefix pre (u ++ String newline r)%string = None.
Proof.
  revert u. induction pre as [ | c pre IH]; intros u Hpre Hu.
  - discriminate.
  - simpl in Hpre. apply andb_true_iff in Hpre as [Hc Hpre].
    apply negb_true_iff in Hc.
    destruct u as [ | d u]; simpl in *.
    + now rewrite Hc.
    + destruct (Ascii.eqb c d); auto.
Qed.

Lemma quiet_line_skipped t r :
  quiet t = true ->
  findall_from (t ++ String newline r)%string 0 = findall_from r 0.
Proof.
  induction t as [ | c t IH]; intros Hq.
  - reflexivity.
  - cbn [quiet] in Hq.
    destruct (strip_prefix fail_prefix (String c t)) eqn:Hs; [discriminate | ].
    change (findall_from (String c (t ++ String newline r)) 0
            = findall_from r 0).
    unfold findall_from; fold findall_from. unfold match_here.
    change (String c (t ++ String newline r))%string
      with (String c t ++ String newline r)%string.
    rewrite (strip_prefix_before_newline fail_prefix (String c t) r eq_refl Hs).
    now apply IH.
Qed.

Lemma no_newline_app a b :
  no_newline (a ++ b)%string = no_newline a && no_newline b.
Proof.
  induction a as [ | c a IH]; simpl; auto.
  rewrite IH. now rewrite andb_assoc.
Qed.

Lemma until_newline_app x r :
  no_newline x = true -> until_newline (x ++ String newline r)%string = x.
Proof.
  induction x as [ | c x IH]; simpl; intros H.
  - reflexivity.
  - apply andb_true_iff in H as [Hc Hx]. apply negb_true_iff in Hc.
    rewrite Hc. now rewrite IH.
Qed.

Lemma last_index_none sub s i j :
  last_index sub s i = None -> last_index sub s j = None.
Proof.
  revert i j. induction s as [ | c s IH]; intros i j; simpl; auto.
  destruct (last_index sub s (S i)) eqn:H1; [discriminate | ].
  rewrite (IH _ (S j) H1).
  destruct (strip_prefix sub (String c s)); auto. discriminate.
Qed.

Lemma last_index_before_tail id tail i :
  last_index " (" tail 0 = None ->
  last_index " (" (id ++ " (" ++ tail)%string i = Some (i + String.length id).
Proof.
  intros Htail. revert i. induction id as [ | c id IH]; intros i.
  - simpl append. unfold last_index; fold last_index.
    rewrite (last_index_none _ _ _ (S (S i)) Htail).
    simpl. now rewrite Nat.add_0_r.
  - simpl append. unfold last_index; fold last_index.
    rewrite IH. simpl. f_equal. lia.
Qed.

Lemma substring_app x y : substring 0 (String.length x) (x ++ y)%string = x.
Proof.
  induction x as [ | c x IH]; simpl.
  - destruct y; reflexivity.
  - now rewrite IH.
Qed.

Lemma findall_skip x y :
  findall_from (x ++ y)%string (String.length x) = findall_from y 0.
Proof. induction x as [ | c x IH]; simpl; auto. Qed.

Lemma failing_line_found id tail r :
  line_ok (Failing id tail) = true ->
  findall_from (line_text (Failing id tail) ++ String newline r)%string 0
  = id :: findall_from r 0.
Proof.
  unfold line_ok. rewrite !andb_true_iff. intros [[[Hid Htail] Hquiet] Hlast].
  destruct (last_index " (" tail 0) eqn:Hl; [discriminate | ]. clear Hlast.
  unfold line_text.
  set (rest := (id ++ " (" ++ tail ++ String newline r)%string).
  assert ((fail_prefix ++ id ++ " (" ++ tail) ++ String newline r
          = fail_prefix ++ rest)%string as ->.
  { unfold rest. now rewrite !append_assoc. }
  assert (match_here (fail_prefix ++ rest)
          = Some (id, String.length fail_prefix + String.length id + 2)) as Hm.
  { unfold match_here. rewrite strip_prefix_app.
    assert (rest = (id ++ " (" ++ tail) ++ String newline r)%string as Hrest
        by (unfold rest; now rewrite !append_assoc).
    rewrite Hrest at 1.
    rewrite until_newline_app
      by (rewrite !no_newline_app, Hid, Htail; reflexivity).
    rewrite (last_index_before_tail id tail 0 Hl). simpl Nat.add.
    unfold rest. now rewrite substring_app. }
  change (fail_prefix ++ rest)%string
    with (String "F" ("AIL: LLVM :: " ++ rest))%string in *.
  unfold findall_from; fold findall_from. rewrite Hm.
  f_equal.
  assert ("AIL: LLVM :: " ++ rest
          = ("AIL: LLVM :: " ++ id ++ " (") ++ (tail ++ String newline r))%string
    as -> by (unfold rest; now rewrite !append_assoc).
  assert (String.length fail_prefix + String.length id + 2 - 1
          = String.length ("AIL: LLVM :: " ++ id ++ " (")%string) as ->.
  { rewrite !length_append. simpl. lia. }
  rewrite findall_skip. now apply quiet_line_skipped.
Qed.

(** The marker starts with its only [F]: an occurrence cannot begin in
    the text before another occurrence and run into it. *)
Lemma strip_prefix_runs_into pre :
  has_char "F" pre = false ->
  forall u y, strip_prefix pre u = None ->
              strip_prefix pre (u ++ String "F" y)%string = None.
Proof.
  induction pre as [ | c pre IH]; intros Hpre u y Hu; [discriminate | ].
  simpl in Hpre. apply orb_false_iff in Hpre as [Hc Hpre].
  destruct u as [ | d u]; simpl in *.
  - now rewrite Hc.
  - destruct (Ascii.eqb c d); auto.
Qed.

Lemma marker_not_straddled u r :
  u <> EmptyString ->
  strip_prefix fail_prefix u = None ->
  strip_prefix fail_prefix (u ++ fail_prefix ++ r)%string = None.
Proof.
  intros Hne Hu. destruct u as [ | d u]; [congruence | ].
  change fail_prefix with (String "F" "AIL: LLVM :: ") in *.
  cbn [strip_prefix append] in *.
  destruct (Ascii.eqb "F" d); [ | reflexivity].
  now apply (strip_prefix_runs_into "AIL: LLVM :: " eq_refl).
Qed.

Lemma quiet_prefix_skipped before r :
  quiet before = true ->
  findall_from (before ++ fail_prefix ++ r)%string 0
  = findall_from (fail_prefix ++ r)%string 0.
Proof.
  induction before as [ | c t IH]; intros Hq; [reflexivity | ].
  cbn [quiet] in Hq.
  destruct (strip_prefix fail_prefix (String c t)) eqn:Hs; [discriminate | ].
  change (String c t ++ fail_prefix ++ r)%string
    with (String c (t ++ fail_prefix ++ r))%string.
  unfold findall_from; fold findall_from. unfold match_here.
  change (String c (t ++ fail_prefix ++ r))%string
    with (String c t ++ fail_prefix ++ r)%string.
  rewrite (marker_not_straddled (String c t) r) by (auto; discriminate).
  now apply IH.
Qed.

Lemma prefixed_line_found before id tail r :
  line_ok (Prefixed before id tail) = true ->
  findall_from (line_text (Prefixed before id tail) ++ String newline r)%string 0
  = id :: findall_from r 0.
Proof.
  unfold line_ok. intros H. apply andb_true_iff in H as [Hbefore Hline].
  unfold line_text.
  assert ((before ++ fail_prefix ++ id ++ " (" ++ tail) ++ String newline r
          = before ++ fail_prefix
                   ++ (id ++ " (" ++ tail ++ String newline r))%string as ->
      by now rewrite !append_assoc.
  rewrite quiet_prefix_skipped by exact Hbefore.
  assert (fail_prefix ++ id ++ " (" ++ tail ++ String newline r
          = line_text (Failing id tail) ++ String newline r)%string as ->
      by (unfold line_text; now rewrite !append_assoc).
  now apply failing_line_found.
Qed.

Lemma findall_lit_text lines :
  forallb line_ok lines = true ->
  findall_failing (lit_text lines) = marked_ids lines.
Proof.
  unfold findall_failing.
  induction lines as [ | l lines IH]; intros Hok; [reflexivity | ].
  simpl in Hok. apply andb_true_iff in Hok as [Hl Hok].
  simpl lit_text. destruct l as [id tail | before id tail | text].
  - rewrite failing_line_found by exact Hl. simpl. now rewrite IH.
  - rewrite prefixed_line_found by exact Hl. simpl. now rewrite IH.
  - simpl line_text. rewrite quiet_line_skipped by exact Hl. simpl. now apply IH.
Qed.

(** ** [test] *)

Section test.
Context {E : External}.

Lemma test_llvm_loop_step lit_exe base p rest acc w out f1 :
  utils_exec_getout lit_exe (path_join base p) (fs w) = (Ok out, f1) ->
  test_llvm_loop lit_exe base (VStr p :: rest) acc w
  = test_llvm_loop lit_exe base rest (acc ++ findall_failing out)
                   (with_fs (world_emit w (Lit lit_exe (path_join base p))) f1).
Proof.
  intros Hout. cbn [test_llvm_loop].
  erewrite bind_step by (apply external_run; exact Hout).
  reflexivity.
Qed.

(** The identifiers that the loop returns are those found in the outputs
    of the runner, one output per suite, in the order of the suites. *)
Lemma test_llvm_loop_scrapes lit_exe base ps :
  forall acc w r w',
    test_llvm_loop lit_exe base (map VStr ps) acc w = (Ok r, w') ->
    exists outs,
      Forall2 (fun p out =>
                 exists f f',
                   utils_exec_getout lit_exe (path_join base p) f
                   = (Ok out, f')) ps outs
      /\ r = acc ++ flat_map findall_failing outs
      /\ trace w' = trace w ++ map (fun p => Lit lit_exe (path_join base p)) ps.
Proof.
  induction ps as [ | p ps IH]; intros acc w r w' Hrun.
  - injection Hrun as <- <-. exists []. repeat split.
    + constructor.
    + now rewrite app_nil_r.
    + now rewrite app_nil_r.
  - cbn [map test_llvm_loop] in Hrun.
    apply bind_ok_inv in Hrun as (out & w1 & Hout & Hrest).
    unfold external in Hout.
    destruct (utils_exec_getout lit_exe (path_join base p)
                                (fs (world_emit w (Lit lit_exe (path_join base p)))))
      as [ro f1] eqn:Htool.
    injection Hout as -> <-.
    destruct (IH _ _ _ _ Hrest) as (outs & Hall & -> & Htrace).
    exists (out :: outs). repeat split.
    + constructor; [eauto | exact Hall].
    + simpl. now rewrite <- app_assoc.
    + rewrite Htrace. simpl. now rewrite <- app_assoc.
Qed.

Lemma test_outcome self w (debug verbose ignore_error : bool)
      data test_settings test_paths failing_tests w1 :
  let w0 := world_emit w (Log INFO "Testing Seal5 LLVM") in
  Seal5Flow.read_data (self, w0) = (Ok data, (self, w0)) ->
  dict_get data "test" = Some test_settings ->
  subscript test_settings "paths" = Ok test_paths ->
  test_llvm (path_join (path_join (Seal5Flow.directory self) "llvm") "test")
            (path_join (Seal5Flow.build_dir self)
                       (if debug then "debug" else "release"))
            test_paths verbose w0
  = (Ok failing_tests, w1) ->
  failing_tests <> [] ->
  Seal5Flow.test debug verbose ignore_error (self, w)
  = if ignore_error
    then (Ok tt,
          (self, world_emit (world_emit w1 (failure_record failing_tests))
                            (Log INFO "Completed test of Seal5 LLVM")))
    else (Raise (RuntimeError "Tests failed!"),
          (self, world_emit w1 (failure_record failing_tests))).
Proof.
  intros w0 Hread Htest Hpaths Hrun Hne. unfold Seal5Flow.test.
  rewrite (bind_step _ _ _ self (self, w)) by reflexivity.
  rewrite (bind_step _ _ _ tt (self, w0)) by reflexivity.
  erewrite bind_step by exact Hread.
  erewrite bind_step
    by (unfold of_result, subscript; rewrite Htest; reflexivity).
  erewrite bind_step by (unfold of_result; rewrite Hpaths; reflexivity).
  erewrite bind_step by (apply in_world_run; exact Hrun).
  destruct failing_tests as [ | t failing_tests]; [contradiction | ].
  destruct ignore_error; reflexivity.
Qed.
End test.

(** C8, as stated, fails: with two failing tests in the runner output and
    errors not ignored, the stage raises an error whose message is the
    fixed text [Tests failed!]; the two identifiers are in the log record
    written just before, not in the failure.  Nor are the identifiers
    exactly those of the failing tests: the line of an expected failure
    gives one as well. *)
Lemma test_failure_names_no_test :
  findall_failing sample_lit_output
  = ["MC/RISCV/xexample-invalid.s"; "MC/RISCV/xexample (valid).s"] /\
  fst (Seal5Flow.test (E := as_written) false false false initialized)
  = Raise (RuntimeError "Tests failed!") /\
  occurs "MC/RISCV/xexample-invalid.s" "Tests failed!" = false /\
  occurs "MC/RISCV/xexample (valid).s" "Tests failed!" = false /\
  last (trace (snd (snd (Seal5Flow.test (E := as_written) false false false
                                        initialized)))) (Log INFO "")
  = Log ERROR "2 tests failed: MC/RISCV/xexample-invalid.s, MC/RISCV/xexample (valid).s"
  /\
  findall_failing "XFAIL: LLVM :: MC/RISCV/known-bad.s (1 of 1)"
  = ["MC/RISCV/known-bad.s"].
Proof. repeat split; vm_compute; reflexivity. Qed.

(** C8 (amended): when the identifiers that the pattern finds in the
    runner outputs are not empty, the stage writes an error record that
    gives their number and lists them, in the order in which they were
    found, and then, with errors not ignored, raises an error whose message
    is the fixed text [Tests failed!], while with errors ignored it goes on
    to its closing record and returns.  The identifiers are those found in
    the outputs of the runner, one output per configured path, in the order
    of the paths; within one output they are those of the lines that hold
    the marker, from top to bottom, and the marker counts wherever it
    stands in its line: the line [XFAIL: LLVM :: id (...] of an expected
    failure gives an identifier as a failing line does. *)
Theorem test_logs_failures_then_fails {E : External}
        (self : Seal5Flow.t) (w w1 : world) (debug verbose : bool)
        (data : dict) (test_settings test_paths : value)
        (failing_tests : list string) :
  let w0 := world_emit w (Log INFO "Testing Seal5 LLVM") in
  let base := path_join (path_join (Seal5Flow.directory self) "llvm") "test" in
  let build_dir := path_join (Seal5Flow.build_dir self)
                             (if debug then "debug" else "release") in
  let lit_exe := path_join (path_join build_dir "bin") "llvm-lit" in
  Seal5Flow.read_data (self, w0) = (Ok data, (self, w0)) ->
  dict_get data "test" = Some test_settings ->
  subscript test_settings "paths" = Ok test_paths ->
  test_llvm base build_dir test_paths verbose w0 = (Ok failing_tests, w1) ->
  failing_tests <> [] ->
  Seal5Flow.test debug verbose false (self, w)
  = (Raise (RuntimeError "Tests failed!"),
     (self, world_emit w1 (failure_record failing_tests)))
  /\
  Seal5Flow.test debug verbose true (self, w)
  = (Ok tt,
     (self, world_emit (world_emit w1 (failure_record failing_tests))
                       (Log INFO "Completed test of Seal5 LLVM")))
  /\
  (forall ps,
      test_paths = VList (map VStr ps) ->
      exists outs,
        Forall2 (fun p out =>
                   exists f f',
                     utils_exec_getout lit_exe (path_join base p) f
                     = (Ok out, f')) ps outs
        /\ failing_tests = flat_map findall_failing outs
        /\ trace w1
           = trace w0 ++ map (fun p => Lit lit_exe (path_join base p)) ps)
  /\
  (forall lines,
      forallb line_ok lines = true ->
      findall_failing (lit_text lines) = marked_ids lines)
  /\
  (forall id tail r,
      line_ok (Failing id tail) = true ->
      findall_failing ("X" ++ line_text (Failing id tail) ++ String newline r)
      = id :: findall_failing r).
Proof.
  intros w0 base build_dir lit_exe Hread Htest Hpaths Hrun Hne.
  split; [ | split; [ | split; [ | split]]].
  - apply (test_outcome self w debug verbose false data test_settings
                        test_paths failing_tests w1 Hread Htest Hpaths Hrun Hne).
  - apply (test_outcome self w debug verbose true data test_settings
                        test_paths failing_tests w1 Hread Htest Hpaths Hrun Hne).
  - intros ps ->. unfold test_llvm in Hrun. cbn [py_iter] in Hrun.
    destruct (test_llvm_loop_scrapes _ _ _ _ _ _ _ Hrun)
      as (outs & Hall & Hr & Htrace).
    exists outs. auto.
  - apply findall_lit_text.
  - intros id tail r Hok. unfold findall_failing.
    change ("X" ++ line_text (Failing id tail) ++ String newline r)%string
      with (line_text (Prefixed "X" id tail) ++ String newline r)%string.
    apply prefixed_line_found. unfold line_ok in *. now rewrite Hok.
Qed.

Lemma test_logs_failures_then_fails_witness :
  sample_failing <> [] /\
  Seal5Flow.test (E := as_written) false false false initialized
  = (Raise (RuntimeError "Tests failed!"),
     (fst initialized,
      world_emit tested_world (failure_record sample_failing)))
  /\
  Seal5Flow.test (E := as_written) false false true initialized
  = (Ok tt,
     (fst initialized,
      world_emit (world_emit tested_world (failure_record sample_failing))
                 (Log INFO "Completed test of Seal5 LLVM")))
  /\
  findall_failing (lit_text sample_lines_xfail)
  = ["MC/RISCV/known-bad.s"; "MC/RISCV/xexample-invalid.s"].
Proof.
  assert (sample_failing <> []) as Hne by discriminate.
  split; [exact Hne | ].
  destruct (test_logs_failures_then_fails
              (E := as_written) (fst initialized) (snd initialized)
              tested_world false false DEFAULT_SETTINGS
              (VDict [("paths", VList [VStr "MC/RISCV"; VStr "CodeGen/RISCV"])])
              (VList [VStr "MC/RISCV"; VStr "CodeGen/RISCV"])
              sample_failing eq_refl eq_refl eq_refl eq_refl Hne)
    as (Hfail & Hok & _ & Hlines & _).
  split; [exact Hfail | ]. split; [exact Hok | ].
  apply (Hlines sample_lines_xfail). reflexivity.
Defined.

(** ** Writing the settings and reading them back *)

Section yaml_files.
Context {E : External}.

(** Whatever [to_yaml_file] has written, [from_yaml_file] hands to the
    loader unchanged: the file layer loses nothing, so the round trip is as
    good as that of the YAML library. *)
Lemma yaml_file_round_trip data p w w1 :
  YAMLSettings.to_yaml_file data p w = (Ok tt, w1) ->
  yaml_safe_load (yaml_dump data) = Ok data ->
  YAMLSettings.from_yaml_file p w1 = (Ok (OwnData data), w1).
Proof.
  intros Hwrite Hlib. unfold YAMLSettings.to_yaml_file in Hwrite.
  apply write_text_ok in Hwrite as (Hread & _).
  unfold YAMLSettings.from_yaml_file.
  erewrite bind_step by (unfold read_text; rewrite Hread; reflexivity).
  erewrite bind_step
    by (unfold of_result, YAMLSettings.to_yaml; rewrite Hlib; reflexivity).
  reflexivity.
Qed.
End yaml_files.

(** * More about the settings store *)

(** ** A merge raises exactly when the trees disagree *)

(** X1: merging without overwrite raises exactly when the two trees have a
    key path in common at which they are not both mappings and hold
    differing values. *)
Theorem merge_raises_iff_conflict (A B : dict) :
  wf_dict B = true ->
  (snd (YAMLSettings.merge A B false) <> None <->
   exists p, conflict_at A B p).
Proof.
  intros Hwf. pose proof (merge_dicts_outcome B Hwf A []) as Ho.
  unfold merge_outcome in Ho. unfold YAMLSettings.merge.
  destruct (conflicts A B []) as [ | q rest] eqn:Eq.
  - destruct Ho as [r ->]. simpl. split; [congruence | ].
    intros [p Hp]. pose proof (conflicts_complete p A B [] Hp) as Hin.
    rewrite Eq in Hin. destruct Hin.
  - rewrite Ho. split; [ | discriminate]. intros _.
    destruct (conflicts_sound B Hwf A [] q) as [p [_ Hp]].
    + rewrite Eq. now left.
    + now exists p.
Qed.

Lemma merge_raises_iff_conflict_witness :
  wf_dict nested_conflict_b = true /\
  (snd (YAMLSettings.merge nested_conflict_a nested_conflict_b false) <> None
   <-> exists p, conflict_at nested_conflict_a nested_conflict_b p).
Proof.
  split; [reflexivity | ].
  apply (merge_raises_iff_conflict nested_conflict_a nested_conflict_b).
  reflexivity.
Defined.

(** ** What a merge keeps of the base tree *)








(** ** The order of the keys after a merge *)

Lemma keys_dict_set a k v :
  keys (dict_set a k v) = if dict_mem a k then keys a else keys a ++ [k].
Proof.
  unfold dict_mem. induction a as [ | [k0 w] a IH]; simpl; auto.
  destruct (String.eqb k0 k) eqn:Ek; simpl; auto.
  rewrite IH. destruct (dict_get a k); reflexivity.
Qed.

Lemma dict_mem_set_other a k k' v :
  k <> k' -> dict_mem (dict_set a k v) k' = dict_mem a k'.
Proof. intros H. unfold dict_mem. now rewrite dict_get_set_other. Qed.

Lemma new_keys_ext a a' l :
  (forall k, In k l -> dict_mem a k = dict_mem a' k) ->
  filter (fun k => negb (dict_mem a k)) l
  = filter (fun k => negb (dict_mem a' k)) l.
Proof.
  induction l as [ | k l IH]; intros H; simpl; auto.
  rewrite (H k) by now left. rewrite IH; auto.
  intros k' Hk'. apply H. now right.
Qed.

Lemma merge_items_keys rec b :
  unique_keys (keys b) = true ->
  forall a path r,
    merge_items rec b a path = (r, None) ->
    keys r = keys a ++ filter (fun k => negb (dict_mem a k)) (keys b).
Proof.
  induction b as [ | [k vb] rest IH]; intros Hu a path r Hm.
  - simpl in *. injection Hm as <-. now rewrite app_nil_r.
  - change (unique_keys (k :: keys rest) = true) in Hu.
    apply unique_keys_cons in Hu as [Hnin Hu]. specialize (IH Hu).
    assert (forall x, dict_get a k <> None ->
              filter (fun k0 => negb (dict_mem (dict_set a k x) k0)) (keys rest)
              = filter (fun k0 => negb (dict_mem a k0)) (keys rest)) as Hsame.
    { intros x _. apply new_keys_ext. intros k' Hk'.
      apply dict_mem_set_other. intros ->. contradiction. }
    simpl in Hm. simpl keys. simpl filter. unfold dict_mem at 1.
    destruct (dict_get a k) as [va | ] eqn:Ea; simpl negb; cbv iota.
    + destruct (both_dict va vb).
      * destruct (rec vb (as_dict va) (path ++ [k])) as [da' [e | ]];
          [discriminate | ].
        rewrite (IH _ _ _ Hm), keys_dict_set. unfold dict_mem at 1.
        rewrite Ea. f_equal. apply Hsame. congruence.
      * destruct (py_ne va vb); [discriminate | ]. apply (IH _ _ _ Hm).
    + rewrite (IH _ _ _ Hm), keys_dict_set. unfold dict_mem at 1.
      rewrite Ea, <- app_assoc. simpl. do 2 f_equal.
      apply new_keys_ext. intros k' Hk'.
      apply dict_mem_set_other. intros ->. contradiction.
Qed.

(** X3: after a successful merge without overwrite the top-level keys are
    those of the base tree, in their order, followed by the keys that only
    the incoming tree has, in the order of the incoming tree. *)
Theorem merge_appends_new_keys (A B R : dict) :
  unique_keys (keys B) = true ->
  YAMLSettings.merge A B false = (R, None) ->
  keys R = keys A ++ new_keys A B.
Proof.
  intros Hu Hm. unfold YAMLSettings.merge, merge_dicts in Hm.
  apply (merge_items_keys merge_value B Hu A [] R Hm).
Qed.

Lemma merge_appends_new_keys_witness :
  unique_keys (keys equal_leaf_b) = true /\
  YAMLSettings.merge equal_leaf_a equal_leaf_b false = (equal_leaf_r, None) /\
  keys equal_leaf_r = keys equal_leaf_a ++ new_keys equal_leaf_a equal_leaf_b.
Proof.
  split; [reflexivity | ]. split; [reflexivity | ].
  apply (merge_appends_new_keys equal_leaf_a equal_leaf_b equal_leaf_r);
    reflexivity.
Defined.

(** ** [get_cmake_args] and [build_llvm] *)

Lemma str_items_supported l :
  forallb is_str l = true -> exists ss, str_items l = Ok ss.
Proof.
  induction l as [ | v l IH]; intros H; simpl in *.
  - now exists [].
  - apply andb_true_iff in H as [Hv Hl].
    destruct v; try discriminate.
    destruct (IH Hl) as [ss ->]. eauto.
Qed.

Lemma str_items_unsupported l :
  forallb is_str l = false -> exists e, str_items l = Raise e.
Proof.
  induction l as [ | v l IH]; intros H; simpl in *; [discriminate | ].
  destruct v; simpl in H; eauto.
  destruct (str_items l) as [ss | e] eqn:El; eauto.
  destruct (IH H) as [e He]. discriminate.
Qed.

Lemma cmake_value_supported v :
  if cmake_supported v then exists s, cmake_value v = Ok s
  else exists e, cmake_value v = Raise e.
Proof.
  destruct v as [ | b | z | s | l | d | f]; simpl; eauto.
  unfold str_join. destruct (forallb is_str l) eqn:El.
  - destruct (str_items_supported l El) as [ss ->]. eauto.
  - destruct (str_items_unsupported l El) as [e ->]. eauto.
Qed.

(** X4: [get_cmake_args] returns exactly when every option value is a
    boolean, an integer, a string or a list of strings, and raises
    otherwise; what it returns has one definition per option, in the order
    of the options, each made of [-D], the option name, [=] and the text of
    the value. *)
Theorem get_cmake_args_one_flag_per_option (cfg : dict) :
  if forallb (fun kv => cmake_supported (snd kv)) cfg
  then exists flags, get_cmake_args cfg = Ok flags /\ Forall2 flag_of cfg flags
  else exists e, get_cmake_args cfg = Raise e.
Proof.
  induction cfg as [ | [k v] cfg IH]; simpl.
  - exists []. split; [reflexivity | constructor].
  - pose proof (cmake_value_supported v) as Hv.
    destruct (cmake_supported v); simpl.
    + destruct Hv as [s Hs]. rewrite Hs.
      destruct (forallb (fun kv => cmake_supported (snd kv)) cfg).
      * destruct IH as [flags [-> Hall]].
        eexists. split; [reflexivity | ].
        constructor; [ | exact Hall]. exists s. now split.
      * destruct IH as [e ->]. eauto.
    + destruct Hv as [e ->]. eauto.
Qed.


(** ** Test runs without a failure *)

Lemma quiet_findall s : quiet s = true -> findall_from s 0 = [].
Proof.
  induction s as [ | c s IH]; intros Hq; [reflexivity | ].
  cbn [quiet] in Hq.
  destruct (strip_prefix fail_prefix (String c s)) eqn:Hs; [discriminate | ].
  unfold findall_from; fold findall_from. unfold match_here. rewrite Hs.
  now apply IH.
Qed.

Lemma test_llvm_loop_quiet {E : External} lit_exe base :
  quiet_runner E ->
  forall l acc w r w',
    test_llvm_loop lit_exe base l acc w = (Ok r, w') -> r = acc.
Proof.
  intros Hq. induction l as [ | v l IH]; intros acc w r w' Hrun.
  - now injection Hrun as <- _.
  - destruct v; try discriminate.
    cbn [test_llvm_loop] in Hrun.
    apply bind_ok_inv in Hrun as [out [w1 [Hout Hrest]]].
    unfold external in Hout.
    destruct (utils_exec_getout _ _ _) as [ro f1] eqn:Htool.
    injection Hout as -> _.
    apply Hq in Htool. unfold findall_failing in Hrest.
    rewrite (quiet_findall _ Htool), app_nil_r in Hrest.
    apply (IH _ _ _ _ Hrest).
Qed.

(** X6: when no output of the test runner holds the failure marker, the
    test stage scrapes no identifier, writes no error record and returns
    after its closing record, whether errors are ignored or not. *)
Theorem test_passes_on_quiet_outputs {E : External}
        (self : Seal5Flow.t) (w w1 : world) (debug verbose ignore_error : bool)
        (data : dict) (test_settings test_paths : value)
        (failing_tests : list string) :
  quiet_runner E ->
  let w0 := world_emit w (Log INFO "Testing Seal5 LLVM") in
  Seal5Flow.read_data (self, w0) = (Ok data, (self, w0)) ->
  dict_get data "test" = Some test_settings ->
  subscript test_settings "paths" = Ok test_paths ->
  test_llvm (path_join (path_join (Seal5Flow.directory self) "llvm") "test")
            (path_join (Seal5Flow.build_dir self)
                       (if debug then "debug" else "release"))
            test_paths verbose w0
  = (Ok failing_tests, w1) ->
  failing_tests = [] /\
  Seal5Flow.test debug verbose ignore_error (self, w)
  = (Ok tt, (self, world_emit w1 (Log INFO "Completed test of Seal5 LLVM"))).
Proof.
  intros Hq w0 Hread Htest Hpaths Hrun.
  assert (failing_tests = []) as ->.
  { unfold test_llvm in Hrun. destruct (py_iter test_paths); [ | discriminate].
    apply (test_llvm_loop_quiet _ _ Hq _ _ _ _ _ Hrun). }
  split; [reflexivity | ]. unfold Seal5Flow.test.
  rewrite (bind_step _ _ _ self (self, w)) by reflexivity.
  rewrite (bind_step _ _ _ tt (self, w0)) by reflexivity.
  rewrite (bind_step _ _ _ data (self, w0)) by exact Hread.
  erewrite bind_step
    by (unfold of_result, subscript; rewrite Htest; reflexivity).
  erewrite bind_step by (unfold of_result; rewrite Hpaths; reflexivity).
  erewrite bind_step by (apply in_world_run; exact Hrun).
  reflexivity.
Qed.

Lemma test_passes_on_quiet_outputs_witness :
  quiet_runner with_passing_runner /\
  Seal5Flow.test (E := with_passing_runner) false false false initialized
  = (Ok tt,
     (fst initialized,
      world_emit
        (snd (test_llvm (E := with_passing_runner)
                (path_join (path_join root "llvm") "test")
                (path_join (Seal5Flow.build_dir fresh_flow) "release")
                (VList [VStr "MC/RISCV"; VStr "CodeGen/RISCV"]) false
                (world_emit (snd initialized) (Log INFO "Testing Seal5 LLVM"))))
        (Log INFO "Completed test of Seal5 LLVM"))).
Proof.
  assert (quiet_runner with_passing_runner) as Hq.
  { intros exe target f out f' H. injection H as <- _. reflexivity. }
  split; [exact Hq | ].
  apply (test_passes_on_quiet_outputs (E := with_passing_runner)
           (fst initialized) (snd initialized) _ false false false
           DEFAULT_SETTINGS
           (VDict [("paths", VList [VStr "MC/RISCV"; VStr "CodeGen/RISCV"])])
           (VList [VStr "MC/RISCV"; VStr "CodeGen/RISCV"]) [] Hq);
    reflexivity.
Defined.

(** ** [create_seal5_directories] *)

Lemma only_adds_dirs_refl w : only_adds_dirs w w.
Proof. repeat split; auto. Qed.

Lemma only_adds_dirs_trans w1 w2 w3 :
  only_adds_dirs w1 w2 -> only_adds_dirs w2 w3 -> only_adds_dirs w1 w3.
Proof.
  intros (Ha & Hb & Hc) (Ha' & Hb' & Hc'). repeat split; auto; congruence.
Qed.

Lemma same_files_only_adds {A} (m : M world A) :
  preserves same_files m -> preserves only_adds_dirs m.
Proof.
  intros H w r w' Hm. destruct (H w r w' Hm) as [Hfs Hd].
  unfold only_adds_dirs. rewrite Hfs. repeat split; auto.
Qed.

Lemma is_dir_add_dir f p q :
  is_dir (add_dir f p) q = is_dir f q || path_eqb q p.
Proof.
  unfold is_dir, add_dir. simpl. rewrite existsb_app. simpl.
  now rewrite orb_false_r.
Qed.

Lemma mkdir_only_adds p ok : preserves only_adds_dirs (mkdir p ok).
Proof.
  intros w r w'. unfold mkdir.
  destruct (is_dir (fs w) p);
    [destruct ok; intros [= _ <-]; apply only_adds_dirs_refl | ].
  destruct (is_file (fs w) p);
    [intros [= _ <-]; apply only_adds_dirs_refl | ].
  destruct (parent_is_dir (fs w) p); intros [= _ <-];
    [ | apply only_adds_dirs_refl].
  repeat split; auto. intros q Hq. simpl.
  rewrite is_dir_add_dir, Hq. reflexivity.
Qed.

Lemma mkdir_made p w w' :
  mkdir p true w = (Ok tt, w') -> is_dir (fs w') p = true.
Proof.
  unfold mkdir. destruct (is_dir (fs w) p) eqn:Hd.
  - now intros [= <-].
  - destruct (is_file (fs w) p); [discriminate | ].
    destruct (parent_is_dir (fs w) p); [ | discriminate].
    intros [= <-]. simpl. rewrite is_dir_add_dir, path_eqb_refl.
    apply orb_true_r.
Qed.

Lemma mkdir_there p w :
  is_dir (fs w) p = true -> mkdir p true w = (Ok tt, w).
Proof. unfold mkdir. now intros ->. Qed.

Lemma mkdir_parents_only_adds p : preserves only_adds_dirs (mkdir_parents p).
Proof.
  unfold mkdir_parents.
  apply (preserves_for_each _ only_adds_dirs_refl only_adds_dirs_trans).
  intros q. apply mkdir_only_adds.
Qed.

Lemma create_dirs_only_adds p l :
  preserves only_adds_dirs (create_seal5_directories p l).
Proof.
  unfold create_seal5_directories, log.
  keeps_with only_adds_dirs_refl only_adds_dirs_trans
             ltac:(first [ apply mkdir_parents_only_adds
                         | apply same_files_only_adds;
                           first [ apply emit_same_files
                                 | apply probe_same_files ] ]).
Qed.

(** All the prefixes are directories once the loop of [mkdir_parents] has
    gone through. *)
Lemma mkdir_prefixes_made q :
  forall before w w',
    for_each (prefixes before q) (fun x => mkdir x true) w = (Ok tt, w') ->
    forall x, In x (prefixes before q) -> is_dir (fs w') x = true.
Proof.
  induction q as [ | c q IH]; intros before w w' Hrun x Hx; [destruct Hx | ].
  cbn [prefixes for_each] in Hrun.
  apply bind_ok_inv in Hrun as ([] & w1 & Hmk & Hrest).
  destruct Hx as [<- | Hx].
  - apply mkdir_made in Hmk.
    assert (only_adds_dirs w1 w') as [Hkeep _].
    { revert Hrest.
      apply (fun P : preserves only_adds_dirs _ => P w1 (Ok tt) w').
      apply (preserves_for_each _ only_adds_dirs_refl only_adds_dirs_trans).
      intros y. apply mkdir_only_adds. }
    now apply Hkeep.
  - apply (IH _ _ _ Hrest x Hx).
Qed.

Lemma prefixes_last before q :
  q <> [] -> In (before ++ q) (prefixes before q).
Proof.
  revert before. induction q as [ | c q IH]; intros before Hq; [congruence | ].
  destruct q as [ | c' q'].
  - now left.
  - right. replace (before ++ c :: c' :: q')
      with ((before ++ [c]) ++ c' :: q') by now rewrite <- app_assoc.
    apply IH. discriminate.
Qed.

(** A second run finds every directory. *)
Lemma mkdir_prefixes_there l w :
  (forall x, In x l -> is_dir (fs w) x = true) ->
  for_each l (fun x => mkdir x true) w = (Ok tt, w).
Proof.
  induction l as [ | x l IH]; intros H; [reflexivity | ].
  cbn [for_each].
  rewrite (bind_step _ _ _ tt w) by (apply mkdir_there, H; now left).
  apply IH. intros y Hy. apply H. now right.
Qed.

Lemma create_loop_made p :
  forall l w w',
    for_each l (fun d => mkdir_parents (path_join p d)) w = (Ok tt, w') ->
    forall d x, In d l -> In x (prefixes [] (path_join p d)) ->
                is_dir (fs w') x = true.
Proof.
  induction l as [ | d0 l IH]; intros w w' Hrun d x Hd Hx; [destruct Hd | ].
  cbn [for_each] in Hrun.
  apply bind_ok_inv in Hrun as ([] & w1 & Hmk & Hrest).
  destruct Hd as [<- | Hd].
  - assert (only_adds_dirs w1 w') as [Hkeep _].
    { revert Hrest.
      apply (fun P : preserves only_adds_dirs _ => P w1 (Ok tt) w').
      apply (preserves_for_each _ only_adds_dirs_refl only_adds_dirs_trans).
      intros y. apply mkdir_parents_only_adds. }
    apply Hkeep. apply (mkdir_prefixes_made _ _ _ _ Hmk x Hx).
  - apply (IH _ _ Hrest d x Hd Hx).
Qed.

Lemma create_loop_there p l w :
  (forall d x, In d l -> In x (prefixes [] (path_join p d)) ->
               is_dir (fs w) x = true) ->
  for_each l (fun d => mkdir_parents (path_join p d)) w = (Ok tt, w).
Proof.
  induction l as [ | d l IH]; intros H; [reflexivity | ].
  cbn [for_each].
  rewrite (bind_step _ _ _ tt w).
  - apply IH. intros d' x Hd' Hx. apply (H d' x); auto. now right.
  - apply mkdir_prefixes_there. intros x Hx. apply (H d x); auto. now left.
Qed.

Lemma create_dirs_ok p l w w' :
  create_seal5_directories p l w = (Ok tt, w') ->
  is_dir (fs w) p = true /\
  for_each l (fun d => mkdir_parents (path_join p d))
           (world_emit w (Log DEBUG "Creating Seal5 directories"))
  = (Ok tt, w').
Proof.
  unfold create_seal5_directories. intros H.
  rewrite (bind_step _ _ _ tt (world_emit w (Log DEBUG "Creating Seal5 directories")))
    in H by reflexivity.
  rewrite (bind_step _ _ _ (is_dir (fs w) p)
                     (world_emit w (Log DEBUG "Creating Seal5 directories")))
    in H by reflexivity.
  destruct (is_dir (fs w) p); [ | discriminate].
  split; [reflexivity | ].
  now rewrite (bind_step _ _ _ tt
                 (world_emit w (Log DEBUG "Creating Seal5 directories")))
    in H by reflexivity.
Qed.

(** X7: however [create_seal5_directories] ends, every directory that
    existed still exists and no file has changed.  When the base path is
    not a directory it raises the [RuntimeError] after its debug record and
    makes nothing; when it returns, the base path was a directory and every
    requested directory exists under it. *)
Theorem create_seal5_directories_only_adds
        (p : path) (directories : list string) (w w' : world)
        (r : result unit) :
  create_seal5_directories p directories w = (r, w') ->
  only_adds_dirs w w' /\
  (is_dir (fs w) p = false ->
   r = Raise (RuntimeError ("Not a diretory: " ++ str_of_path p))
   /\ w' = world_emit w (Log DEBUG "Creating Seal5 directories")) /\
  (r = Ok tt ->
   is_dir (fs w) p = true /\
   forall d, In d directories -> is_dir (fs w') (path_join p d) = true).
Proof.
  intros Hrun. split; [apply (create_dirs_only_adds _ _ _ _ _ Hrun) | ]. split.
  - intros Hp. unfold create_seal5_directories in Hrun.
    rewrite (bind_step _ _ _ tt
               (world_emit w (Log DEBUG "Creating Seal5 directories")))
      in Hrun by reflexivity.
    rewrite (bind_step _ _ _ false
               (world_emit w (Log DEBUG "Creating Seal5 directories")))
      in Hrun by (unfold probe; simpl; now rewrite Hp).
    injection Hrun as <- <-. now split.
  - intros ->. apply create_dirs_ok in Hrun as [Hp Hloop].
    split; [exact Hp | ]. intros d Hd.
    apply (create_loop_made _ _ _ _ Hloop d _ Hd).
    apply (prefixes_last [] (path_join p d)).
    unfold path_join. now destruct p.
Qed.

Lemma create_seal5_directories_only_adds_witness :
  let run := create_seal5_directories root ["deps"; "logs"]
                                      fresh_world in
  only_adds_dirs fresh_world (snd run) /\
  (is_dir (fs fresh_world) root = false ->
   fst run = Raise (RuntimeError ("Not a diretory: " ++ str_of_path root))
   /\ snd run
      = world_emit fresh_world (Log DEBUG "Creating Seal5 directories")) /\
  (fst run = Ok tt ->
   is_dir (fs fresh_world) root = true /\
   forall d, In d ["deps"; "logs"] ->
             is_dir (fs (snd run)) (path_join root d) = true).
Proof.
  intros run.
  apply (create_seal5_directories_only_adds root ["deps"; "logs"] fresh_world (snd run) (fst run)).
  reflexivity.
Defined.

(** X8: once [create_seal5_directories] has returned, a second call with
    the same arguments returns as well and only writes its debug record:
    it makes no directory. *)
Theorem create_seal5_directories_again
        (p : path) (directories : list string) (w w' : world) :
  create_seal5_directories p directories w = (Ok tt, w') ->
  create_seal5_directories p directories w'
  = (Ok tt, world_emit w' (Log DEBUG "Creating Seal5 directories")).
Proof.
  intros Hrun.
  pose proof (create_dirs_only_adds _ _ _ _ _ Hrun) as [Hkeep _].
  apply create_dirs_ok in Hrun as [Hp Hloop].
  unfold create_seal5_directories.
  rewrite (bind_step _ _ _ tt
             (world_emit w' (Log DEBUG "Creating Seal5 directories")))
    by reflexivity.
  rewrite (bind_step _ _ _ true
             (world_emit w' (Log DEBUG "Creating Seal5 directories")))
    by (unfold probe; simpl; now rewrite (Hkeep _ Hp)).
  rewrite (bind_step _ _ _ tt
             (world_emit w' (Log DEBUG "Creating Seal5 directories")))
    by reflexivity.
  apply create_loop_there. intros d x Hd Hx. simpl.
  apply (create_loop_made _ _ _ _ Hloop d x Hd Hx).
Qed.

Lemma create_seal5_directories_again_witness :
  let w' := snd (create_seal5_directories root
                                          ["deps"; "logs"] fresh_world) in
  create_seal5_directories root ["deps"; "logs"] fresh_world
  = (Ok tt, w') /\
  create_seal5_directories root ["deps"; "logs"] w'
  = (Ok tt, world_emit w' (Log DEBUG "Creating Seal5 directories")).
Proof.
  intros w'. split; [reflexivity | ].
  apply (create_seal5_directories_again root ["deps"; "logs"] fresh_world w').
  reflexivity.
Defined.

(** ** What [initialize] leaves alone *)

Lemma path_eqb_eq p q : path_eqb p q = true -> p = q.
Proof.
  unfold path_eqb. revert q.
  induction p as [ | c p IH]; intros [ | d q]; simpl; try discriminate; auto.
  intros H. apply andb_true_iff in H as [Hc Hp].
  apply String.eqb_eq in Hc. f_equal; auto.
Qed.

Lemma lookup_set_file_other l p text q :
  q <> p -> lookup_file (set_file l p text) q = lookup_file l q.
Proof.
  intros Hne. induction l as [ | [x old] l IH]; simpl.
  - destruct (path_eqb p q) eqn:E; auto.
    apply path_eqb_eq in E. congruence.
  - destruct (path_eqb x p) eqn:Ex; simpl.
    + apply path_eqb_eq in Ex. subst x.
      destruct (path_eqb p q) eqn:E; auto.
      apply path_eqb_eq in E. congruence.
    + now rewrite IH.
Qed.

Section workspace_kept.
Variable keep : path.

Lemma workspace_kept_refl w : workspace_kept keep w w.
Proof.
  repeat split; auto. exists []. now rewrite app_nil_r.
Qed.

Lemma workspace_kept_trans w1 w2 w3 :
  workspace_kept keep w1 w2 -> workspace_kept keep w2 w3 ->
  workspace_kept keep w1 w3.
Proof.
  intros (Ha & Hb & Hc & l & Hl & Hloc) (Ha' & Hb' & Hc' & l' & Hl' & Hloc').
  repeat split; auto.
  - intros q Hq. rewrite Hb' by exact Hq. now apply Hb.
  - congruence.
  - exists (l ++ l'). rewrite Hl', Hl, app_assoc. split; auto.
    rewrite forallb_app, Hloc, Hloc'. reflexivity.
Qed.

Lemma emit_workspace_kept e :
  is_local e = true -> preserves (workspace_kept keep) (emit e).
Proof.
  intros He w r w' [= _ <-]. repeat split; auto.
  exists [e]. simpl. now rewrite He.
Qed.

Lemma same_world_workspace_kept {A} (m : M world A) :
  (forall w, snd (m w) = w) -> preserves (workspace_kept keep) m.
Proof.
  intros H w r w' Hm. specialize (H w). rewrite Hm in H. simpl in H.
  subst w'. apply workspace_kept_refl.
Qed.

Lemma probe_workspace_kept f p : preserves (workspace_kept keep) (probe f p).
Proof. now apply same_world_workspace_kept. Qed.

Lemma mkdir_workspace_kept p ok : preserves (workspace_kept keep) (mkdir p ok).
Proof.
  intros w r w'. unfold mkdir.
  destruct (is_dir (fs w) p);
    [destruct ok; intros [= _ <-]; apply workspace_kept_refl | ].
  destruct (is_file (fs w) p);
    [intros [= _ <-]; apply workspace_kept_refl | ].
  destruct (parent_is_dir (fs w) p); intros [= _ <-];
    [ | apply workspace_kept_refl].
  repeat split; auto.
  - intros q Hq. simpl. rewrite is_dir_add_dir, Hq. reflexivity.
  - exists [Mkdir p]. now split.
Qed.

Lemma write_keep_workspace_kept text :
  preserves (workspace_kept keep) (write_text keep text).
Proof.
  intros w r w'. unfold write_text.
  destruct (is_dir (fs w) keep);
    [intros [= _ <-]; apply workspace_kept_refl | ].
  destruct (parent_is_dir (fs w) keep); intros [= _ <-];
    [ | apply workspace_kept_refl].
  repeat split; auto.
  - intros q Hq. unfold read_file. simpl. now apply lookup_set_file_other.
  - exists [WriteFile keep text]. now split.
Qed.

Lemma create_dirs_workspace_kept p l :
  preserves (workspace_kept keep) (create_seal5_directories p l).
Proof.
  unfold create_seal5_directories, mkdir_parents, log.
  keeps_with workspace_kept_refl workspace_kept_trans
             ltac:(first [ apply mkdir_workspace_kept
                         | apply probe_workspace_kept
                         | apply emit_workspace_kept; reflexivity ]).
Qed.

Context {E : External}.

Lemma confirm_workspace_kept prompt interactive :
  preserves (workspace_kept keep) (Seal5Flow.confirm prompt interactive).
Proof.
  unfold Seal5Flow.confirm.
  keeps_with workspace_kept_refl workspace_kept_trans fail.
Qed.

Lemma abort_workspace_kept msg :
  preserves (workspace_kept keep) (Seal5Flow.abort msg).
Proof.
  unfold Seal5Flow.abort.
  keeps_with workspace_kept_refl workspace_kept_trans
             ltac:(apply emit_workspace_kept; reflexivity).
Qed.
End workspace_kept.

Ltac keeps_workspace keep :=
  keeps_with (on_world_refl _ (workspace_kept_refl keep))
             (on_world_trans _ (workspace_kept_trans keep))
             ltac:(first
                     [ apply in_world_on_world;
                       keeps_with (workspace_kept_refl keep)
                                  (workspace_kept_trans keep)
                                  ltac:(first
                                          [ apply confirm_workspace_kept
                                          | apply abort_workspace_kept
                                          | apply create_dirs_workspace_kept
                                          | apply mkdir_workspace_kept
                                          | apply probe_workspace_kept
                                          | apply write_keep_workspace_kept
                                          | apply emit_workspace_kept;
                                            reflexivity ])
                     | apply (get_self_on_world _ (workspace_kept_refl keep))
                     | apply (set_settings_on_world _
                                (workspace_kept_refl keep))
                     | apply (read_data_on_world _
                                (workspace_kept_refl keep)) ]).

(** The part of [initialize] that follows the check of the target
    directory. *)
Lemma initialize_rest_kept {E : External} self interactive force :
  preserves (on_world (workspace_kept (Seal5Flow.settings_file self)))
    (meta <- Seal5Flow.in_world (probe is_dir (Seal5Flow.meta_dir self)) ;;
     (if meta : bool
      then Seal5Flow.in_world
             (if negb force
              then (yes <- Seal5Flow.confirm
                             "Overwrite existing .seal5 diretcory?"
                             interactive ;;
                    if negb yes
                    then Seal5Flow.abort
                           ("Directory "
                            ++ str_of_path (Seal5Flow.meta_dir self)
                            ++ " already exists! Aborting...")%string
                    else ret tt)
              else ret tt)
      else ret tt) ;;
     Seal5Flow.in_world (mkdir (Seal5Flow.meta_dir self) true) ;;
     Seal5Flow.in_world
       (create_seal5_directories (Seal5Flow.meta_dir self) Seal5Flow.layout) ;;
     Seal5Flow.set_settings (Some DefaultData) ;;
     data <- Seal5Flow.read_data ;;
     Seal5Flow.in_world
       (YAMLSettings.to_yaml_file data (Seal5Flow.settings_file self)) ;;
     Seal5Flow.in_world (set_log_file (Seal5Flow.log_file_path self)) ;;
     data <- Seal5Flow.read_data ;;
     lv <- of_result (logging_levels data) ;;
     Seal5Flow.in_world (set_log_level (fst lv) (snd lv)) ;;
     Seal5Flow.in_world (log INFO "Completed initialization of Seal5"))%flow.
Proof.
  unfold YAMLSettings.to_yaml_file, set_log_file, set_log_level, log.
  keeps_workspace (Seal5Flow.settings_file self).
Qed.

(** X9: when the target directory exists, [initialize], however it ends,
    starts no external tool (it does not clone), removes no directory,
    leaves the default dictionary alone and changes no file other than the
    settings file of the workspace. *)
Theorem initialize_keeps_existing_contents {E : External}
        (self : Seal5Flow.t) (w : world) (interactive clone : bool)
        (clone_url clone_ref : option string) (force verbose : bool)
        (res : result unit) (o' : Seal5Flow.obj) :
  is_dir (fs w) (Seal5Flow.directory self) = true ->
  Seal5Flow.initialize interactive clone clone_url clone_ref force verbose
                       (self, w) = (res, o') ->
  workspace_kept (Seal5Flow.settings_file self) w (snd o').
Proof.
  intros Hroot Hrun. unfold Seal5Flow.initialize in Hrun.
  rewrite (bind_step _ _ _ self (self, w)) in Hrun by reflexivity.
  rewrite (bind_step _ _ _ tt
             (self, world_emit w (Log INFO "Initializing Seal5")))
    in Hrun by reflexivity.
  rewrite (bind_step _ _ _ true
             (self, world_emit w (Log INFO "Initializing Seal5")))
    in Hrun by (apply in_world_run; unfold probe; simpl; now rewrite Hroot).
  cbn [negb] in Hrun.
  rewrite (bind_step _ _ _ tt
             (self, world_emit w (Log INFO "Initializing Seal5")))
    in Hrun by reflexivity.
  apply (initialize_rest_kept self interactive force) in Hrun.
  unfold on_world in Hrun. simpl in Hrun.
  eapply workspace_kept_trans; [ | exact Hrun].
  apply (emit_workspace_kept _ (Log INFO "Initializing Seal5") eq_refl
                             w (Ok tt)).
  reflexivity.
Qed.

Lemma initialize_keeps_existing_contents_witness :
  is_dir (fs fresh_world) (Seal5Flow.directory fresh_flow) = true /\
  workspace_kept (Seal5Flow.settings_file fresh_flow) fresh_world
                 (snd initialized).
Proof.
  split; [reflexivity | ].
  apply (initialize_keeps_existing_contents (E := as_written)
           fresh_flow fresh_world false false None None false false
           (Ok tt) initialized);
    reflexivity.
Defined.

(** The steps of [initialize] that follow the making of the directories. *)
Lemma initialize_tail_kept {E : External} self :
  preserves (on_world (workspace_kept (Seal5Flow.settings_file self)))
    (Seal5Flow.set_settings (Some DefaultData) ;;
     data <- Seal5Flow.read_data ;;
     Seal5Flow.in_world
       (YAMLSettings.to_yaml_file data (Seal5Flow.settings_file self)) ;;
     Seal5Flow.in_world (set_log_file (Seal5Flow.log_file_path self)) ;;
     data <- Seal5Flow.read_data ;;
     lv <- of_result (logging_levels data) ;;
     Seal5Flow.in_world (set_log_level (fst lv) (snd lv)) ;;
     Seal5Flow.in_world (log INFO "Completed initialization of Seal5"))%flow.
Proof.
  unfold YAMLSettings.to_yaml_file, set_log_file, set_log_level, log.
  keeps_workspace (Seal5Flow.settings_file self).
Qed.

(** X10: whenever [initialize] returns, the workspace is laid out: the
    [.seal5] directory of the target and the eight directories
    [deps], [models], [logs], [build], [install], [temp], [inputs] and
    [gen] under it exist, and so does the settings file. *)
Theorem initialize_lays_out_workspace {E : External}
        (self : Seal5Flow.t) (w : world) (interactive clone : bool)
        (clone_url clone_ref : option string) (force verbose : bool)
        (o' : Seal5Flow.obj) :
  Seal5Flow.initialize interactive clone clone_url clone_ref force verbose
                       (self, w) = (Ok tt, o') ->
  let now_dir := is_dir (fs (snd o')) in
  now_dir (Seal5Flow.meta_dir self) = true /\
  now_dir (Seal5Flow.deps_dir self) = true /\
  now_dir (Seal5Flow.models_dir self) = true /\
  now_dir (Seal5Flow.logs_dir self) = true /\
  now_dir (Seal5Flow.build_dir self) = true /\
  now_dir (Seal5Flow.install_dir self) = true /\
  now_dir (Seal5Flow.temp_dir self) = true /\
  now_dir (Seal5Flow.inputs_dir self) = true /\
  now_dir (Seal5Flow.gen_dir self) = true /\
  is_file (fs (snd o')) (Seal5Flow.settings_file self) = true.
Proof.
  intros H now_dir.
  pose proof (initialize_persists _ _ _ _ _ _ _ _ _ H) as (_ & _ & Hfile).
  unfold Seal5Flow.initialize in H.
  apply bind_ok_inv in H as (self0 & o0 & H0 & H). injection H0 as <- <-.
  apply bind_ok_inv in H as (u1 & o1 & _ & H).
  apply bind_ok_inv in H as (root & o2 & _ & H).
  apply bind_ok_inv in H as (u3 & o3 & _ & H).
  apply bind_ok_inv in H as (meta & o4 & _ & H).
  apply bind_ok_inv in H as (u5 & o5 & _ & H).
  apply bind_ok_inv in H as ([] & o6 & H6 & H).
  apply bind_ok_inv in H as ([] & o7 & H7 & H).
  apply in_world_ok in H6 as [_ H6]. apply mkdir_made in H6.
  apply in_world_ok in H7 as [_ H7].
  pose proof (create_dirs_only_adds _ _ _ _ _ H7) as [Hgrow _].
  apply create_dirs_ok in H7 as [_ Hloop].
  apply (initialize_tail_kept self) in H.
  destruct H as (Hkeep & _).
  assert (forall d, In d Seal5Flow.layout ->
            now_dir (path_join (Seal5Flow.meta_dir self) d) = true) as Hall.
  { intros d Hd. apply Hkeep.
    apply (create_loop_made _ _ _ _ Hloop d _ Hd).
    apply (prefixes_last [] (path_join (Seal5Flow.meta_dir self) d)).
    unfold path_join. now destruct (Seal5Flow.meta_dir self). }
  unfold Seal5Flow.deps_dir, Seal5Flow.models_dir, Seal5Flow.logs_dir,
    Seal5Flow.build_dir, Seal5Flow.install_dir, Seal5Flow.temp_dir,
    Seal5Flow.inputs_dir, Seal5Flow.gen_dir.
  repeat split;
    try (apply Hall; unfold Seal5Flow.layout; simpl; tauto).
  - apply Hkeep, Hgrow, H6.
  - unfold is_file. now rewrite Hfile.
Qed.

Lemma initialize_lays_out_workspace_witness :
  Seal5Flow.initialize (E := as_written) false false None None false false
                       (fresh_flow, fresh_world) = (Ok tt, initialized) /\
  (let now_dir := is_dir (fs (snd initialized)) in
   now_dir (Seal5Flow.meta_dir fresh_flow) = true /\
   now_dir (Seal5Flow.deps_dir fresh_flow) = true /\
   now_dir (Seal5Flow.models_dir fresh_flow) = true /\
   now_dir (Seal5Flow.logs_dir fresh_flow) = true /\
   now_dir (Seal5Flow.build_dir fresh_flow) = true /\
   now_dir (Seal5Flow.install_dir fresh_flow) = true /\
   now_dir (Seal5Flow.temp_dir fresh_flow) = true /\
   now_dir (Seal5Flow.inputs_dir fresh_flow) = true /\
   now_dir (Seal5Flow.gen_dir fresh_flow) = true /\
   is_file (fs (snd initialized)) (Seal5Flow.settings_file fresh_flow) = true).
Proof.
  split; [reflexivity | ].
  apply (initialize_lays_out_workspace (E := as_written)
           fresh_flow fresh_world false false None None false false
           initialized).
  reflexivity.
Defined.

(** ** [initialize] without a target directory *)

(** X11: when the target directory does not exist, cloning was not asked
    for and the prompt is refused (or its name is unbound, as in the module
    as it stands), [initialize] ends with an exception that gives a nonzero
    exit status, after at most the error record that the target directory
    does not exist; it clones nothing and makes no directory. *)
Theorem initialize_missing_target_aborts {E : External}
        (self : Seal5Flow.t) (w : world)
        (clone_url clone_ref : option string) (force verbose : bool) :
  (forall f prompt, ask_user = Some f -> f prompt false false = false) ->
  is_dir (fs w) (Seal5Flow.directory self) = false ->
  exists e log,
    Seal5Flow.initialize false false clone_url clone_ref force verbose
                         (self, w)
    = (Raise e,
       (self, {| fs := fs w; default_settings := default_settings w;
                 trace := trace w ++ Log INFO "Initializing Seal5" :: log |}))
    /\ exit_status (Raise e) <> 0%Z
    /\ (log = [] \/
        log = [RootLog ERROR "Target directory does not exist! Aborting..."]).
Proof.
  intros Hrefuse Hroot.
  set (w1 := world_emit w (Log INFO "Initializing Seal5")).
  destruct (refused_confirm_aborts
              "Clone LLVM repository?"
              "Target directory does not exist! Aborting..." w1
              (fun f => Hrefuse f _))
    as [e [lg [Hab [Hexit Hlog]]]].
  exists e, lg. split; [ | split; [exact Hexit | exact Hlog]].
  unfold Seal5Flow.initialize.
  rewrite (bind_step _ _ _ self (self, w)) by reflexivity.
  rewrite (bind_step _ _ _ tt (self, w1)) by reflexivity.
  rewrite (bind_step _ _ _ false (self, w1))
    by (unfold Seal5Flow.in_world, probe; simpl; now rewrite Hroot).
  cbn [negb].
  rewrite (bind_raise _ _ _ e
             (self, {| fs := fs w1; default_settings := default_settings w1;
                       trace := trace w1 ++ lg |})).
  - simpl. rewrite <- app_assoc. reflexivity.
  - apply in_world_run. now apply bind_raise.
Qed.

Lemma initialize_missing_target_aborts_witness :
  (forall f prompt,
      @ask_user as_written = Some f -> f prompt false false = false) /\
  is_dir (fs empty_world) (Seal5Flow.directory fresh_flow) = false /\
  exists e log,
    Seal5Flow.initialize (E := as_written) false false None None false false
                         (fresh_flow, empty_world)
    = (Raise e,
       (fresh_flow,
        {| fs := fs empty_world;
           default_settings := default_settings empty_world;
           trace := trace empty_world
                    ++ Log INFO "Initializing Seal5" :: log |}))
    /\ exit_status (Raise e) <> 0%Z
    /\ (log = [] \/
        log = [RootLog ERROR "Target directory does not exist! Aborting..."]).
Proof.
  assert (forall f prompt,
             @ask_user as_written = Some f -> f prompt false false = false)
    as Hrefuse by (intros f prompt H; discriminate H).
  split; [exact Hrefuse | ]. split; [reflexivity | ].
  apply (initialize_missing_target_aborts (E := as_written)
           fresh_flow empty_world None None false false Hrefuse).
  reflexivity.
Defined.

(** X12: when the target directory does not exist and cloning was asked
    for, [initialize] asks nothing and starts the clone into the target
    directory, without a checkout exactly when a reference was given; if
    the clone raises, the exception escapes and neither a checkout nor a
    directory of the workspace is made. *)
Theorem initialize_clone_failure_escapes {E : External}
        (self : Seal5Flow.t) (w : world) (interactive : bool)
        (clone_url clone_ref : option string) (force verbose : bool)
        (e : exn) (f1 : fs_state) :
  is_dir (fs w) (Seal5Flow.directory self) = false ->
  git_clone_from clone_url (Seal5Flow.directory self) (is_some clone_ref)
                 (fs w) = (Raise e, f1) ->
  Seal5Flow.initialize interactive true clone_url clone_ref force verbose
                       (self, w)
  = (Raise e,
     (self,
      {| fs := f1; default_settings := default_settings w;
         trace := trace w
                  ++ [Log INFO "Initializing Seal5";
                      Log DEBUG ("Cloning LLVM repository: "
                                 ++ str_of_option clone_url);
                      Clone clone_url (Seal5Flow.directory self)
                            (is_some clone_ref)] |})).
Proof.
  intros Hroot Hclone.
  set (w1 := world_emit w (Log INFO "Initializing Seal5")).
  unfold Seal5Flow.initialize.
  rewrite (bind_step _ _ _ self (self, w)) by reflexivity.
  rewrite (bind_step _ _ _ tt (self, w1)) by reflexivity.
  rewrite (bind_step _ _ _ false (self, w1))
    by (unfold Seal5Flow.in_world, probe; simpl; now rewrite Hroot).
  cbn [negb].
  erewrite bind_raise; [reflexivity | ].
  apply in_world_run.
  rewrite (bind_step _ _ _ tt w1) by reflexivity.
  unfold clone_llvm_repo.
  rewrite (bind_step _ _ _ tt
             (world_emit w1 (Log DEBUG ("Cloning LLVM repository: "
                                        ++ str_of_option clone_url))))
    by reflexivity.
  erewrite bind_raise; [ | apply external_run; exact Hclone].
  unfold with_fs, world_emit, w1. simpl. now rewrite <- !app_assoc.
Qed.

Lemma initialize_clone_failure_escapes_witness :
  is_dir (fs empty_world) (Seal5Flow.directory fresh_flow) = false /\
  Seal5Flow.initialize (E := with_failing_clone) false true
                       (Some "https://github.com/llvm/llvm-project.git")
                       (Some "llvmorg-18.1.0-rc3") false false
                       (fresh_flow, empty_world)
  = (Raise (Exception "GitCommandError: clone failed"),
     (fresh_flow,
      {| fs := fs empty_world;
         default_settings := default_settings empty_world;
         trace := trace empty_world
                  ++ [Log INFO "Initializing Seal5";
                      Log DEBUG ("Cloning LLVM repository: "
                                 ++ str_of_option
                                      (Some "https://github.com/llvm/llvm-project.git"));
                      Clone (Some "https://github.com/llvm/llvm-project.git")
                            (Seal5Flow.directory fresh_flow)
                            (is_some (Some "llvmorg-18.1.0-rc3"))] |})).
Proof.
  split; [reflexivity | ].
  apply (initialize_clone_failure_escapes (E := with_failing_clone)
           fresh_flow empty_world false
           (Some "https://github.com/llvm/llvm-project.git")
           (Some "llvmorg-18.1.0-rc3") false false);
    reflexivity.
Defined.

(** ** A first [initialize] goes through *)

Lemma parent_is_dir_join f p x :
  p <> [] -> parent_is_dir f (path_join p x) = is_dir f p.
Proof.
  intros Hp. unfold parent_is_dir, path_join. rewrite removelast_last.
  destruct p; [congruence | reflexivity].
Qed.

Lemma mkdir_goes_through p w :
  is_file (fs w) p = false -> parent_is_dir (fs w) p = true ->
  exists w',
    mkdir p true w = (Ok tt, w')
    /\ files (fs w') = files (fs w)
    /\ default_settings w' = default_settings w
    /\ forall q, is_dir (fs w') q = is_dir (fs w) q || path_eqb q p.
Proof.
  intros Hfile Hparent. unfold mkdir. rewrite Hfile, Hparent.
  destruct (is_dir (fs w) p) eqn:Hd.
  - exists w. repeat split; auto. intros q.
    destruct (path_eqb q p) eqn:Eq; [ | now rewrite orb_false_r].
    apply path_eqb_eq in Eq. subst q. now rewrite Hd.
  - eexists. split; [reflexivity | ]. repeat split; auto.
    intros q. simpl. apply is_dir_add_dir.
Qed.

Lemma prefixes_app before p q :
  prefixes before (p ++ q) = prefixes before p ++ prefixes (before ++ p) q.
Proof.
  revert before. induction p as [ | c p IH]; intros before; simpl.
  - now rewrite app_nil_r.
  - f_equal. rewrite IH. now rewrite <- app_assoc.
Qed.

Lemma for_each_app {S A} (l1 l2 : list A) (body : A -> M S unit) s s1 :
  for_each l1 body s = (Ok tt, s1) ->
  for_each (l1 ++ l2) body s = for_each l2 body s1.
Proof.
  revert s. induction l1 as [ | x l1 IH]; intros s H; simpl in *.
  - now injection H as <-.
  - apply bind_ok_inv in H as ([] & s2 & Hx & Hrest).
    rewrite (bind_step _ _ _ tt s2) by exact Hx. now apply IH.
Qed.

Lemma create_loop_goes_through p :
  p <> [] ->
  forall l w,
    (forall q, In q (prefixes [] p) -> is_dir (fs w) q = true) ->
    (forall x, In x l -> is_file (fs w) (path_join p x) = false) ->
    exists w',
      for_each l (fun d => mkdir_parents (path_join p d)) w = (Ok tt, w')
      /\ files (fs w') = files (fs w)
      /\ default_settings w' = default_settings w
      /\ forall q, is_dir (fs w') q = true ->
                   is_dir (fs w) q = true \/ exists x, In x l /\ q = path_join p x.
Proof.
  intros Hp. induction l as [ | x l IH]; intros w Hdirs Hfiles.
  - exists w. repeat split; auto.
  - assert (is_dir (fs w) p = true) as Hpd
        by (apply Hdirs, (prefixes_last [] p Hp)).
    destruct (mkdir_goes_through (path_join p x) w) as (w1 & Hmk & Hf & Hd & Hq).
    { apply Hfiles. now left. }
    { now rewrite parent_is_dir_join. }
    destruct (IH w1) as (w' & Hrun & Hf' & Hd' & Hq').
    { intros q Hin. rewrite Hq, (Hdirs q Hin). reflexivity. }
    { intros y Hy. unfold is_file, read_file. rewrite Hf.
      apply Hfiles. now right. }
    exists w'. split; [ | split; [congruence | split; [congruence | ]]].
    + cbn [for_each]. rewrite (bind_step _ _ _ tt w1); [exact Hrun | ].
      unfold mkdir_parents, path_join. rewrite prefixes_app.
      rewrite (for_each_app _ _ _ w w)
        by (apply mkdir_prefixes_there; exact Hdirs).
      simpl. rewrite (bind_step _ _ _ tt w1) by exact Hmk. reflexivity.
    + intros q Hin. destruct (Hq' q Hin) as [H1 | [y [Hy ->]]].
      * rewrite Hq in H1. apply orb_true_iff in H1 as [H1 | H1]; [now left | ].
        apply path_eqb_eq in H1. right. exists x. split; [now left | exact H1].
      * right. exists y. split; [now right | reflexivity].
Qed.

(** The steps of [initialize] when nothing is in the way. *)
Lemma initialize_run_through {E : External}
      (self : Seal5Flow.t) (w : world) (interactive clone : bool)
      (clone_url clone_ref : option string) (force verbose : bool)
      (levels : value * value) :
  room_for_workspace self (fs w) ->
  (is_dir (fs w) (Seal5Flow.meta_dir self) = true -> force = true) ->
  logging_levels (default_settings w) = Ok levels ->
  exists o',
    Seal5Flow.initialize interactive clone clone_url clone_ref force verbose
                         (self, w) = (Ok tt, o').
Proof.
  intros (Hroot & Hanc & Hmetaf & Hlay & Hset) Hforce Hlv.
  set (w1 := world_emit w (Log INFO "Initializing Seal5")).
  assert (Seal5Flow.meta_dir self <> []) as Hne
      by (unfold Seal5Flow.meta_dir, path_join;
          now destruct (Seal5Flow.directory self)).
  (* the [.seal5] directory *)
  destruct (mkdir_goes_through (Seal5Flow.meta_dir self) w1)
    as (w2 & Hmk & Hf2 & Hd2 & Hq2).
  { exact Hmetaf. }
  { unfold parent_is_dir, Seal5Flow.meta_dir, path_join.
    rewrite removelast_last.
    destruct (Seal5Flow.directory self) eqn:Ed; [reflexivity | exact Hroot]. }
  set (w3 := world_emit w2 (Log DEBUG "Creating Seal5 directories")).
  (* the directories of the layout *)
  destruct (create_loop_goes_through (Seal5Flow.meta_dir self) Hne
                                     Seal5Flow.layout w3)
    as (w4 & Hloop & Hf4 & Hd4 & Hq4).
  { intros q Hin. simpl. rewrite Hq2.
    unfold Seal5Flow.meta_dir, path_join in Hin.
    rewrite prefixes_app in Hin. apply in_app_or in Hin as [Hin | Hin].
    - simpl. now rewrite (Hanc q Hin).
    - destruct Hin as [<- | []]. simpl.
      unfold Seal5Flow.meta_dir, path_join.
      rewrite path_eqb_refl. apply orb_true_r. }
  { intros x Hx. unfold is_file, read_file. simpl. rewrite Hf2.
    apply (Hlay x Hx). }
  assert (is_dir (fs w2) (Seal5Flow.meta_dir self) = true) as Hmeta2
      by (rewrite Hq2, path_eqb_refl; apply orb_true_r).
  (* the settings file *)
  assert (is_dir (fs w4) (Seal5Flow.settings_file self) = false) as Hset4.
  { destruct (is_dir (fs w4) (Seal5Flow.settings_file self)) eqn:Hd; auto.
    exfalso. destruct (Hq4 _ Hd) as [H | [x [Hx Heq]]].
    - simpl in H. rewrite Hq2 in H. simpl in H. rewrite Hset in H.
      simpl in H. apply path_eqb_eq in H.
      unfold Seal5Flow.settings_file, path_join in H.
      apply (f_equal (@List.length string)) in H.
      rewrite length_app in H. simpl in H. lia.
    - unfold Seal5Flow.settings_file, path_join in Heq.
      apply app_inj_tail in Heq as [_ <-].
      unfold Seal5Flow.layout in Hx. simpl in Hx.
      repeat (destruct Hx as [Hx | Hx]; [discriminate Hx | ]).
      exact Hx. }
  assert (parent_is_dir (fs w4) (Seal5Flow.settings_file self) = true) as Hpar4.
  { unfold Seal5Flow.settings_file. rewrite (parent_is_dir_join _ _ _ Hne).
    assert (only_adds_dirs w3 w4) as [Hkeep _].
    { revert Hloop.
      apply (fun P : preserves only_adds_dirs _ => P w3 (Ok tt) w4).
      apply (preserves_for_each _ only_adds_dirs_refl only_adds_dirs_trans).
      intros y. apply mkdir_parents_only_adds. }
    apply Hkeep. exact Hmeta2. }
  assert (default_settings w4 = default_settings w) as Hdef
      by (rewrite Hd4; simpl; rewrite Hd2; reflexivity).
  eexists. unfold Seal5Flow.initialize.
  rewrite (bind_step _ _ _ self (self, w)) by reflexivity.
  rewrite (bind_step _ _ _ tt (self, w1)) by reflexivity.
  rewrite (bind_step _ _ _ true (self, w1))
    by (apply in_world_run; unfold probe; simpl; now rewrite Hroot).
  cbn [negb].
  rewrite (bind_step _ _ _ tt (self, w1)) by reflexivity.
  rewrite (bind_step _ _ _ (is_dir (fs w) (Seal5Flow.meta_dir self)) (self, w1))
    by (apply in_world_run; reflexivity).
  rewrite (bind_step _ _ _ tt (self, w1)).
  2:{ destruct (is_dir (fs w) (Seal5Flow.meta_dir self)); [ | reflexivity].
      rewrite (Hforce eq_refl). reflexivity. }
  rewrite (bind_step _ _ _ tt (self, w2)) by (apply in_world_run; exact Hmk).
  rewrite (bind_step _ _ _ tt (self, w4)).
  2:{ apply in_world_run. unfold create_seal5_directories.
      rewrite (bind_step _ _ _ tt w3) by reflexivity.
      rewrite (bind_step _ _ _ true w3)
        by (unfold probe; simpl; now rewrite Hmeta2).
      rewrite (bind_step _ _ _ tt w3) by reflexivity.
      exact Hloop. }
  rewrite (bind_step _ _ _ tt
             (Seal5Flow.with_settings self (Some DefaultData), w4))
    by reflexivity.
  rewrite (bind_step _ _ _ (default_settings w4)
             (Seal5Flow.with_settings self (Some DefaultData), w4))
    by reflexivity.
  erewrite bind_step
    by (apply in_world_run; unfold YAMLSettings.to_yaml_file;
        apply write_text_run; [exact Hset4 | exact Hpar4]).
  erewrite bind_step by reflexivity.
  erewrite bind_step by reflexivity.
  erewrite bind_step
    by (unfold of_result; simpl; rewrite Hdef, Hlv; reflexivity).
  erewrite bind_step by reflexivity.
  reflexivity.
Qed.

(** X13: on a target directory that exists with its ancestors, where no
    file stands in the way of the workspace and either no [.seal5]
    directory exists yet or [force] is set, [initialize] returns, whatever
    the other arguments, provided the default settings give the two logging
    levels.  This holds for the module as it stands: the unbound names are
    not evaluated on this path. *)
Theorem initialize_goes_through {E : External}
        (self : Seal5Flow.t) (w : world) (interactive clone : bool)
        (clone_url clone_ref : option string) (force verbose : bool)
        (levels : value * value) :
  room_for_workspace self (fs w) ->
  (is_dir (fs w) (Seal5Flow.meta_dir self) = true -> force = true) ->
  logging_levels (default_settings w) = Ok levels ->
  exists o',
    Seal5Flow.initialize interactive clone clone_url clone_ref force verbose
                         (self, w) = (Ok tt, o').
Proof. apply initialize_run_through. Qed.

Lemma initialize_goes_through_witness :
  room_for_workspace fresh_flow (fs fresh_world) /\
  (is_dir (fs fresh_world) (Seal5Flow.meta_dir fresh_flow) = true ->
   false = true) /\
  logging_levels (default_settings fresh_world)
  = Ok (VStr "INFO", VStr "DEBUG") /\
  exists o',
    Seal5Flow.initialize (E := as_written) true false None None false false
                         (fresh_flow, fresh_world) = (Ok tt, o').
Proof.
  assert (room_for_workspace fresh_flow (fs fresh_world)) as Hroom.
  { split; [reflexivity | ]. split.
    - intros q [<- | []]. reflexivity.
    - split; [reflexivity | ]. split; [ | reflexivity].
      intros x _. reflexivity. }
  assert (is_dir (fs fresh_world) (Seal5Flow.meta_dir fresh_flow) = true ->
          false = true) as Hforce by (intros H; discriminate H).
  split; [exact Hroom | ]. split; [exact Hforce | ]. split; [reflexivity | ].
  apply (initialize_goes_through (E := as_written) fresh_flow fresh_world
           true false None None false false (VStr "INFO", VStr "DEBUG")
           Hroom Hforce).
  reflexivity.
Defined.

(** ** [load_cfg] *)

Section load_cfg.
Context {E : External}.

Lemma from_yaml_file_run file text other w :
  read_file (fs w) file = Some text ->
  yaml_safe_load text = Ok other ->
  YAMLSettings.from_yaml_file file w = (Ok (OwnData other), w).
Proof.
  intros Hread Hload. unfold YAMLSettings.from_yaml_file.
  erewrite bind_step by (unfold read_text; rewrite Hread; reflexivity).
  erewrite bind_step by (unfold of_result; rewrite Hload; reflexivity).
  reflexivity.
Qed.

(** The update in place of the settings: what is read afterwards, and what
    it leaves alone. *)
Lemma write_data_run self w data d :
  Seal5Flow.read_data (self, w) = (Ok data, (self, w)) ->
  exists o1,
    Seal5Flow.write_data d (self, w) = (Ok tt, o1)
    /\ Seal5Flow.read_data o1 = (Ok d, o1)
    /\ fs (snd o1) = fs w /\ trace (snd o1) = trace w
    /\ Seal5Flow.directory (fst o1) = Seal5Flow.directory self
    /\ (Seal5Flow.settings self = Some DefaultData ->
        default_settings (snd o1) = d)
    /\ (Seal5Flow.settings self <> Some DefaultData ->
        default_settings (snd o1) = default_settings w).
Proof.
  unfold Seal5Flow.read_data, Seal5Flow.write_data. simpl.
  destruct (Seal5Flow.settings self) as [[ | d0] | ] eqn:Hs;
    [ | | discriminate]; intros _; eexists; (split; [reflexivity | ]);
    simpl; try rewrite Hs; repeat split; auto; try congruence.
Qed.
End load_cfg.



(** A [load_cfg] whose merge goes through, step by step. *)
Lemma load_cfg_run {E : External} self w file text overwrite data other merged :
  read_file (fs w) file = Some text ->
  yaml_safe_load text = Ok other ->
  Seal5Flow.read_data (self, w) = (Ok data, (self, w)) ->
  YAMLSettings.merge data other overwrite = (merged, None) ->
  is_dir (fs w) (Seal5Flow.settings_file self) = false ->
  parent_is_dir (fs w) (Seal5Flow.settings_file self) = true ->
  exists o',
    Seal5Flow.load_cfg file overwrite (self, w) = (Ok tt, o')
    /\ Seal5Flow.read_data o' = (Ok merged, o')
    /\ fs (snd o')
       = {| dirs := dirs (fs w);
            files := set_file (files (fs w)) (Seal5Flow.settings_file self)
                              (yaml_dump merged) |}
    /\ trace (snd o')
       = trace w ++ [WriteFile (Seal5Flow.settings_file self)
                               (yaml_dump merged)]
    /\ Seal5Flow.directory (fst o') = Seal5Flow.directory self
    /\ (Seal5Flow.settings self = Some DefaultData ->
        default_settings (snd o') = merged)
    /\ (Seal5Flow.settings self <> Some DefaultData ->
        default_settings (snd o') = default_settings w).
Proof.
  intros Hread Hload Hdata Hmerge Hnodir Hparent.
  destruct (write_data_run self w data merged Hdata)
    as (o1 & Hwrite & Hread1 & Hfs & Htrace & Hdir & Hdef & Hndef).
  destruct o1 as [self1 w1]. simpl in Hfs, Htrace, Hdir, Hdef, Hndef.
  eexists. split.
  - unfold Seal5Flow.load_cfg.
    rewrite (bind_step _ _ _ self (self, w)) by reflexivity.
    erewrite bind_step
      by (apply in_world_run; eapply from_yaml_file_run; eauto).
    erewrite bind_step by exact Hdata.
    erewrite bind_step by (apply in_world_run; reflexivity).
    cbv zeta. rewrite Hmerge. cbn [fst snd].
    erewrite bind_step by exact Hwrite.
    erewrite bind_step by reflexivity.
    erewrite bind_step by exact Hread1.
    apply in_world_run. unfold YAMLSettings.to_yaml_file.
    apply write_text_run; rewrite Hfs; assumption.
  - cbn [fst snd]. repeat split.
    + unfold Seal5Flow.read_data in *. simpl in *.
      destruct (Seal5Flow.settings self1) as [[ | d] | ]; try discriminate.
      * injection Hread1 as ->. reflexivity.
      * injection Hread1 as ->. reflexivity.
    + simpl. now rewrite Hfs.
    + simpl. now rewrite Htrace.
    + exact Hdir.
    + intros Hs. simpl. auto.
    + intros Hs. simpl. auto.
Qed.

(** X15: when the merge goes through, [load_cfg] rewrites the settings
    file with the merged tree, which is also what the manager holds
    afterwards; nothing else is recorded.  On a manager initialized in the
    same process the merged tree replaces the contents of the module-level
    default dictionary. *)
Theorem load_cfg_persists_merge {E : External}
        (self : Seal5Flow.t) (w : world) (file : path) (text : string)
        (overwrite : bool) (data other merged : dict) :
  read_file (fs w) file = Some text ->
  yaml_safe_load text = Ok other ->
  Seal5Flow.read_data (self, w) = (Ok data, (self, w)) ->
  YAMLSettings.merge data other overwrite = (merged, None) ->
  is_dir (fs w) (Seal5Flow.settings_file self) = false ->
  parent_is_dir (fs w) (Seal5Flow.settings_file self) = true ->
  exists o',
    Seal5Flow.load_cfg file overwrite (self, w) = (Ok tt, o')
    /\ Seal5Flow.read_data o' = (Ok merged, o')
    /\ read_file (fs (snd o')) (Seal5Flow.settings_file self)
       = Some (yaml_dump merged)
    /\ trace (snd o')
       = trace w ++ [WriteFile (Seal5Flow.settings_file self)
                               (yaml_dump merged)]
    /\ (Seal5Flow.settings self = Some DefaultData ->
        default_settings (snd o') = merged).
Proof.
  intros Hread Hload Hdata Hmerge Hnodir Hparent.
  destruct (load_cfg_run self w file text overwrite data other merged
                         Hread Hload Hdata Hmerge Hnodir Hparent)
    as (o' & Hrun & Hdata' & Hfs & Htrace & _ & Hdef & _).
  exists o'. repeat split; auto.
  unfold read_file. rewrite Hfs. simpl. apply lookup_set_file.
Qed.

Lemma load_cfg_persists_merge_witness :
  read_file (fs world_with_fragments) fragment_file = Some (render fragment) /\
  yaml_safe_load (External := as_written) (render fragment) = Ok fragment /\
  Seal5Flow.read_data (later_flow, world_with_fragments)
  = (Ok DEFAULT_SETTINGS, (later_flow, world_with_fragments)) /\
  YAMLSettings.merge DEFAULT_SETTINGS fragment false
  = (defaults_with_fragment, None) /\
  is_dir (fs world_with_fragments) (Seal5Flow.settings_file later_flow)
  = false /\
  parent_is_dir (fs world_with_fragments) (Seal5Flow.settings_file later_flow)
  = true /\
  exists o',
    Seal5Flow.load_cfg (E := as_written) fragment_file false
                       (later_flow, world_with_fragments) = (Ok tt, o')
    /\ Seal5Flow.read_data o' = (Ok defaults_with_fragment, o')
    /\ read_file (fs (snd o')) (Seal5Flow.settings_file later_flow)
       = Some (render defaults_with_fragment)
    /\ trace (snd o')
       = trace world_with_fragments
         ++ [WriteFile (Seal5Flow.settings_file later_flow)
                       (render defaults_with_fragment)]
    /\ (Seal5Flow.settings later_flow = Some DefaultData ->
        default_settings (snd o') = defaults_with_fragment).
Proof.
  split; [reflexivity | ]. split; [reflexivity | ]. split; [reflexivity | ].
  split; [reflexivity | ]. split; [reflexivity | ]. split; [reflexivity | ].
  apply (load_cfg_persists_merge (E := as_written)
           later_flow world_with_fragments fragment_file (render fragment)
           false DEFAULT_SETTINGS fragment defaults_with_fragment);
    reflexivity.
Defined.

Lemma set_file_again l p text :
  set_file (set_file l p text) p text = set_file l p text.
Proof.
  induction l as [ | [q old] l IH]; simpl.
  - now rewrite path_eqb_refl.
  - destruct (path_eqb q p) eqn:Eq; simpl; rewrite Eq; [reflexivity | ].
    now rewrite IH.
Qed.

(** X24: loading a second time, without overwrite, a fragment that holds
    no NaN changes nothing: the second [load_cfg] goes through as well, the
    manager holds the same settings, and the settings file is rewritten
    with the text it already had. *)
Theorem load_cfg_twice {E : External}
        (self : Seal5Flow.t) (w : world) (file : path) (text : string)
        (data other merged : dict) :
  wf_dict other = true ->
  nan_free (VDict other) = true ->
  file <> Seal5Flow.settings_file self ->
  read_file (fs w) file = Some text ->
  yaml_safe_load text = Ok other ->
  Seal5Flow.read_data (self, w) = (Ok data, (self, w)) ->
  YAMLSettings.merge data other false = (merged, None) ->
  is_dir (fs w) (Seal5Flow.settings_file self) = false ->
  parent_is_dir (fs w) (Seal5Flow.settings_file self) = true ->
  exists o' o'',
    Seal5Flow.load_cfg file false (self, w) = (Ok tt, o')
    /\ Seal5Flow.load_cfg file false o' = (Ok tt, o'')
    /\ Seal5Flow.read_data o'' = (Ok merged, o'')
    /\ fs (snd o'') = fs (snd o')
    /\ default_settings (snd o'') = default_settings (snd o').
Proof.
  intros Hwf Hnan Hne Hread Hload Hdata Hmerge Hnodir Hparent.
  destruct (load_cfg_run self w file text false data other merged
                         Hread Hload Hdata Hmerge Hnodir Hparent)
    as ([self1 w1] & Hrun & Hdata1 & Hfs & Htrace & Hdir & _ & _).
  simpl in Hfs, Htrace, Hdir.
  assert (Seal5Flow.settings_file self1 = Seal5Flow.settings_file self) as Hsf
      by (unfold Seal5Flow.settings_file, Seal5Flow.meta_dir; now rewrite Hdir).
  assert (YAMLSettings.merge merged other false = (merged, None)) as Hagain.
  { destruct (merge_dicts_settles other Hwf Hnan) as [Hsettle _].
    apply (Hsettle data [] merged Hmerge). }
  destruct (load_cfg_run self1 w1 file text false merged other merged)
    as ([self2 w2] & Hrun2 & Hdata2 & Hfs2 & _ & _ & Hdef2 & Hndef2); auto.
  { unfold read_file. rewrite Hfs. simpl.
    rewrite lookup_set_file_other by exact Hne. exact Hread. }
  { rewrite Hsf. unfold is_dir. rewrite Hfs. exact Hnodir. }
  { rewrite Hsf. unfold parent_is_dir, is_dir. rewrite Hfs. exact Hparent. }
  exists (self1, w1), (self2, w2). repeat split; auto.
  - simpl in *. rewrite Hfs2, Hsf, Hfs. simpl. now rewrite set_file_again.
  - simpl in *. unfold Seal5Flow.read_data in Hdata1. simpl in Hdata1.
    destruct (Seal5Flow.settings self1) as [[ | d] | ] eqn:Hs.
    + rewrite (Hdef2 eq_refl). now injection Hdata1 as ->.
    + apply Hndef2. discriminate.
    + discriminate.
Qed.

Lemma load_cfg_twice_witness :
  wf_dict fragment = true /\
  nan_free (VDict fragment) = true /\
  fragment_file <> Seal5Flow.settings_file later_flow /\
  exists o' o'',
    Seal5Flow.load_cfg (E := as_written) fragment_file false
                       (later_flow, world_with_fragments) = (Ok tt, o')
    /\ Seal5Flow.load_cfg (E := as_written) fragment_file false o'
       = (Ok tt, o'')
    /\ Seal5Flow.read_data o'' = (Ok defaults_with_fragment, o'')
    /\ fs (snd o'') = fs (snd o')
    /\ default_settings (snd o'') = default_settings (snd o').
Proof.
  assert (fragment_file <> Seal5Flow.settings_file later_flow) as Hne
      by (intros H; discriminate H).
  split; [reflexivity | ]. split; [reflexivity | ]. split; [exact Hne | ].
  apply (load_cfg_twice (E := as_written)
           later_flow world_with_fragments fragment_file (render fragment)
           DEFAULT_SETTINGS fragment defaults_with_fragment eq_refl eq_refl
           Hne);
    reflexivity.
Defined.

(** ** [load_cdsl] and [load] *)

(** X16: when the model parser fails, [load_cdsl] has already copied the
    source and appended its name to the inputs list in memory; the
    exception escapes before the settings file is rewritten, so the list on
    disk stays behind the one in memory. *)
Theorem load_cdsl_parser_failure {E : External}
        (self : Seal5Flow.t) (w : world) (file : path)
        (verbose overwrite : bool) (data : dict) (l : list value)
        (e : exn) (f1 f2 : fs_state) :
  let dest := path_join (Seal5Flow.inputs_dir self) (path_name file) in
  let parser_env := path_join (Seal5Flow.deps_dir self) "M2-ISA-R" in
  is_file (fs w) file = true ->
  is_file (fs w) dest && negb overwrite = false ->
  Seal5Flow.read_data (self, w) = (Ok data, (self, w)) ->
  dict_get data "inputs" = Some (VList l) ->
  utils_copy file dest (fs w) = (Ok tt, f1) ->
  utils_python (parser_args self file) parser_env f1 = (Raise e, f2) ->
  exists o' data',
    Seal5Flow.load_cdsl file verbose overwrite (self, w) = (Raise e, o')
    /\ inputs_appended data data' l (path_name file)
    /\ Seal5Flow.read_data o' = (Ok data', o')
    /\ fs (snd o') = f2
    /\ trace (snd o')
       = trace w ++ [Copy file dest; Python (parser_args self file) parser_env].
Proof.
  intros dest parser_env Hfile Hdest Hread Hinputs Hcopy Hparse.
  subst dest parser_env.
  exists (snd (Seal5Flow.load_cdsl file verbose overwrite (self, w))),
         (dict_set data "inputs" (VList (l ++ [VStr (path_name file)]))).
  split; [ | split; [now apply dict_set_inputs_appended | ]];
    unfold Seal5Flow.load_cdsl;
    rewrite (bind_step _ _ _ self (self, w)) by reflexivity;
    rewrite (bind_step _ _ _ true (self, w))
      by (apply in_world_run; unfold probe; now rewrite Hfile);
    rewrite (bind_step _ _ _ tt (self, w)) by reflexivity;
    rewrite (bind_step _ _ _ _ (self, w))
      by (apply in_world_run; unfold probe; reflexivity);
    rewrite Hdest;
    rewrite (bind_step _ _ _ tt (self, w)) by reflexivity;
    (erewrite bind_step
      by (apply in_world_run; apply external_run; exact Hcopy));
    unfold Seal5Flow.read_data in Hread; simpl in Hread;
    (destruct (Seal5Flow.settings self) as [[ | d] | ] eqn:Hs;
     [ | | discriminate]); injection Hread as <-;
    (erewrite bind_step
      by (unfold Seal5Flow.read_data; simpl; rewrite Hs; reflexivity));
    (erewrite bind_step
      by (unfold of_result, subscript; rewrite Hinputs; reflexivity));
    (erewrite bind_step
      by (unfold Seal5Flow.write_data; simpl; rewrite Hs; reflexivity));
    (erewrite bind_raise
      by (apply in_world_run; apply external_run; exact Hparse));
    cbn [fst snd].
  - reflexivity.
  - reflexivity.
  - split; [unfold Seal5Flow.read_data; simpl; now rewrite Hs | ].
    split; [reflexivity | ]. simpl. rewrite <- !app_assoc. reflexivity.
  - split; [reflexivity | ].
    split; [reflexivity | ]. simpl. rewrite <- !app_assoc. reflexivity.
Qed.

Lemma load_cdsl_parser_failure_witness :
  let dest := path_join (Seal5Flow.inputs_dir fresh_flow)
                        (path_name example_source) in
  let parser_env := path_join (Seal5Flow.deps_dir fresh_flow) "M2-ISA-R" in
  is_file (fs (snd initialized)) example_source = true /\
  is_file (fs (snd initialized)) dest && negb false = false /\
  Seal5Flow.read_data initialized = (Ok DEFAULT_SETTINGS, initialized) /\
  dict_get DEFAULT_SETTINGS "inputs" = Some (VList []) /\
  exists o' data',
    Seal5Flow.load_cdsl (E := with_failing_parser) example_source false false
                        initialized
    = (Raise (ExternalToolError "parser failed"), o')
    /\ inputs_appended DEFAULT_SETTINGS data' [] (path_name example_source)
    /\ Seal5Flow.read_data o' = (Ok data', o')
    /\ fs (snd o')
       = snd (utils_copy (External := with_failing_parser) example_source dest
                         (fs (snd initialized)))
    /\ trace (snd o')
       = trace (snd initialized)
         ++ [Copy example_source dest;
             Python (parser_args fresh_flow example_source) parser_env].
Proof.
  intros dest parser_env.
  split; [reflexivity | ]. split; [reflexivity | ]. split; [reflexivity | ].
  split; [reflexivity | ].
  apply (load_cdsl_parser_failure (E := with_failing_parser)
           (fst initialized) (snd initialized) example_source false false
           DEFAULT_SETTINGS [] (ExternalToolError "parser failed")
           (snd (utils_copy (External := with_failing_parser) example_source
                            dest (fs (snd initialized)))));
    reflexivity.
Defined.

(** X17: [load] stops at the first file whose suffix, lowercased, is none
    of [.yml], [.yaml] and [.core_desc]: the files before it stay loaded,
    the [RuntimeError] names the suffix as written, and the files after it
    are not looked at, nor is the closing record written. *)
Theorem load_stops_at_unsupported {E : External}
        (o o1 : Seal5Flow.obj) (before after : list path) (bad : path)
        (verbose overwrite : bool) :
  existsb (String.eqb (str_lower (path_suffix bad)))
          [".yml"; ".yaml"; ".core_desc"] = false ->
  for_each before (fun file => Seal5Flow.load_one file verbose overwrite)
           (fst o, world_emit (snd o) (Log INFO "Loading Seal5 inputs"))
  = (Ok tt, o1) ->
  Seal5Flow.load (before ++ bad :: after) verbose overwrite o
  = (Raise (RuntimeError ("Unsupported input type: " ++ path_suffix bad)),
     (fst o1,
      world_emit (snd o1)
                 (Log INFO ("Processing file: " ++ str_of_path bad)))).
Proof.
  intros Hext Hbefore. destruct o as [self w]. destruct o1 as [self1 w1].
  simpl in *. unfold Seal5Flow.load.
  erewrite bind_step by (apply in_world_run; reflexivity).
  erewrite bind_raise; [reflexivity | ].
  rewrite (for_each_app _ _ _ _ _ Hbefore). cbn [for_each].
  erewrite bind_raise; [reflexivity | ].
  unfold Seal5Flow.load_one.
  erewrite bind_step by (apply in_world_run; reflexivity).
  simpl in Hext. apply orb_false_iff in Hext as [H1 Hext].
  apply orb_false_iff in Hext as [H2 Hext].
  apply orb_false_iff in Hext as [H3 _].
  cbn [existsb]. rewrite H1, H2, H3. reflexivity.
Qed.

Lemma load_stops_at_unsupported_witness :
  let bad := ["/work"; "notes.TXT"] in
  let start :=
    (fst initialized,
     world_emit (snd initialized) (Log INFO "Loading Seal5 inputs")) in
  let o1 :=
    snd (for_each [example_source]
                  (fun file => Seal5Flow.load_one (E := as_written) file
                                                  false false) start) in
  existsb (String.eqb (str_lower (path_suffix bad)))
          [".yml"; ".yaml"; ".core_desc"] = false /\
  for_each [example_source]
           (fun file => Seal5Flow.load_one (E := as_written) file false false)
           start
  = (Ok tt, o1) /\
  Seal5Flow.load (E := as_written) ([example_source] ++ bad :: [fragment_file])
                 false false initialized
  = (Raise (RuntimeError ("Unsupported input type: " ++ path_suffix bad)),
     (fst o1,
      world_emit (snd o1)
                 (Log INFO ("Processing file: " ++ str_of_path bad)))).
Proof.
  intros bad start o1.
  split; [reflexivity | ]. split; [reflexivity | ].
  apply (load_stops_at_unsupported (E := as_written) initialized o1
           [example_source] [fragment_file] bad false false);
    reflexivity.
Defined.

(** ** [build] *)

(** X18: whatever the settings hold and however [build] ends, every
    configure step that it starts comes without a single definition: the
    options of the chosen configuration never reach the configure step. *)
Theorem build_never_passes_options {E : External}
        (config : string) (verbose : bool) (o o' : Seal5Flow.obj)
        (res : result unit) :
  Seal5Flow.build config verbose o = (res, o') ->
  forall src args use_ninja cwd,
    In (Cmake src args use_ninja cwd) (trace (snd o')) ->
    In (Cmake src args use_ninja cwd) (trace (snd o)) \/ args = [].
Proof.
  intros Hrun. apply (build_passes_no_flags config verbose o res o' Hrun).
Qed.

Lemma build_never_passes_options_witness :
  let run := Seal5Flow.build (E := as_written) "debug" false initialized in
  Seal5Flow.build (E := as_written) "debug" false initialized
  = (fst run, snd run) /\
  forall src args use_ninja cwd,
    In (Cmake src args use_ninja cwd) (trace (snd (snd run))) ->
    In (Cmake src args use_ninja cwd) (trace (snd initialized)) \/ args = [].
Proof.
  intros run. split; [reflexivity | ].
  apply (build_never_passes_options (E := as_written) "debug" false
           initialized (snd run) (fst run)).
  reflexivity.
Defined.

(** X19: a configuration name that [llvm.configs] does not have, or has
    with a null value, fails the assertion of [build] with the name in the
    message, after the opening record only: no directory is made and no
    tool is started. *)
Theorem build_rejects_unknown_config {E : External}
        (self : Seal5Flow.t) (w : world) (config : string) (verbose : bool)
        (data : dict) (llvm : value) (configs : dict) :
  let w0 := world_emit w (Log INFO "Building Seal5 LLVM") in
  Seal5Flow.read_data (self, w0) = (Ok data, (self, w0)) ->
  dict_get data "llvm" = Some llvm ->
  subscript llvm "configs" = Ok (VDict configs) ->
  dict_get configs config = None \/ dict_get configs config = Some VNone ->
  Seal5Flow.build config verbose (self, w)
  = (Raise (AssertionError ("Invalid llvm config: " ++ config)), (self, w0)).
Proof.
  intros w0 Hread Hllvm Hconfigs Hnone. unfold Seal5Flow.build.
  rewrite (bind_step _ _ _ self (self, w)) by reflexivity.
  erewrite bind_step by (apply in_world_run; reflexivity).
  erewrite bind_step by exact Hread.
  erewrite bind_step
    by (unfold of_result, subscript; rewrite Hllvm; reflexivity).
  erewrite bind_step by (unfold of_result; rewrite Hconfigs; reflexivity).
  rewrite (bind_step _ _ _ VNone (self, w0))
    by (unfold of_result, Seal5Flow.dict_get_or_none;
        destruct Hnone as [-> | ->]; reflexivity).
  reflexivity.
Qed.

Lemma build_rejects_unknown_config_witness :
  let w0 := world_emit (snd initialized) (Log INFO "Building Seal5 LLVM") in
  Seal5Flow.read_data (fst initialized, w0)
  = (Ok DEFAULT_SETTINGS, (fst initialized, w0)) /\
  (exists llvm configs,
      dict_get DEFAULT_SETTINGS "llvm" = Some llvm /\
      subscript llvm "configs" = Ok (VDict configs) /\
      dict_get configs "fast" = None) /\
  Seal5Flow.build (E := as_written) "fast" false initialized
  = (Raise (AssertionError "Invalid llvm config: fast"), (fst initialized, w0)).
Proof.
  intros w0. split; [reflexivity | ]. split.
  - eexists. eexists. split; [reflexivity | ]. split; reflexivity.
  - eapply (build_rejects_unknown_config (E := as_written)
              (fst initialized) (snd initialized) "fast" false
              DEFAULT_SETTINGS).
    + reflexivity.
    + reflexivity.
    + reflexivity.
    + left. reflexivity.
Defined.

(** ** The constructor *)

(** X20: a manager is built from a [str] directory only.  Building it
    changes neither the file system nor the default dictionary; it holds
    settings exactly when the settings file exists, and then those that the
    loader reads from it; and it points the logger to the log file exactly
    when the logs directory exists, setting the levels as well when it
    holds settings. *)
Theorem constructor_reads_workspace {E : External}
        (directory : dir_arg) (name : string) (w w' : world)
        (self : Seal5Flow.t) :
  Seal5Flow.__init__ directory name w = (Ok self, w') ->
  (exists d, directory = DirStr d /\ Seal5Flow.directory self = [d]) /\
  fs w' = fs w /\
  default_settings w' = default_settings w /\
  match read_file (fs w) (Seal5Flow.settings_file self) with
  | None => Seal5Flow.settings self = None
  | Some text =>
      exists data, yaml_safe_load text = Ok data
                   /\ Seal5Flow.settings self = Some (OwnData data)
  end /\
  trace w'
  = trace w
    ++ (if is_dir (fs w) (Seal5Flow.logs_dir self)
        then SetLogFile (Seal5Flow.log_file_path self)
             :: match Seal5Flow.settings self with
                | Some (OwnData data) =>
                    match logging_levels data with
                    | Ok lv => [SetLogLevel (fst lv) (snd lv)]
                    | Raise _ => []
                    end
                | _ => []
                end
        else []).
Proof.
  intros Hinit.
  destruct (init_same_files _ _ _ _ _ Hinit) as [Hfs Hdef].
  unfold Seal5Flow.__init__, Seal5Flow.check in Hinit.
  apply bind_ok_inv in Hinit as (d & w1 & Hd & H).
  unfold of_result in Hd. injection Hd as Hd <-.
  destruct directory as [ | s | p]; try discriminate.
  injection Hd as <-.
  set (self0 := {| Seal5Flow.directory := [s]; Seal5Flow.name := name;
                   Seal5Flow.state := UNKNOWN;
                   Seal5Flow.settings := None |}) in *.
  apply bind_ok_inv in H as (hs & w2 & Hhs & H).
  unfold probe in Hhs. injection Hhs as <- <-.
  apply bind_ok_inv in H as (self1 & w3 & Hself & H).
  apply bind_ok_inv in H as (hl & w4 & Hhl & H).
  unfold probe in Hhl. injection Hhl as <- <-.
  apply bind_ok_inv in H as ([] & w5 & Hlog & H).
  injection H as <- <-.
  assert (Seal5Flow.directory self1 = [s] /\ w3 = w /\
          match read_file (fs w) (Seal5Flow.settings_file self0) with
          | None => Seal5Flow.settings self1 = None
          | Some text =>
              exists data, yaml_safe_load text = Ok data
                           /\ Seal5Flow.settings self1 = Some (OwnData data)
          end) as (Hdir & -> & Hsettings).
  { unfold is_file in Hself.
    destruct (read_file (fs w) (Seal5Flow.settings_file self0)) as [text | ]
      eqn:Hread.
    - apply bind_ok_inv in Hself as (st & w6 & Hs & Hself).
      injection Hself as <- <-.
      unfold YAMLSettings.from_yaml_file in Hs.
      apply bind_ok_inv in Hs as (text' & w7 & Ht & Hs).
      unfold read_text in Ht. rewrite Hread in Ht. injection Ht as <- <-.
      apply bind_ok_inv in Hs as (data & w8 & Hl & Hs).
      unfold of_result in Hl. injection Hl as Hl <-.
      apply bind_ok_inv in Hs as ([] & w9 & Ha & Hs).
      injection Ha as <-. injection Hs as <- <-.
      repeat split; auto. exists data. split; auto.
    - injection Hself as <- <-. repeat split; auto. }
  assert (Seal5Flow.settings_file self1 = Seal5Flow.settings_file self0)
    as Hsf by (unfold Seal5Flow.settings_file, Seal5Flow.meta_dir;
               now rewrite Hdir).
  assert (Seal5Flow.logs_dir self1 = Seal5Flow.logs_dir self0)
    as Hld by (unfold Seal5Flow.logs_dir, Seal5Flow.meta_dir;
               now rewrite Hdir).
  split; [exists s; auto | ]. split; [exact Hfs | ]. split; [exact Hdef | ].
  rewrite Hsf. split; [exact Hsettings | ].
  destruct (is_dir (fs w) (Seal5Flow.logs_dir self1)) eqn:Hlogs.
  - unfold set_log_file, set_log_level in Hlog.
    apply bind_ok_inv in Hlog as ([] & w6 & He & Hlog).
    unfold emit in He. injection He as <-.
    destruct (Seal5Flow.settings self1) as [[ | data] | ].
    + apply bind_ok_inv in Hlog as (dd & w7 & Hdd & Hlog).
      unfold data_of in Hdd. injection Hdd as <- <-.
      exfalso.
      destruct (read_file (fs w) (Seal5Flow.settings_file self0));
        [destruct Hsettings as [? [_ ?]] | ]; discriminate.
    + apply bind_ok_inv in Hlog as (dd & w7 & Hdd & Hlog).
      unfold data_of in Hdd. injection Hdd as <- <-.
      apply bind_ok_inv in Hlog as (lv & w8 & Hlv & Hlog).
      unfold of_result in Hlv. injection Hlv as Hlv <-.
      rewrite Hlv. unfold emit in Hlog. injection Hlog as <-.
      simpl. now rewrite <- app_assoc.
    + injection Hlog as <-. reflexivity.
  - injection Hlog as <-. now rewrite app_nil_r.
Qed.

Lemma constructor_reads_workspace_witness :
  Seal5Flow.__init__ (E := as_written) (DirStr "/work/llvm-project")
                     "default" later_world
  = (Ok later_flow, later_world_logging) /\
  (exists d, DirStr "/work/llvm-project" = DirStr d
             /\ Seal5Flow.directory later_flow = [d]) /\
  fs later_world_logging = fs later_world /\
  default_settings later_world_logging = default_settings later_world /\
  match read_file (fs later_world) (Seal5Flow.settings_file later_flow) with
  | None => Seal5Flow.settings later_flow = None
  | Some text =>
      exists data, yaml_safe_load (External := as_written) text = Ok data
                   /\ Seal5Flow.settings later_flow = Some (OwnData data)
  end /\
  trace later_world_logging
  = trace later_world
    ++ (if is_dir (fs later_world) (Seal5Flow.logs_dir later_flow)
        then SetLogFile (Seal5Flow.log_file_path later_flow)
             :: match Seal5Flow.settings later_flow with
                | Some (OwnData data) =>
                    match logging_levels data with
                    | Ok lv => [SetLogLevel (fst lv) (snd lv)]
                    | Raise _ => []
                    end
                | _ => []
                end
        else []).
Proof.
  split; [reflexivity | ].
  apply (constructor_reads_workspace (E := as_written)
           (DirStr "/work/llvm-project") "default" later_world
           later_world_logging later_flow).
  reflexivity.
Defined.

(** ** [clean] and the [clean] subcommand *)

(** X21: cleaning removes nothing.  [Seal5Flow.clean] raises
    [NotImplementedError] right after its opening record, and the [clean]
    subcommand passes keywords that [Seal5Flow.clean] does not take, so
    that it never gets that far: whatever its arguments, it never returns,
    it leaves every directory, every file and the default dictionary as
    they were, and once the manager is built it ends with the [TypeError]
    of the call, before the opening record of [clean]. *)
Theorem clean_removes_nothing {E : External} :
  (forall verbose interactive o,
      Seal5FlowStages.clean verbose interactive o
      = (NotImplemented "",
         (fst o, world_emit (snd o) (Log INFO "Cleaning Seal5 directories"))))
  /\
  (forall args w,
      let run := CleanCli.handle args w in
      (forall a, fst run <> Returned a)
      /\ fs (snd (snd run)) = fs w
      /\ default_settings (snd (snd run)) = default_settings w
      /\ forall name flow w1,
           Seal5Flow.__init__ (DirStr (clean_DIR args)) name w = (Ok flow, w1) ->
           name = match clean_name args with
                  | NameList first _ => first
                  | NameStr s => s
                  end ->
           exists msg, run = (Raised (TypeError msg), (Some flow, w1))).
Proof.
  split.
  - intros verbose interactive [self w]. reflexivity.
  - intros args w run. subst run. unfold CleanCli.handle.
    destruct (Seal5Flow.__init__ _ _ w) as [[flow | e] w1] eqn:Hinit;
      destruct (init_same_files _ _ _ _ _ Hinit) as [Hfs Hdef]; simpl.
    + repeat split; auto; try discriminate.
      intros name flow' w1' Hinit' ->. rewrite Hinit in Hinit'.
      injection Hinit' as <- <-. eexists. reflexivity.
    + repeat split; auto; try discriminate.
      intros name flow' w1' Hinit' ->. rewrite Hinit in Hinit'.
      discriminate.
Qed.

(** ** The [init] subcommand without a directory *)

(** X22: without a directory argument the [init] subcommand falls back on
    the environment variable [SEAL5_HOME] and then behaves as if its value
    had been given as the directory; when the variable is not set either,
    it logs an error and goes on to build the manager from [None], which
    raises: the subcommand ends with exit status 1 and has touched
    nothing. *)
Theorem init_without_directory {E : External} (args : init_args) (w : world) :
  arg_dir args = None ->
  match getenv "SEAL5_HOME" with
  | Some home_dir => handle args w = handle (with_dir args (Some home_dir)) w
  | None =>
      exists msg,
        handle args w
        = (Raise (TypeError msg),
           (None,
            world_emit w (Log ERROR "Seal5_HOME Env var not specified !!!")))
        /\ exit_status (fst (handle args w)) = 1%Z
  end.
Proof.
  intros Hdir. unfold handle. rewrite Hdir.
  destruct (getenv "SEAL5_HOME") as [home_dir | ]; [reflexivity | ].
  eexists. split; reflexivity.
Qed.

Lemma init_without_directory_witness :
  arg_dir (with_dir init_again None) = None /\
  exists msg,
    handle (E := as_written) (with_dir init_again None) later_world
    = (Raise (TypeError msg),
       (None,
        world_emit later_world
                   (Log ERROR "Seal5_HOME Env var not specified !!!")))
    /\ exit_status (fst (handle (E := as_written) (with_dir init_again None)
                                later_world)) = 1%Z.
Proof.
  split; [reflexivity | ].
  apply (init_without_directory (E := as_written) (with_dir init_again None)
                                later_world).
  reflexivity.
Defined.

(** ** [export] *)

Lemma concat_last sep p x :
  p <> [] ->
  String.concat sep (p ++ [x]) = (String.concat sep p ++ sep ++ x)%string.
Proof.
  induction p as [ | a p IH]; intros Hp; [congruence | ].
  destruct p as [ | b q].
  - reflexivity.
  - change (String.concat sep ((a :: b :: q) ++ [x]))
      with (a ++ sep ++ String.concat sep ((b :: q) ++ [x]))%string.
    rewrite IH by discriminate.
    change (String.concat sep (a :: b :: q))
      with (a ++ sep ++ String.concat sep (b :: q))%string.
    now rewrite !append_assoc.
Qed.

Lemma occurs_here sub s r : strip_prefix sub s = Some r -> occurs sub s = true.
Proof. destruct s; simpl; now intros ->. Qed.

Lemma strip_prefix_some pre :
  forall t r, strip_prefix pre t = Some r -> t = (pre ++ r)%string.
Proof.
  induction pre as [ | c pre IH]; intros t r H; simpl in *.
  - now injection H as ->.
  - destruct t as [ | d t]; [discriminate | ].
    destruct (Ascii.eqb c d) eqn:E; [ | discriminate].
    apply Ascii.eqb_eq in E. subst d. now rewrite (IH _ _ H).
Qed.

Lemma has_char_app ch a b :
  has_char ch (a ++ b)%string = has_char ch a || has_char ch b.
Proof.
  induction a as [ | c a IH]; simpl; auto. now rewrite IH, orb_assoc.
Qed.

Lemma replace_skip old new y x :
  replace_from old new (y ++ x)%string (String.length y)
  = replace_from old new x 0.
Proof. induction y as [ | c y IH]; simpl; auto. Qed.

Lemma replace_absent ch old new x :
  has_char ch old = true -> has_char ch x = false ->
  replace_from old new x 0 = x.
Proof.
  intros Hold. induction x as [ | c x IH]; intros Hx; [reflexivity | ].
  cbn [replace_from].
  destruct (strip_prefix old (String c x)) as [r | ] eqn:Hs.
  - apply strip_prefix_some in Hs. rewrite Hs, has_char_app, Hold in Hx.
    discriminate.
  - simpl in Hx. apply orb_false_iff in Hx as [_ Hx]. now rewrite IH.
Qed.

(** The name of an artifact inside the archive: the workspace directory
    is taken off the front. *)
Lemma relative_name m x :
  has_char "/" x = false ->
  str_replace (m ++ "/")%string "" ((m ++ "/") ++ x)%string = x.
Proof.
  intros Hx.
  assert (has_char "/" (m ++ "/")%string = true) as Hold
      by (rewrite has_char_app; simpl; apply orb_true_r).
  destruct (m ++ "/")%string as [ | c old'] eqn:Eold.
  - destruct m; discriminate.
  - unfold str_replace. change (String c old' ++ x)%string
      with (String c (old' ++ x)%string).
    cbn [replace_from].
    change (String c (old' ++ x)%string) with (String c old' ++ x)%string.
    rewrite strip_prefix_app.
    replace (String.length (String c old') - 1) with (String.length old')
      by (simpl; lia).
    rewrite replace_skip. simpl. now apply (replace_absent "/"%char).
Qed.

Lemma with_fs_same w : with_fs w (fs w) = w.
Proof. now destruct w. Qed.

Section export.
Context {T : Tarfile}.

Lemma export_artifact_run self dest x s :
  obliging T ->
  has_char "/" x = false ->
  let artifact := path_join (Seal5Flow.meta_dir self) x in
  Seal5FlowExport.export_artifact self dest artifact s
  = (Ok tt,
     {| here := here s;
        archive_calls :=
          archive_calls s
          ++ (if is_file (fs (here s)) artifact
                 || is_dir (fs (here s)) artifact
              then [TarAdd dest artifact x] else []) |}).
Proof.
  intros (_ & Hadd & _) Hx artifact.
  assert (Seal5Flow.meta_dir self <> []) as Hne
      by (unfold Seal5Flow.meta_dir, path_join;
          now destruct (Seal5Flow.directory self)).
  unfold Seal5FlowExport.export_artifact, artifact, path_join, str_of_path.
  rewrite (concat_last "/" _ x Hne).
  rewrite (bind_step _ _ _ tt s).
  2:{ erewrite occurs_here; [reflexivity | apply strip_prefix_app]. }
  rewrite <- append_assoc, (relative_name _ x Hx).
  erewrite bind_step by reflexivity.
  destruct (is_file (fs (here s)) (Seal5Flow.meta_dir self ++ [x])).
  - unfold tar_call. rewrite Hadd, with_fs_same. reflexivity.
  - erewrite bind_step by reflexivity. simpl.
    destruct (is_dir (fs (here s)) (Seal5Flow.meta_dir self ++ [x])).
    + unfold tar_call. rewrite Hadd, with_fs_same. reflexivity.
    + unfold ret. rewrite app_nil_r. now destruct s.
Qed.

Lemma export_loop_run self dest :
  obliging T ->
  forall names s,
    forallb (fun x => negb (has_char "/" x)) names = true ->
    for_each (map (path_join (Seal5Flow.meta_dir self)) names)
             (Seal5FlowExport.export_artifact self dest) s
    = (Ok tt,
       {| here := here s;
          archive_calls :=
            archive_calls s
            ++ map (fun x => TarAdd dest (path_join (Seal5Flow.meta_dir self) x) x)
                   (filter (fun x =>
                              is_file (fs (here s))
                                      (path_join (Seal5Flow.meta_dir self) x)
                              || is_dir (fs (here s))
                                        (path_join (Seal5Flow.meta_dir self) x))
                           names) |}).
Proof.
  intros Hob. induction names as [ | x names IH]; intros s Hnames.
  - simpl. rewrite app_nil_r. now destruct s.
  - simpl in Hnames. apply andb_true_iff in Hnames as [Hx Hnames].
    apply negb_true_iff in Hx.
    cbn [map for_each].
    erewrite bind_step by (apply export_artifact_run; assumption).
    rewrite (IH _ Hnames). cbn [here archive_calls filter].
    destruct (is_file (fs (here s)) (path_join (Seal5Flow.meta_dir self) x)
              || is_dir (fs (here s)) (path_join (Seal5Flow.meta_dir self) x));
      cbn [map]; rewrite <- app_assoc; reflexivity.
Qed.
End export.

(** X23: [export] refuses a destination whose suffix is not [.gz] before
    it opens anything; the suffix is that of the last component of the
    path that the destination stands for.  Otherwise, with an archiver whose calls return, it
    returns after having opened the archive at the destination, added
    every artifact among inputs, gen, models, logs and settings.yml that
    exists, in this order and under its name relative to the workspace
    directory, and closed the archive; the assertion on the names never
    fails. *)
Theorem export_archives_relative_names {T : Tarfile}
        (self : Seal5Flow.t) (dest : dest_arg) (verbose : bool)
        (s : export_state) :
  obliging T ->
  let target := dest_path dest in
  let run := Seal5FlowExport.export dest verbose self s in
  let opened := snd (tar_open target (fs (here s))) in
  let member x := TarAdd target (path_join (Seal5Flow.meta_dir self) x) x in
  let exists_now x :=
    is_file opened (path_join (Seal5Flow.meta_dir self) x)
    || is_dir opened (path_join (Seal5Flow.meta_dir self) x) in
  if String.eqb (path_suffix target) ".gz"
  then fst run = Returned tt
       /\ archive_calls (snd run)
          = archive_calls s
            ++ TarOpen target
               :: map member (filter exists_now artifact_names)
            ++ [TarClose target]
  else fst run = NotImplemented "Only .tar.gz export is supported!"
       /\ archive_calls (snd run) = archive_calls s
       /\ fs (here (snd run)) = fs (here s).
Proof.
  intros Hob target run opened member exists_now.
  subst run. unfold Seal5FlowExport.export. fold target.
  destruct (String.eqb (path_suffix target) ".gz"); [ | now repeat split].
  cbn [negb].
  set (s0 := {| here := world_emit (here s)
                                   (Log INFO "Exporting Seal5 artifacts");
                archive_calls := archive_calls s |}).
  pose proof Hob as (Hopen & Hadd & Hexit).
  (* the archive is opened *)
  pose proof (Hopen target (fs (here s))) as Ho.
  destruct (tar_open target (fs (here s))) as [ro f1] eqn:Eo.
  simpl in Ho. subst ro. subst opened. cbn [snd] in exists_now.
  set (s1 := {| here := with_fs (here s0) f1;
                archive_calls := archive_calls s ++ [TarOpen target] |}).
  assert (tar_call (TarOpen target) (tar_open target) s0 = (Ok tt, s1))
    as Hcall1.
  { unfold tar_call.
    change (fs (here s0)) with (fs (here s)). now rewrite Eo. }
  (* the artifacts are added *)
  pose proof (export_loop_run self target Hob artifact_names s1 eq_refl)
    as Hloop.
  change (fs (here s1)) with f1 in Hloop.
  fold member in Hloop. fold exists_now in Hloop.
  set (s2 := {| here := here s1;
                archive_calls :=
                  archive_calls s1
                  ++ map member (filter exists_now artifact_names) |}) in *.
  (* the archive is closed *)
  pose proof (Hexit target true (fs (here s2))) as Hx.
  destruct (tar_exit target true (fs (here s2))) as [rx f2] eqn:Ex.
  simpl in Hx. subst rx.
  assert (Seal5FlowExport.with_archive
            target
            (for_each (Seal5FlowExport.artifacts self)
                      (Seal5FlowExport.export_artifact self target)) s0
          = (Ok tt, {| here := with_fs (here s2) f2;
                       archive_calls := archive_calls s2 ++ [TarClose target] |}))
    as Hwith.
  { unfold Seal5FlowExport.with_archive. rewrite Hcall1.
    change (Seal5FlowExport.artifacts self)
      with (map (path_join (Seal5Flow.meta_dir self)) artifact_names).
    rewrite Hloop. unfold tar_call. now rewrite Ex. }
  rewrite Hwith. cbn [fst snd archive_calls]. split; [reflexivity | ].
  unfold s2, s1. cbn [archive_calls]. rewrite <- !app_assoc. reflexivity.
Qed.

Lemma export_archives_relative_names_witness :
  let target := ["/"; "work"; "seal5-export.tar.gz"] in
  obliging sample_tarfile /\
  dest_path (DestStr "/work/seal5-export.tar.gz") = target /\
  (let run := Seal5FlowExport.export (T := sample_tarfile)
                (DestStr "/work/seal5-export.tar.gz") false fresh_flow
                sample_export_state in
   fst run = Returned tt /\
   archive_calls (snd run)
   = [TarOpen target;
      TarAdd target (Seal5Flow.inputs_dir fresh_flow) "inputs";
      TarAdd target (Seal5Flow.gen_dir fresh_flow) "gen";
      TarAdd target (Seal5Flow.models_dir fresh_flow) "models";
      TarAdd target (Seal5Flow.logs_dir fresh_flow) "logs";
      TarAdd target (Seal5Flow.settings_file fresh_flow) "settings.yml";
      TarClose target]) /\
  (* a name that is only a suffix is refused, a trailing slash is not seen *)
  fst (Seal5FlowExport.export (T := sample_tarfile) (DestStr "/work/.gz")
                              false fresh_flow sample_export_state)
  = NotImplemented "Only .tar.gz export is supported!" /\
  fst (Seal5FlowExport.export (T := sample_tarfile) (DestStr "/work/out.gz/")
                              false fresh_flow sample_export_state)
  = Returned tt.
Proof.
  intros target.
  assert (obliging sample_tarfile) as Hob by (repeat split).
  split; [exact Hob | ]. split; [reflexivity | ]. split; [ | split].
  - exact (export_archives_relative_names (T := sample_tarfile) fresh_flow
             (DestStr "/work/seal5-export.tar.gz") false sample_export_state
             Hob).
  - exact (proj1 (export_archives_relative_names (T := sample_tarfile)
                    fresh_flow (DestStr "/work/.gz") false
                    sample_export_state Hob)).
  - exact (proj1 (export_archives_relative_names (T := sample_tarfile)
                    fresh_flow (DestStr "/work/out.gz/") false
                    sample_export_state Hob)).
Defined.

(** ** What the failing-test pattern finds *)

Lemma last_index_found sub :
  forall s i j,
    last_index sub s i = Some j ->
    exists a r, s = (a ++ sub ++ r)%string /\ j = i + String.length a.
Proof.
  induction s as [ | c s IH]; intros i j H; [discriminate | ].
  cbn [last_index] in H.
  destruct (last_index sub s (S i)) as [j' | ] eqn:Hl.
  - injection H as <-. destruct (IH _ _ Hl) as (a & r & -> & ->).
    exists (String c a), r. split; [reflexivity | simpl; lia].
  - destruct (strip_prefix sub (String c s)) as [r | ] eqn:Hs; [ | discriminate].
    injection H as <-. apply strip_prefix_some in Hs.
    exists EmptyString, r. split; [exact Hs | simpl; lia].
Qed.

Lemma until_newline_prefix s :
  exists t, s = (until_newline s ++ t)%string.
Proof.
  induction s as [ | c s [t IH]]; simpl.
  - now exists EmptyString.
  - destruct (Ascii.eqb c newline).
    + now exists (String c s).
    + exists t. simpl. now rewrite <- IH.
Qed.

Lemma until_newline_no_newline s : no_newline (until_newline s) = true.
Proof.
  induction s as [ | c s IH]; simpl; auto.
  destruct (Ascii.eqb c newline) eqn:E; simpl; auto. now rewrite E.
Qed.

Lemma occurs_tail sub c s : occurs sub s = true -> occurs sub (String c s) = true.
Proof.
  intros H. cbn [occurs].
  destruct (strip_prefix sub (String c s)); auto.
Qed.

Lemma match_here_found s group len :
  match_here s = Some (group, len) ->
  no_newline group = true
  /\ exists r, s = ((fail_prefix ++ group ++ " (") ++ r)%string.
Proof.
  unfold match_here.
  destruct (strip_prefix fail_prefix s) as [rest | ] eqn:Hs; [ | discriminate].
  destruct (last_index " (" (until_newline rest) 0) as [j | ] eqn:Hl;
    [ | discriminate].
  intros [= <- _].
  apply strip_prefix_some in Hs.
  destruct (last_index_found _ _ _ _ Hl) as (a & r & Hline & ->).
  destruct (until_newline_prefix rest) as [t Ht].
  rewrite Hline in Ht. simpl Nat.add.
  assert (rest = a ++ (" (" ++ r ++ t))%string as Hrest
      by (rewrite Ht at 1; now rewrite !append_assoc).
  assert (substring 0 (String.length a) rest = a) as ->
      by (rewrite Hrest; apply substring_app).
  split.
  - pose proof (until_newline_no_newline rest) as Hn.
    rewrite Hline, no_newline_app in Hn.
    now apply andb_true_iff in Hn as [Hn _].
  - exists (r ++ t)%string. rewrite Hs, Hrest. now rewrite !append_assoc.
Qed.

Lemma findall_from_sound id :
  forall s skip,
    In id (findall_from s skip) ->
    no_newline id = true /\ occurs (fail_prefix ++ id ++ " (") s = true.
Proof.
  induction s as [ | c s IH]; intros skip Hin; [destruct Hin | ].
  cbn [findall_from] in Hin.
  assert (forall k, In id (findall_from s k) ->
                    no_newline id = true
                    /\ occurs (fail_prefix ++ id ++ " (") (String c s) = true)
    as Hrest.
  { intros k Hk. destruct (IH _ Hk) as [Hn Ho].
    split; [exact Hn | now apply occurs_tail]. }
  destruct skip as [ | n]; [ | now apply (Hrest n)].
  destruct (match_here (String c s)) as [[group len] | ] eqn:Hm;
    [ | now apply (Hrest 0)].
  destruct Hin as [<- | Hin]; [ | now apply (Hrest (len - 1))].
  destruct (match_here_found _ _ _ Hm) as [Hn [r Hr]].
  split; [exact Hn | ]. rewrite Hr.
  apply (occurs_here _ _ r). apply strip_prefix_app.
Qed.

(** X25: every identifier that [test_llvm] scrapes from an output of the
    test runner stands in that output, right after the failure marker and
    right before a space and an opening parenthesis, and holds no line
    feed: an identifier never runs over the end of its line. *)
Theorem scraped_identifiers_stand_in_output (out id : string) :
  In id (findall_failing out) ->
  no_newline id = true /\ occurs (fail_prefix ++ id ++ " (") out = true.
Proof. apply findall_from_sound. Qed.

Lemma scraped_identifiers_stand_in_output_witness :
  In "MC/RISCV/xexample (valid).s" (findall_failing sample_lit_output) /\
  no_newline "MC/RISCV/xexample (valid).s" = true /\
  occurs (fail_prefix ++ "MC/RISCV/xexample (valid).s" ++ " (")
         sample_lit_output = true.
Proof.
  assert (In "MC/RISCV/xexample (valid).s" (findall_failing sample_lit_output))
    as Hin by (vm_compute; right; left; reflexivity).
  split; [exact Hin | ].
  apply (scraped_identifiers_stand_in_output sample_lit_output
           "MC/RISCV/xexample (valid).s" Hin).
Defined.

(** ** The [init] subcommand on a fresh checkout *)

(** X26: on a checkout that exists, with nothing in the way and no
    workspace yet, the [init] subcommand builds the manager, initializes
    the workspace and ends with exit status 0, whatever the other
    arguments; the manager then holds the default settings.  This holds
    for the module as it stands. *)
Theorem init_subcommand_on_fresh_checkout {E : External}
        (args : init_args) (d : string) (w : world)
        (levels : value * value) :
  let self := {| Seal5Flow.directory := [d];
                 Seal5Flow.name := arg_name args;
                 Seal5Flow.state := UNKNOWN;
                 Seal5Flow.settings := None |} in
  arg_dir args = Some d ->
  room_for_workspace self (fs w) ->
  is_dir (fs w) (Seal5Flow.meta_dir self) = false ->
  is_file (fs w) (Seal5Flow.settings_file self) = false ->
  logging_levels (default_settings w) = Ok levels ->
  exists flow w',
    handle args w = (Ok tt, (Some flow, w'))
    /\ exit_status (fst (handle args w)) = 0%Z
    /\ Seal5Flow.settings flow = Some DefaultData.
Proof.
  intros self Hdir Hroom Hmeta Hfile Hlv.
  assert (exists w2, Seal5Flow.__init__ (DirStr d) (arg_name args) w
                     = (Ok self, w2)) as [w2 Hinit].
  { unfold Seal5Flow.__init__, Seal5Flow.check. fold self.
    rewrite (bind_step _ _ _ [d] w) by reflexivity. fold self.
    rewrite (bind_step _ _ _ false w)
      by (unfold probe; now rewrite Hfile).
    rewrite (bind_step _ _ _ self w) by reflexivity.
    rewrite (bind_step _ _ _ (is_dir (fs w) (Seal5Flow.logs_dir self)) w)
      by reflexivity.
    destruct (is_dir (fs w) (Seal5Flow.logs_dir self)).
    - eexists. erewrite bind_step; [reflexivity | ].
      erewrite bind_step by reflexivity. reflexivity.
    - eexists. erewrite bind_step; reflexivity. }
  destruct (init_same_files _ _ _ _ _ Hinit) as [Hfs Hdef].
  destruct (initialize_run_through
              self w2 (negb (arg_non_interactive args)) (arg_clone args)
              (Some (arg_clone_url args)) (Some (arg_clone_ref args))
              (arg_force args) (arg_verbose args) levels)
    as [o' Hrun].
  { now rewrite Hfs. }
  { rewrite Hfs, Hmeta. discriminate. }
  { now rewrite Hdef. }
  destruct (initialize_persists _ _ _ _ _ _ _ _ _ Hrun) as (Hs & _).
  exists (fst o'), (snd o').
  unfold handle. rewrite Hdir, Hinit, Hrun. auto.
Qed.

Lemma init_subcommand_on_fresh_checkout_witness :
  arg_dir init_again = Some "/work/llvm-project" /\
  room_for_workspace fresh_flow (fs fresh_world) /\
  is_dir (fs fresh_world) (Seal5Flow.meta_dir fresh_flow) = false /\
  is_file (fs fresh_world) (Seal5Flow.settings_file fresh_flow) = false /\
  logging_levels (default_settings fresh_world)
  = Ok (VStr "INFO", VStr "DEBUG") /\
  exists flow w',
    handle (E := as_written) init_again fresh_world = (Ok tt, (Some flow, w'))
    /\ exit_status (fst (handle (E := as_written) init_again fresh_world))
       = 0%Z
    /\ Seal5Flow.settings flow = Some DefaultData.
Proof.
  assert (room_for_workspace fresh_flow (fs fresh_world)) as Hroom.
  { split; [reflexivity | ]. split.
    - intros q [<- | []]. reflexivity.
    - split; [reflexivity | ]. split; [ | reflexivity].
      intros x _. reflexivity. }
  split; [reflexivity | ]. split; [exact Hroom | ].
  split; [reflexivity | ]. split; [reflexivity | ]. split; [reflexivity | ].
  apply (init_subcommand_on_fresh_checkout (E := as_written) init_again
           "/work/llvm-project" fresh_world (VStr "INFO", VStr "DEBUG")
           eq_refl Hroom eq_refl eq_refl eq_refl).
Defined.
